(** * Smart incident predictor: anomaly detection and risk scoring pipeline

    A shallow embedding of the decision logic of
    [src/ml/risk_scorer.py], [src/ml/alert_manager.py],
    [src/ml/optimized_anomaly_detector.py], [src/ml/anomaly_detector.py],
    [src/ml/feature_extractor.py] and the derived metrics of
    [src/monitoring/cloudwatch_client.py].

    Conventions of the embedding.
    - A Python number ([int] or [float]) is an exact rational ([Q]) or the
      float [nan] ([pyfloat]); rounding error, overflow and the infinities
      are not modelled.
    - A Python [dict] with string keys is a [gmap string _]; [d.get(k, v)] is
      [dict_get d k v]; [d.update(e)] is [dict_update d e].
    - Dynamically typed values that the code only compares with numbers are
      [pyval]s; an ill-typed operation raises. A [try]/[except] whose body
      can raise on the modelled inputs is written out with [try_except];
      where nothing in the body can raise, the handler is left out.
    - A method that mutates [self] takes the old state and returns the new
      one next to its result; clock reads are explicit arguments. *)

From Stdlib Require Import QArith Qround Qminmax Qabs Lqa ZArith String Ascii List Lia.
From stdpp Require Import gmap strings list fin_maps sorting.
Import ListNotations.

Local Open Scope Q_scope.
Local Open Scope string_scope.

(** ** Python values, exceptions and a few builtins *)

(** A number: a rational, or the float [nan]. *)
Inductive pyfloat : Type :=
  | Fin (q : Q)
  | NaN.

Coercion Fin : Q >-> pyfloat.

Inductive pyval : Type :=
  | VNum (x : pyfloat)
  | VStr (s : string)
  | VNone.

Inductive exn : Type :=
  | NameError
  | TypeError
  | ValueError.

(** The outcome of running a block of statements: a value, or a raised
    exception. *)
Inductive outcome (A : Type) : Type :=
  | Ret (a : A)
  | Raise (e : exn).
Arguments Ret {A} a.
Arguments Raise {A} e.

#[global] Instance outcome_ret : MRet outcome := fun A a => Ret a.
#[global] Instance outcome_bind : MBind outcome :=
  fun A B k m => match m with Ret a => k a | Raise e => Raise e end.

(** [try: body / except Exception: return handler]. *)
Definition try_except {A : Type} (body : outcome A) (handler : A) : A :=
  match body with
  | Ret a => a
  | Raise _ => handler
  end.

Definition Qltb (x y : Q) : bool := negb (Qle_bool y x).

(** Arithmetic propagates [nan]; every comparison with [nan] is false. *)
Definition fadd (x y : pyfloat) : pyfloat :=
  match x, y with
  | Fin a, Fin b => Fin (a + b)
  | _, _ => NaN
  end.

Definition fmul (x y : pyfloat) : pyfloat :=
  match x, y with
  | Fin a, Fin b => Fin (a * b)
  | _, _ => NaN
  end.

Definition fsub (x y : pyfloat) : pyfloat :=
  match x, y with
  | Fin a, Fin b => Fin (a - b)
  | _, _ => NaN
  end.

Definition fabs (x : pyfloat) : pyfloat :=
  match x with
  | Fin a => Fin (Qabs a)
  | NaN => NaN
  end.

(** [x / y] for a divisor that is not zero. *)
Definition fdiv (x y : pyfloat) : pyfloat :=
  match x, y with
  | Fin a, Fin b => Fin (a / b)
  | _, _ => NaN
  end.

(** [x > c] *)
Definition fgt (x : pyfloat) (c : Q) : bool :=
  match x with
  | Fin a => Qltb c a
  | NaN => false
  end.

(** [x < c] *)
Definition flt (x : pyfloat) (c : Q) : bool :=
  match x with
  | Fin a => Qltb a c
  | NaN => false
  end.

(** The builtin [max(a, b)] keeps [a] unless [b > a]; [min(a, b)] keeps [a]
    unless [b < a]. With [a] a rational and [b] possibly [nan]: *)
Definition py_max (a : Q) (b : pyfloat) : Q :=
  match b with
  | Fin y => if Qltb a y then y else a
  | NaN => a
  end.

Definition py_min (a : Q) (b : pyfloat) : Q :=
  match b with
  | Fin y => if Qltb y a then y else a
  | NaN => a
  end.

(** [max(a, b)] with [a] possibly [nan]: [nan] stays. *)
Definition py_max_l (a : pyfloat) (b : Q) : pyfloat :=
  match a with
  | Fin x => Fin (if Qltb x b then b else x)
  | NaN => NaN
  end.

Abbreviation features_t := (gmap string pyval).

(** [d.get(key, dflt)] *)
Definition dict_get {V : Type} (d : gmap string V) (key : string) (dflt : V) : V :=
  default dflt (d !! key).

(** [d.update(e)]: the entries of [e] win. *)
Definition dict_update {V : Type} (d e : gmap string V) : gmap string V := e ∪ d.

(** [v > c] for a number [c]: ordering a [str] or [None] against a number
    raises [TypeError]. *)
Definition py_gt (v : pyval) (c : Q) : outcome bool :=
  match v with
  | VNum x => Ret (fgt x c)
  | _ => Raise TypeError
  end.

(** An [if v > t1: s1 elif v > t2: s2 ... else: dflt] chain; the first
    comparison already raises when [v] is not a number. *)
Fixpoint first_bracket (x : pyfloat) (brackets : list (Q * Q)) (dflt : Q) : Q :=
  match brackets with
  | [] => dflt
  | (t, s) :: rest => if fgt x t then s else first_bracket x rest dflt
  end.

Definition ladder (v : pyval) (brackets : list (Q * Q)) (dflt : Q) : outcome Q :=
  match v with
  | VNum x => Ret (first_bracket x brackets dflt)
  | _ => Raise TypeError
  end.

Fixpoint string_repeat (s : string) (n : nat) : string :=
  match n with
  | O => ""
  | S n' => s ++ string_repeat s n'
  end.

(** [v * 100]: a number is scaled, a [str] is repeated, [None] raises. *)
Definition py_times100 (v : pyval) : outcome pyval :=
  match v with
  | VNum x => Ret (VNum (fmul x 100))
  | VStr s => Ret (VStr (string_repeat s 100))
  | VNone => Raise TypeError
  end.

(** [l[k:]] with Python's treatment of a negative or too large [k]. *)
Definition py_slice_from {A : Type} (k : Z) (l : list A) : list A :=
  let n := Z.of_nat (length l) in
  let start := if (k <? 0)%Z then Z.max (n + k) 0 else Z.min k n in
  drop (Z.to_nat start) l.

Definition Qsum (l : list Q) : Q := fold_right Qplus 0 l.

(** [np.mean] of a list of rationals; the mean of no numbers is [nan]. *)
Definition np_mean (l : list Q) : pyfloat :=
  match l with
  | [] => NaN
  | _ => Fin (Qsum l / inject_Z (Z.of_nat (length l)))
  end.

(** [np.mean] of a list that may hold [nan] or non-numbers: one [nan] makes
    the mean [nan], and numpy refuses to reduce an array of strings or
    objects. *)
Fixpoint nums_of (l : list pyval) : outcome (list pyfloat) :=
  match l with
  | [] => Ret []
  | VNum x :: rest => xs ← nums_of rest; Ret (x :: xs)
  | _ :: _ => Raise TypeError
  end.

Definition fsum (l : list pyfloat) : pyfloat := fold_right fadd (Fin 0) l.

Definition np_mean_f (xs : list pyfloat) : pyfloat :=
  match xs with
  | [] => NaN
  | _ => fdiv (fsum xs) (Fin (inject_Z (Z.of_nat (length xs))))
  end.

Definition np_mean_vals (l : list pyval) : outcome pyfloat :=
  xs ← nums_of l; Ret (np_mean_f xs).

(** [np.min] and [np.max] of a non-empty list of rationals. *)
Definition np_min (l : list Q) : Q :=
  match l with
  | [] => 0
  | x :: rest => fold_left (fun m y => if Qltb y m then y else m) rest x
  end.

Definition np_max (l : list Q) : Q :=
  match l with
  | [] => 0
  | x :: rest => fold_left (fun m y => if Qltb m y then y else m) rest x
  end.

(** [min(a, b)] with [a] possibly [nan]: [nan] stays. *)
Definition py_min_l (a : pyfloat) (b : Q) : pyfloat :=
  match a with
  | Fin x => Fin (if Qltb b x then b else x)
  | NaN => NaN
  end.

(** [l[-1] if l else 0] *)
Definition last_or_zero (l : list Q) : Q := default 0 (last l).

(** [l[-2]] of a list with at least two entries. *)
Definition second_last (l : list Q) : Q := default 0 (l !! (length l - 2)%nat).

(** [str.upper] on ASCII text. *)
Definition ascii_upper (c : ascii) : ascii :=
  let n := nat_of_ascii c in
  if ((97 <=? n) && (n <=? 122))%nat then ascii_of_nat (n - 32) else c.

Fixpoint string_upper (s : string) : string :=
  match s with
  | EmptyString => EmptyString
  | String c rest => String (ascii_upper c) (string_upper rest)
  end.

(** Slope of the least-squares line through [(0, y0), (1, y1), ...]:
    [np.polyfit(range(len(ys)), ys, 1)[0]]. *)
Definition polyfit_slope (ys : list Q) : Q :=
  let n := inject_Z (Z.of_nat (length ys)) in
  let xs := map (fun i => inject_Z (Z.of_nat i)) (seq 0 (length ys)) in
  let sx := Qsum xs in
  let sy := Qsum ys in
  let sxy := Qsum (zip_with Qmult xs ys) in
  let sxx := Qsum (map (fun x => x * x) xs) in
  (n * sxy - sx * sy) / (n * sxx - sx * sx).

(** [round(x, 2)]: to the nearest hundredth, ties to the even neighbour. *)
Definition round_half_even (x : Q) : Z :=
  let f := Qfloor x in
  match Qcompare (x - inject_Z f) (1 # 2) with
  | Lt => f
  | Gt => (f + 1)%Z
  | Eq => if Z.even f then f else (f + 1)%Z
  end.

Definition py_round2 (x : Q) : Q := round_half_even (x * 100) # 100.

(** Name resolution inside a function body: a name that is neither a local
    nor a module global raises [NameError]. *)
Fixpoint lookup_name {A : Type} (scope : list (string * A)) (name : string) : outcome A :=
  match scope with
  | [] => Raise NameError
  | (n, v) :: rest => if String.eqb n name then Ret v else lookup_name rest name
  end.

(** ** [RiskScorer] ([src/ml/risk_scorer.py]) *)

Module RiskScorer.

(** [self.risk_config] *)
Definition weight_anomaly_score : Q := 4 # 10.
Definition weight_system_stress : Q := 25 # 100.
Definition weight_error_rate : Q := 2 # 10.
Definition weight_performance : Q := 15 # 100.

Definition threshold_low_risk : Q * Q := (0, 30).
Definition threshold_medium_risk : Q * Q := (31, 70).
Definition threshold_high_risk : Q * Q := (71, 100).

Definition critical_system : Q := 15 # 10.
Definition customer_facing : Q := 13 # 10.

(** One entry of [self.prediction_history]. *)
Record prediction : Type := {
  p_timestamp : string;
  p_risk_score : Q;
  p_features : features_t
}.

Record state : Type := {
  prediction_history : list prediction;
  baseline_metrics : features_t
}.

(** [_normalize_anomaly_score]; it has no handler of its own. *)
Definition _normalize_anomaly_score (anomaly_score : pyval) : outcome Q :=
  match anomaly_score with
  | VNum a =>
      if flt a 0
      then Ret (py_min 100 (fadd 50 (fmul (fabs a) 50)))
      else Ret (py_max 0 (fsub 50 (fmul a 50)))
  | _ => Raise TypeError
  end.

Definition _calculate_system_stress_score (features : features_t) : pyfloat :=
  try_except
    (cpu ← ladder (dict_get features "cpu_current" (VNum 0))
                  [(90, 100); (80, 75); (70, 50); (50, 25)] 0;
     mem ← ladder (dict_get features "memory_current" (VNum 0))
                  [(95, 100); (85, 75); (75, 50); (60, 25)] 0;
     disk ← ladder (dict_get features "disk_current" (VNum 0))
                   [(95, 100); (85, 75); (75, 50)] 0;
     stress ← py_times100 (dict_get features "system_stress_score" (VNum 0));
     np_mean_vals [VNum (Fin cpu); VNum (Fin mem); VNum (Fin disk); stress])
    (Fin 0).

(** [def _calculate_error_rate_score(self, float) -> float]: the only
    parameter besides [self] is named [float], and the body reads
    [features], which is not a global of the module either. *)
Definition _calculate_error_rate_score (float : features_t) : Q :=
  let scope := [("float", float)] in
  try_except
    (features ← lookup_name scope "features";
     let log_error_ratio := dict_get features "log_error_ratio" (VNum 0) in
     let error_spike := dict_get features "recent_error_spike" (VNum 1) in
     let error_types := dict_get features "error_types_count" (VNum 0) in
     base ← ladder log_error_ratio
                   [(2 # 10, 80); (1 # 10, 60); (5 # 100, 40); (1 # 100, 20)] 0;
     spike ← ladder error_spike [(5, 40); (3, 25); (2, 15)] 0;
     diversity ← ladder error_types [(5, 20); (3, 10); (1, 5)] 0;
     Ret (py_min 100 (Fin (0 + base + spike + diversity))))
    0.

Definition _calculate_performance_score (features : features_t) : Q :=
  try_except
    (let response_time_current := dict_get features "response_time_current" (VNum 0) in
     let response_time_p95 := dict_get features "response_time_p95" (VNum 0) in
     let log_response_time_p95 := dict_get features "log_response_time_p95" (VNum 0) in
     cur ← ladder response_time_current
                  [(5000, 80); (2000, 60); (1000, 40); (500, 20)] 0;
     p95 ← ladder response_time_p95 [(3000, 60); (1500, 40); (800, 20)] 0;
     logp95 ← ladder log_response_time_p95 [(2000, 40); (1000, 25); (500, 10)] 0;
     slow ← ladder (dict_get features "slow_requests_ratio" (VNum 0))
                   [(2 # 10, 50); (1 # 10, 30); (5 # 100, 15)] 0;
     Ret (py_min 100 (Fin (0 + cur + p95 + logp95 + slow))))
    0.

Definition _apply_severity_multipliers (risk_score : pyfloat) (features : features_t)
    : pyfloat :=
  try_except
    (let multiplier := 1 in
     cpu_hot ← py_gt (dict_get features "cpu_current" (VNum 0)) 95;
     critical ← (if (cpu_hot : bool) then Ret true
                 else py_gt (dict_get features "memory_current" (VNum 0)) 98);
     let multiplier := if (critical : bool) then multiplier * critical_system else multiplier in
     let error_patterns := dict_get features "log_pattern_connection_ratio" (VNum 0) in
     conn ← py_gt error_patterns (1 # 10);
     let multiplier := if (conn : bool) then multiplier * customer_facing else multiplier in
     let db_patterns := dict_get features "log_pattern_database_ratio" (VNum 0) in
     db ← py_gt db_patterns (5 # 100);
     let multiplier := if (db : bool) then multiplier * customer_facing else multiplier in
     Ret (fmul risk_score multiplier))
    risk_score.

(** [_apply_temporal_context]; [current_hour] is [datetime.now().hour].
    The stored scores are rationals, so nothing in the [try] block raises. *)
Definition _apply_temporal_context (st : state) (current_hour : Z)
    (risk_score : pyfloat) : pyfloat :=
  let recent_predictions := py_slice_from (-10) (prediction_history st) in
  let risk_score :=
    if (3 <=? length recent_predictions)%nat then
      let recent_scores := map p_risk_score recent_predictions in
      let risk_score :=
        if (3 <=? length recent_scores)%nat then
          let trend := polyfit_slope recent_scores in
          if Qltb 5 trend then fmul risk_score (12 # 10)
          else if Qltb trend (-5) then fmul risk_score (9 # 10)
          else risk_score
        else risk_score in
      if fgt (np_mean (py_slice_from (-3) recent_scores)) 60
      then fmul risk_score (11 # 10)
      else risk_score
    else risk_score in
  if ((2 <=? current_hour) && (current_hour <=? 5))%Z
  then fmul risk_score (11 # 10)
  else if ((9 <=? current_hour) && (current_hour <=? 17))%Z
  then fmul risk_score (105 # 100)
  else risk_score.

(** [_store_prediction]; [utc_iso] is [datetime.utcnow().isoformat()].
    [risk_score] is the clamped score, before rounding. *)
Definition _store_prediction (st : state) (utc_iso : string) (risk_score : Q)
    (features : features_t) : state :=
  let history :=
    (prediction_history st ++
      [{| p_timestamp := utc_iso; p_risk_score := risk_score;
          p_features := features |}])%list in
  let history :=
    if (1000 <? length history)%nat then py_slice_from (-1000) history else history in
  {| prediction_history := history; baseline_metrics := baseline_metrics st |}.

(** The body of the [try] block of [calculate_risk_score]. *)
Definition calculate_risk_score_body (st : state) (current_hour : Z) (utc_iso : string)
    (anomaly_score : pyval) (features : features_t) : outcome (Q * state) :=
  normalized_anomaly_score ← _normalize_anomaly_score anomaly_score;
  let system_stress_score := _calculate_system_stress_score features in
  let error_rate_score := _calculate_error_rate_score features in
  let performance_score := _calculate_performance_score features in
  let risk_score :=
    fadd (fadd (fadd (Fin (normalized_anomaly_score * weight_anomaly_score))
                     (fmul system_stress_score weight_system_stress))
               (Fin (error_rate_score * weight_error_rate)))
         (Fin (performance_score * weight_performance)) in
  let risk_score := _apply_severity_multipliers risk_score features in
  let risk_score := _apply_temporal_context st current_hour risk_score in
  let risk_score := py_max 0 (Fin (py_min 100 risk_score)) in
  let st' := _store_prediction st utc_iso risk_score features in
  Ret (py_round2 risk_score, st').

Definition calculate_risk_score (st : state) (current_hour : Z) (utc_iso : string)
    (anomaly_score : pyval) (features : features_t) : Q * state :=
  try_except (calculate_risk_score_body st current_hour utc_iso anomaly_score features)
             (0, st).

Definition get_risk_level (risk_score : Q) : string :=
  if Qle_bool (fst threshold_high_risk) risk_score then "HIGH"
  else if Qle_bool (fst threshold_medium_risk) risk_score then "MEDIUM"
  else "LOW".

(** The error-rate sub-score as the specification words it, on a record
    whose three inputs are numbers: highest matching base bracket plus the
    spike and diversity penalties, capped at 100. *)
Definition error_rate_score_spec (log_error_ratio error_spike error_types : Q) : Q :=
  Qmin 100
    (first_bracket log_error_ratio
       [(2 # 10, 80); (1 # 10, 60); (5 # 100, 40); (1 # 100, 20)] 0 +
     first_bracket error_spike [(5, 40); (3, 25); (2, 15)] 0 +
     first_bracket error_types [(5, 20); (3, 10); (1, 5)] 0).

End RiskScorer.

(** ** [AlertManager] ([src/ml/alert_manager.py]) *)

Module AlertManager.

Record Alert : Type := {
  timestamp : string;
  risk_score : Q;
  risk_level : string;
  description : string;
  responsible_metrics : list string;
  recommendations : list string;
  incident_id : string
}.

(** [self.alert_config] together with what the three notification
    channels have received so far. A [datetime] is the number of seconds
    since the epoch. *)
Record state : Type := {
  sns_topic_arn : option string;
  min_alert_interval : Q;
  alert_cooldown : gmap string Q;
  incident_counter : Z;
  console_out : list Alert;
  sns_out : list Alert;
  cloudwatch_out : list Alert
}.

(** The argument of [send_alert]: the entries of [alert_data] it reads. *)
Record alert_data : Type := {
  ad_risk_score : option Q;
  ad_features : option features_t
}.

(** The values [datetime.utcnow()] returns at its successive calls during
    one [send_alert]. *)
Record clock : Type := {
  now_cooldown_check : Q;
  now_incident_id : Q;
  now_description : Q;
  now_timestamp : Q;
  now_metric : Q;
  now_cooldown_update : Q
}.

Definition _determine_risk_level (risk_score : Q) : string :=
  if Qle_bool 71 risk_score then "HIGH"
  else if Qle_bool 31 risk_score then "MEDIUM"
  else "LOW".

(** [_is_in_cooldown]: a stored [datetime] is always truthy, so only a
    missing entry takes the early [return False]. *)
Definition _is_in_cooldown (st : state) (now : Q) (risk_level : string) : bool :=
  match alert_cooldown st !! risk_level with
  | None => false
  | Some last_alert_time =>
      let cooldown_period := min_alert_interval st in
      Qltb (now - last_alert_time) cooldown_period
  end.

Definition set_cooldown (st : state) (cd : gmap string Q) : state :=
  {| sns_topic_arn := sns_topic_arn st; min_alert_interval := min_alert_interval st;
     alert_cooldown := cd; incident_counter := incident_counter st;
     console_out := console_out st; sns_out := sns_out st;
     cloudwatch_out := cloudwatch_out st |}.

Definition set_counter (st : state) (n : Z) : state :=
  {| sns_topic_arn := sns_topic_arn st; min_alert_interval := min_alert_interval st;
     alert_cooldown := alert_cooldown st; incident_counter := n;
     console_out := console_out st; sns_out := sns_out st;
     cloudwatch_out := cloudwatch_out st |}.

Definition _update_cooldown (st : state) (now : Q) (risk_level : string) : state :=
  set_cooldown st (<[risk_level := now]> (alert_cooldown st)).

(** [x = features.get(key, 0)] where the next statement compares [x] with
    a number: that comparison raises unless [x] is a number. *)
Definition get_number (features : features_t) (key : string) : outcome pyfloat :=
  match dict_get features key (VNum 0) with
  | VNum x => Ret x
  | _ => Raise TypeError
  end.

(** The five entries that building an alert compares with numbers. *)
Definition reads_number (features : features_t) (key : string) : bool :=
  match dict_get features key (VNum 0) with
  | VNum _ => true
  | _ => false
  end.

Definition alert_inputs_numeric (features : features_t) : bool :=
  forallb (reads_number features)
    ["cpu_current"; "memory_current"; "log_error_ratio"; "response_time_current";
     "system_stress_score"].

(** The level [send_alert] computes for its argument. *)
Definition level_of (data : alert_data) : string :=
  _determine_risk_level (default 0 (ad_risk_score data)).

Definition newline : string := String (ascii_of_nat 10) "".

(** The glyphs of [self.alert_templates] and the bullet of the message
    are written in ASCII. *)
Definition template_emoji (risk_level : string) : string :=
  if String.eqb risk_level "HIGH" then "[alarm]"
  else if String.eqb risk_level "MEDIUM" then "[warning]"
  else if String.eqb risk_level "LOW" then "[info]"
  else "[search]".

Definition bullet : string := "* ".

Definition append_if (b : bool) (items : list string) (l : list string) : list string :=
  if b then (l ++ items)%list else l.

Section Rendering.

(** Text rendering and the remote services are outside the modelled
    code: [fmt spec x] is [format(x, spec)], [strftime] and [isoformat]
    are the [datetime] methods, [sns_ok] and [cloudwatch_ok] tell
    whether the remote call for an alert goes through. *)
Variable fmt : string -> Q -> string.
Variable strftime : string -> Q -> string.
Variable isoformat : Q -> string.
Variable sns_ok : Alert -> bool.
Variable cloudwatch_ok : Alert -> bool.

Definition fmt_float (spec : string) (x : pyfloat) : string :=
  match x with
  | Fin q => fmt spec q
  | NaN => "nan"
  end.

Definition _identify_responsible_metrics (features : features_t) (risk_score : Q)
    : outcome (list string) :=
  let responsible := [] in
  cpu_current ← get_number features "cpu_current";
  let responsible :=
    append_if (fgt cpu_current 80)
      ["CPU Usage (" ++ fmt_float ".1f" cpu_current ++ "%)"] responsible in
  memory_current ← get_number features "memory_current";
  let responsible :=
    append_if (fgt memory_current 80)
      ["Memory Usage (" ++ fmt_float ".1f" memory_current ++ "%)"] responsible in
  error_ratio ← get_number features "log_error_ratio";
  let responsible :=
    append_if (fgt error_ratio (5 # 100))
      ["Error Rate (" ++ fmt_float ".1f" (fmul error_ratio 100) ++ "%)"] responsible in
  response_time ← get_number features "response_time_current";
  let responsible :=
    append_if (fgt response_time 1000)
      ["Response Time (" ++ fmt_float ".0f" response_time ++ "ms)"] responsible in
  stress_score ← get_number features "system_stress_score";
  let responsible :=
    append_if (fgt stress_score (7 # 10))
      ["System Stress (" ++ fmt_float ".1f" (fmul stress_score 100) ++ "%)"] responsible in
  let responsible :=
    match responsible with
    | [] => ["ML Anomaly Detection"]
    | _ => responsible
    end in
  Ret responsible.

Definition _generate_recommendations (features : features_t) (risk_level : string)
    : outcome (list string) :=
  let recommendations := [] in
  cpu_current ← get_number features "cpu_current";
  let recommendations :=
    if fgt cpu_current 90 then
      (recommendations ++ ["Scale up CPU resources immediately";
                           "Check for CPU-intensive processes"])%list
    else if fgt cpu_current 70 then
      (recommendations ++ ["Monitor CPU usage closely";
                           "Consider scaling up if trend continues"])%list
    else recommendations in
  memory_current ← get_number features "memory_current";
  let recommendations :=
    if fgt memory_current 90 then
      (recommendations ++ ["Scale up memory resources immediately";
                           "Check for memory leaks"])%list
    else if fgt memory_current 75 then
      (recommendations ++ ["Monitor memory usage trends"])%list
    else recommendations in
  error_ratio ← get_number features "log_error_ratio";
  let recommendations :=
    if fgt error_ratio (1 # 10) then
      (recommendations ++ ["Investigate recent deployments";
                           "Check database connectivity"])%list
    else if fgt error_ratio (5 # 100) then
      (recommendations ++ ["Review recent error logs"])%list
    else recommendations in
  response_time ← get_number features "response_time_current";
  let recommendations :=
    if fgt response_time 2000 then
      (recommendations ++ ["Investigate performance bottlenecks";
                           "Check external service dependencies"])%list
    else if fgt response_time 1000 then
      (recommendations ++ ["Monitor application performance"])%list
    else recommendations in
  let recommendations :=
    if String.eqb risk_level "HIGH" then
      ("IMMEDIATE ACTION REQUIRED" :: recommendations
         ++ ["Consider incident response procedures"])%list
    else if String.eqb risk_level "MEDIUM" then
      (recommendations ++ ["Prepare for potential escalation";
                           "Notify on-call engineer"])%list
    else recommendations in
  let recommendations :=
    match recommendations with
    | [] => ["Continue monitoring system metrics";
             "Review anomaly detection patterns"]
    | _ => recommendations
    end in
  Ret (take 5 recommendations).

Definition _generate_alert_description (now : Q) (risk_score : Q)
    (risk_level : string) (features : features_t) : outcome string :=
  let emoji := template_emoji risk_level in
  let description :=
    emoji ++ " " ++ risk_level ++ " RISK INCIDENT PREDICTED" ++ newline in
  let description :=
    description ++ "Risk Score: " ++ fmt ".1f" risk_score ++ "/100" ++ newline in
  let description :=
    description ++ "Timestamp: " ++ strftime "%Y-%m-%d %H:%M:%S UTC" now
      ++ newline ++ newline in
  let description := description ++ "KEY METRICS:" ++ newline in
  cpu_current ← get_number features "cpu_current";
  let description :=
    if fgt cpu_current 0
    then description ++ bullet ++ "CPU Usage: " ++ fmt_float ".1f" cpu_current ++ "%" ++ newline
    else description in
  memory_current ← get_number features "memory_current";
  let description :=
    if fgt memory_current 0
    then description ++ bullet ++ "Memory Usage: " ++ fmt_float ".1f" memory_current
           ++ "%" ++ newline
    else description in
  error_ratio ← get_number features "log_error_ratio";
  let description :=
    if fgt error_ratio 0
    then description ++ bullet ++ "Error Rate: " ++ fmt_float ".2f" (fmul error_ratio 100)
           ++ "%" ++ newline
    else description in
  response_time ← get_number features "response_time_current";
  let description :=
    if fgt response_time 0
    then description ++ bullet ++ "Response Time: " ++ fmt_float ".0f" response_time
           ++ "ms" ++ newline
    else description in
  let description := description ++ newline ++ "PREDICTION: " in
  let description :=
    if String.eqb risk_level "HIGH"
    then description ++ "System failure expected within 5-10 minutes"
    else if String.eqb risk_level "MEDIUM"
    then description ++ "Performance degradation likely within 15-30 minutes"
    else description ++ "Minor issues may affect user experience" in
  Ret description.

(** [_create_alert] bumps the incident counter before anything can
    raise, so the new state is returned next to the outcome. *)
Definition _create_alert (st : state) (clk : clock) (risk_score : Q)
    (risk_level : string) (features : features_t) : state * outcome Alert :=
  let st := set_counter st (incident_counter st + 1) in
  let incident_id :=
    "INC-" ++ strftime "%Y%m%d" (now_incident_id clk) ++ "-"
      ++ fmt "04d" (inject_Z (incident_counter st)) in
  (st,
   responsible_metrics ← _identify_responsible_metrics features risk_score;
   recommendations ← _generate_recommendations features risk_level;
   description ←
     _generate_alert_description (now_description clk) risk_score risk_level features;
   Ret {| timestamp := isoformat (now_timestamp clk);
          risk_score := risk_score;
          risk_level := risk_level;
          description := description;
          responsible_metrics := responsible_metrics;
          recommendations := recommendations;
          incident_id := incident_id |}).

(** The three channels; each swallows its own failure. *)
Definition _send_console_alert (st : state) (alert : Alert) : state :=
  {| sns_topic_arn := sns_topic_arn st; min_alert_interval := min_alert_interval st;
     alert_cooldown := alert_cooldown st; incident_counter := incident_counter st;
     console_out := (console_out st ++ [alert])%list; sns_out := sns_out st;
     cloudwatch_out := cloudwatch_out st |}.

Definition _send_sns_alert (st : state) (alert : Alert) : state :=
  match sns_topic_arn st with
  | None => st
  | Some _ =>
      if sns_ok alert then
        {| sns_topic_arn := sns_topic_arn st;
           min_alert_interval := min_alert_interval st;
           alert_cooldown := alert_cooldown st;
           incident_counter := incident_counter st;
           console_out := console_out st;
           sns_out := (sns_out st ++ [alert])%list;
           cloudwatch_out := cloudwatch_out st |}
      else st
  end.

Definition _send_cloudwatch_metric (st : state) (alert : Alert) : state :=
  if cloudwatch_ok alert then
    {| sns_topic_arn := sns_topic_arn st; min_alert_interval := min_alert_interval st;
       alert_cooldown := alert_cooldown st; incident_counter := incident_counter st;
       console_out := console_out st; sns_out := sns_out st;
       cloudwatch_out := (cloudwatch_out st ++ [alert])%list |}
  else st.

Definition send_alert (st : state) (clk : clock) (data : alert_data) : state :=
  let risk_score := default 0 (ad_risk_score data) in
  let features := default ∅ (ad_features data) in
  let risk_level := _determine_risk_level risk_score in
  if _is_in_cooldown st (now_cooldown_check clk) risk_level then st
  else
    let (st, created) := _create_alert st clk risk_score risk_level features in
    match created with
    | Raise _ => st
    | Ret alert =>
        let st := _send_console_alert st alert in
        let st := _send_sns_alert st alert in
        let st := _send_cloudwatch_metric st alert in
        _update_cooldown st (now_cooldown_update clk) risk_level
    end.

End Rendering.

End AlertManager.

(** [l[:k]] *)
Definition py_slice_to {A : Type} (k : Z) (l : list A) : list A :=
  let n := Z.of_nat (length l) in
  let stop := if (k <? 0)%Z then Z.max (n + k) 0 else Z.min k n in
  take (Z.to_nat stop) l.

(** ** [OptimizedAnomalyDetector] ([src/ml/optimized_anomaly_detector.py]) *)

Module OptimizedAnomalyDetector.

Section Detector.

(** The scikit-learn objects are opaque: [scaler_fit_transform] is
    [StandardScaler.fit_transform] and [model_fit] is
    [IsolationForest.fit]; both update the object in place and may
    raise. [new_model] is the freshly constructed forest. *)
Variables scaler_t model_t : Type.
Variable scaler_fit_transform :
  scaler_t -> list (list Q) -> scaler_t * outcome (list (list Q)).
Variable new_model : model_t.
Variable model_fit : model_t -> list (list Q) -> model_t * outcome unit.

Record state : Type := {
  model : option model_t;
  scaler : scaler_t;
  is_trained : bool;
  training_data : list (list pyfloat);
  max_training_samples : Z;
  min_samples : Z;
  enabled_features : list string;
  feature_limit : Z
}.

Definition set_training_data (st : state) (d : list (list pyfloat)) : state :=
  {| model := model st; scaler := scaler st; is_trained := is_trained st;
     training_data := d; max_training_samples := max_training_samples st;
     min_samples := min_samples st; enabled_features := enabled_features st;
     feature_limit := feature_limit st |}.

(** The feature vector built at the start of [_add_to_training_data]:
    a value that is not an [int] or [float] counts as [0.0]. *)
Definition feature_vector (st : state) (features : features_t) : list pyfloat :=
  map (fun feature =>
         match dict_get features feature (VNum 0) with
         | VNum value => value
         | _ => Fin 0
         end)
      (py_slice_to (feature_limit st) (enabled_features st)).

(** [self.training_data[-self.max_training_samples//2:]]: the unary
    minus applies to [max_training_samples] before the floor division. *)
Definition _add_to_training_data (st : state) (features : features_t) : state :=
  let data := (training_data st ++ [feature_vector st features])%list in
  let data :=
    if (max_training_samples st <? Z.of_nat (length data))%Z
    then py_slice_from ((- max_training_samples st) / 2)%Z data
    else data in
  set_training_data st data.

(** The step of [_detection_cycle] that feeds the buffer. *)
Definition _detection_cycle_add (st : state) (features : features_t) : state :=
  if (Z.of_nat (length (training_data st)) <? max_training_samples st)%Z
  then _add_to_training_data st features
  else st.

(** [np.nan_to_num(X, nan=0.0, ...)] *)
Definition nan_to_num (X : list (list pyfloat)) : list (list Q) :=
  map (map (fun x => match x with Fin q => q | NaN => 0 end)) X.

Definition _train_model (st : state) : bool * state :=
  if (Z.of_nat (length (training_data st)) <? min_samples st)%Z then (false, st)
  else
    let X := nan_to_num (training_data st) in
    let (sc, scaled) := scaler_fit_transform (scaler st) X in
    let st :=
      {| model := model st; scaler := sc; is_trained := is_trained st;
         training_data := training_data st;
         max_training_samples := max_training_samples st;
         min_samples := min_samples st; enabled_features := enabled_features st;
         feature_limit := feature_limit st |} in
    match scaled with
    | Raise _ => (false, st)
    | Ret X_scaled =>
        let (m, fitted) := model_fit new_model X_scaled in
        let st :=
          {| model := Some m; scaler := scaler st; is_trained := is_trained st;
             training_data := training_data st;
             max_training_samples := max_training_samples st;
             min_samples := min_samples st; enabled_features := enabled_features st;
             feature_limit := feature_limit st |} in
        match fitted with
        | Raise _ => (false, st)
        | Ret _ =>
            (true,
             {| model := model st; scaler := scaler st; is_trained := true;
                training_data := py_slice_from (-100) (training_data st);
                max_training_samples := max_training_samples st;
                min_samples := min_samples st;
                enabled_features := enabled_features st;
                feature_limit := feature_limit st |})
        end
    end.

End Detector.

Arguments model {scaler_t model_t} s.
Arguments scaler {scaler_t model_t} s.
Arguments is_trained {scaler_t model_t} s.
Arguments training_data {scaler_t model_t} s.
Arguments max_training_samples {scaler_t model_t} s.
Arguments min_samples {scaler_t model_t} s.
Arguments enabled_features {scaler_t model_t} s.
Arguments feature_limit {scaler_t model_t} s.
Arguments feature_vector {scaler_t model_t} st features.
Arguments _add_to_training_data {scaler_t model_t} st features.
Arguments _detection_cycle_add {scaler_t model_t} st features.
Arguments _train_model {scaler_t model_t} _ _ _ st.

(** A run of buffer-feeding steps: the unguarded append of
    [_perform_initial_training] or the guarded one of [_detection_cycle]. *)
Inductive feed : Type :=
  | Append (features : features_t)
  | CycleAppend (features : features_t).

Definition feed_step {scaler_t model_t : Type} (st : state scaler_t model_t) (op : feed)
    : state scaler_t model_t :=
  match op with
  | Append f => _add_to_training_data st f
  | CycleAppend f => _detection_cycle_add st f
  end.

Definition feed_all {scaler_t model_t : Type} (st : state scaler_t model_t)
    (ops : list feed) : state scaler_t model_t :=
  fold_left feed_step ops st.

End OptimizedAnomalyDetector.

(** ** [AnomalyDetector] ([src/ml/anomaly_detector.py]) *)

Module AnomalyDetector.

Section Detector.

(** [to_matrix] stands for the pandas steps of [train_model]
    ([DataFrame], numeric column selection, [fillna]); [save_model] is
    [_save_model], which writes a file and changes nothing in memory. *)
Variables scaler_t model_t : Type.
Variable to_matrix : list features_t -> outcome (list (list Q)).
Variable scaler_fit_transform :
  scaler_t -> list (list Q) -> scaler_t * outcome (list (list Q)).
Variable model_fit : model_t -> list (list Q) -> model_t * outcome unit.

Record state : Type := {
  model : model_t;
  scaler : scaler_t;
  is_trained : bool;
  config_min_samples : Z;
  training_data : list features_t
}.

Definition train_model (st : state) (data : list features_t) : bool * state :=
  if (Z.of_nat (length data) <? config_min_samples st)%Z then (false, st)
  else
    match to_matrix data with
    | Raise _ => (false, st)
    | Ret X =>
        let (sc, scaled) := scaler_fit_transform (scaler st) X in
        let st :=
          {| model := model st; scaler := sc; is_trained := is_trained st;
             config_min_samples := config_min_samples st;
             training_data := training_data st |} in
        match scaled with
        | Raise _ => (false, st)
        | Ret X_scaled =>
            let (m, fitted) := model_fit (model st) X_scaled in
            let st :=
              {| model := m; scaler := scaler st; is_trained := is_trained st;
                 config_min_samples := config_min_samples st;
                 training_data := training_data st |} in
            match fitted with
            | Raise _ => (false, st)
            | Ret _ =>
                (true,
                 {| model := model st; scaler := scaler st; is_trained := true;
                    config_min_samples := config_min_samples st;
                    training_data := training_data st |})
            end
        end
    end.

End Detector.

Arguments model {scaler_t model_t} s.
Arguments scaler {scaler_t model_t} s.
Arguments is_trained {scaler_t model_t} s.
Arguments config_min_samples {scaler_t model_t} s.
Arguments training_data {scaler_t model_t} s.
Arguments train_model {scaler_t model_t} _ _ _ st data.

End AnomalyDetector.

(** ** [FeatureExtractor] ([src/ml/feature_extractor.py]) *)

Module FeatureExtractor.

(** The metrics mapping: the entries that hold a series of numbers, and
    the [network_io] entry, which holds a mapping of two series. *)
Record metrics_t : Type := {
  series : gmap string (list Q);
  network_io : option (gmap string (list Q))
}.

(** [not metrics] *)
Definition metrics_empty (metrics : metrics_t) : bool :=
  (size (series metrics) =? 0)%nat &&
  match network_io metrics with None => true | Some _ => false end.

(** One log entry; a missing key is [None]. *)
Record log_entry : Type := {
  level : option string;
  message : option string;
  error_type : option string;
  log_timestamp : option string;
  response_time_ms : option pyval
}.

Definition num (q : Q) : pyval := VNum (Fin q).

Definition _get_default_metric_features : features_t :=
  <["anomaly_likelihood" := num 0]> (
  <["system_stress_score" := num 0]> (
  <["disk_current" := num 0]> (
  <["memory_mean" := num 0]> (
  <["memory_current" := num 0]> (
  <["cpu_trend" := num 0]> (
  <["cpu_mean" := num 0]> (
  <["cpu_current" := num 0]> ∅))))))).

Definition _get_default_log_features : features_t :=
  <["recent_error_spike" := num 0]> (
  <["error_types_count" := num 0]> (
  <["log_info_ratio" := num 0]> (
  <["log_warning_ratio" := num 0]> (
  <["log_error_ratio" := num 0]> (
  <["log_rate_per_minute" := num 0]> (
  <["log_count_total" := num 0]> ∅)))))).

(** [self.log_patterns.keys()] *)
Definition log_pattern_names : list string :=
  ["error"; "warning"; "timeout"; "connection"; "memory"; "database"; "slow"].

(** [self.feature_config['percentiles']] with the text of each number. *)
Definition percentiles : list (string * Q) :=
  [("50", 50); ("90", 90); ("95", 95); ("99", 99)].

Definition Qlen {A : Type} (l : list A) : Q := inject_Z (Z.of_nat (length l)).

Definition _calculate_trend (data : list Q) : Q :=
  if (length data <? 2)%nat then 0 else polyfit_slope data.

(** [_detect_error_spike]: errors per minute, latest minute against the
    one before. *)
Definition minute_counts (error_logs : list log_entry) : gmap string nat :=
  fold_left
    (fun counts log =>
       let timestamp := default "" (log_timestamp log) in
       if String.eqb timestamp "" then counts
       else
         let minute_key := substring 0 16 timestamp in
         <[minute_key := S (default O (counts !! minute_key))]> counts)
    error_logs ∅.

Definition _detect_error_spike (error_logs : list log_entry) : Q :=
  if (length error_logs <? 2)%nat then 0
  else
    let error_counts := minute_counts error_logs in
    if (size error_counts <? 2)%nat then 0
    else
      let minutes := merge_sort String.le (map fst (map_to_list error_counts)) in
      let recent_count :=
        default O (m ← last minutes; error_counts !! m) in
      let previous_count :=
        default O (m ← minutes !! (length minutes - 2)%nat; error_counts !! m) in
      let spike_ratio :=
        inject_Z (Z.of_nat recent_count) /
        inject_Z (Z.of_nat (Nat.max previous_count 1)) in
      if Qltb 10 spike_ratio then 10 else spike_ratio.

Section Extraction.

(** numpy's square-root based statistics, its percentile and the regular
    expression engine are taken as given. [np_corrcoef] is the
    off-diagonal entry of [np.corrcoef] for two series of equal length
    and may be [nan]; [pattern_search name text] is
    [self.log_patterns[name].search(text)]. *)
Variable np_std : list Q -> Q.
Variable np_percentile : list Q -> Q -> Q.
Variable np_corrcoef : list Q -> list Q -> pyfloat.
Variable pattern_search : string -> string -> bool.

Definition _extract_time_series_features (data : list Q) (prefix : string)
    : features_t :=
  let features : features_t := ∅ in
  match data with
  | [] => features
  | _ =>
      let features := <[prefix ++ "_mean" := VNum (np_mean data)]> features in
      let features := <[prefix ++ "_std" := num (np_std data)]> features in
      let features := <[prefix ++ "_min" := num (np_min data)]> features in
      let features := <[prefix ++ "_max" := num (np_max data)]> features in
      let features :=
        fold_left
          (fun features p =>
             <[prefix ++ "_p" ++ fst p := num (np_percentile data (snd p))]> features)
          percentiles features in
      if (10 <=? length data)%nat then
        let recent_data := py_slice_from (-5) data in
        let historical_data := py_slice_to (-5) data in
        let recent_avg := np_mean recent_data in
        let historical_avg := np_mean historical_data in
        let features := <[prefix ++ "_recent_avg" := VNum recent_avg]> features in
        let features :=
          <[prefix ++ "_historical_avg" := VNum historical_avg]> features in
        <[prefix ++ "_trend_ratio" :=
            VNum (fdiv recent_avg (py_max_l historical_avg 1))]> features
      else features
  end.

Definition _extract_network_features (net_data : gmap string (list Q)) : features_t :=
  let features : features_t := ∅ in
  match net_data !! "bytes_sent", net_data !! "bytes_received" with
  | Some sent, Some received =>
      let features :=
        <["network_bytes_sent_current" := num (last_or_zero sent)]> features in
      let features :=
        <["network_bytes_received_current" := num (last_or_zero received)]> features in
      let features :=
        if (1 <? length sent)%nat
        then <["network_bytes_sent_rate" :=
                 num (last_or_zero sent - second_last sent)]> features
        else features in
      if (1 <? length received)%nat
      then <["network_bytes_received_rate" :=
               num (last_or_zero received - second_last received)]> features
      else features
  | _, _ => features
  end.

Definition _extract_request_features (req_data : list Q) : features_t :=
  let features : features_t := ∅ in
  match req_data with
  | [] => features
  | _ =>
      let features := <["requests_current" := num (last_or_zero req_data)]> features in
      let features := <["requests_avg" := VNum (np_mean req_data)]> features in
      let features := <["requests_peak" := num (np_max req_data)]> features in
      if (5 <=? length req_data)%nat then
        let recent := np_mean (py_slice_from (-3) req_data) in
        let historical := np_mean (py_slice_to (-3) req_data) in
        <["requests_trend" := VNum (fdiv recent (py_max_l historical 1))]> features
      else features
  end.

Definition _extract_response_time_features (rt_data : list Q) : features_t :=
  let features : features_t := ∅ in
  match rt_data with
  | [] => features
  | _ =>
      let features :=
        <["response_time_current" := num (last_or_zero rt_data)]> features in
      let features := <["response_time_avg" := VNum (np_mean rt_data)]> features in
      let features :=
        <["response_time_p95" := num (np_percentile rt_data 95)]> features in
      let features := <["response_time_max" := num (np_max rt_data)]> features in
      let slow_threshold := 1000 in
      let slow_requests := filter (fun rt => Qltb slow_threshold rt = true) rt_data in
      <["slow_requests_ratio" := num (Qlen slow_requests / Qlen rt_data)]> features
  end.

Definition _extract_error_rate_features (error_data : list Q) : features_t :=
  let features : features_t := ∅ in
  match error_data with
  | [] => features
  | _ =>
      let features :=
        <["error_rate_current" := num (last_or_zero error_data)]> features in
      let features := <["error_rate_avg" := VNum (np_mean error_data)]> features in
      let features := <["error_rate_max" := num (np_max error_data)]> features in
      if (3 <=? length error_data)%nat then
        let recent_avg := np_mean (py_slice_from (-3) error_data) in
        let historical_avg := np_mean (py_slice_to (-3) error_data) in
        <["error_spike_ratio" :=
            VNum (fdiv recent_avg (py_max_l historical_avg (1 # 10)))]> features
      else features
  end.

(** [_extract_metric_features] and [_extract_log_features]: on series of
    numbers and on log entries of the shape above nothing in their
    [try] blocks raises, so the handlers (which return the default
    tables) are left out. *)
Definition _extract_metric_features (metrics : metrics_t) : features_t :=
  let features : features_t := ∅ in
  if metrics_empty metrics then _get_default_metric_features
  else
    let features :=
      match series metrics !! "cpu_utilization" with
      | Some cpu_data =>
          let features :=
            dict_update features (_extract_time_series_features cpu_data "cpu") in
          let features := <["cpu_current" := num (last_or_zero cpu_data)]> features in
          let features := <["cpu_trend" := num (_calculate_trend cpu_data)]> features in
          <["cpu_volatility" :=
              num (if (1 <? length cpu_data)%nat then np_std cpu_data else 0)]> features
      | None => features
      end in
    let features :=
      match series metrics !! "memory_utilization" with
      | Some mem_data =>
          let features :=
            dict_update features (_extract_time_series_features mem_data "memory") in
          let features :=
            <["memory_current" := num (last_or_zero mem_data)]> features in
          <["memory_trend" := num (_calculate_trend mem_data)]> features
      | None => features
      end in
    let features :=
      match series metrics !! "disk_utilization" with
      | Some disk_data =>
          let features :=
            dict_update features (_extract_time_series_features disk_data "disk") in
          <["disk_current" := num (last_or_zero disk_data)]> features
      | None => features
      end in
    let features :=
      match network_io metrics with
      | Some net_data => dict_update features (_extract_network_features net_data)
      | None => features
      end in
    let features :=
      match series metrics !! "request_count" with
      | Some req_data => dict_update features (_extract_request_features req_data)
      | None => features
      end in
    let features :=
      match series metrics !! "response_time" with
      | Some rt_data => dict_update features (_extract_response_time_features rt_data)
      | None => features
      end in
    match series metrics !! "error_rate" with
    | Some error_data =>
        dict_update features (_extract_error_rate_features error_data)
    | None => features
    end.

(** The values of [response_time_ms] that are numbers and truthy. *)
Definition response_times_of (logs : list log_entry) : list pyfloat :=
  omap (fun log =>
          match response_time_ms log with
          | Some (VNum (Fin q)) => if Qeq_bool q 0 then None else Some (Fin q)
          | Some (VNum NaN) => Some NaN
          | _ => None
          end) logs.

Fixpoint all_fin (l : list pyfloat) : option (list Q) :=
  match l with
  | [] => Some []
  | Fin q :: rest => qs ← all_fin rest; Some (q :: qs)
  | NaN :: _ => None
  end.

(** A numpy reduction over values one of which may be [nan]. *)
Definition nan_aware (stat : list Q -> Q) (l : list pyfloat) : pyfloat :=
  match all_fin l with
  | Some qs => Fin (stat qs)
  | None => NaN
  end.

Definition count_level (name : string) (log_levels : list string) : Q :=
  Qlen (filter (fun l => l = name) log_levels).

Definition _extract_log_features (logs : list log_entry) : features_t :=
  let features : features_t := ∅ in
  match logs with
  | [] => _get_default_log_features
  | _ =>
      let features := <["log_count_total" := num (Qlen logs)]> features in
      let features := <["log_rate_per_minute" := num (Qlen logs / 5)]> features in
      let log_levels :=
        map (fun log => string_upper (default "INFO" (level log))) logs in
      let total_logs := Qlen logs in
      let features :=
        <["log_error_ratio" := num (count_level "ERROR" log_levels / total_logs)]>
          features in
      let features :=
        <["log_warning_ratio" := num (count_level "WARNING" log_levels / total_logs)]>
          features in
      let features :=
        <["log_info_ratio" := num (count_level "INFO" log_levels / total_logs)]>
          features in
      let pattern_count (pattern_name : string) : Q :=
        Qlen (filter (fun log =>
                        pattern_search pattern_name (default "" (message log)) = true)
                     logs) in
      let features :=
        fold_left
          (fun features pattern_name =>
             <["log_pattern_" ++ pattern_name ++ "_ratio" :=
                 num (pattern_count pattern_name / total_logs)]> features)
          log_pattern_names features in
      let error_logs := filter (fun log => level log = Some "ERROR") logs in
      let features :=
        match error_logs with
        | [] => features
        | _ =>
            let error_types : gset string :=
              list_to_set (map (fun log => default "unknown" (error_type log))
                               error_logs) in
            let features :=
              <["error_types_count" :=
                  num (inject_Z (Z.of_nat (size error_types)))]> features in
            <["recent_error_spike" := num (_detect_error_spike error_logs)]> features
        end in
      let response_times := response_times_of logs in
      match response_times with
      | [] =>
          let features := <["log_response_time_avg" := num 0]> features in
          let features := <["log_response_time_p95" := num 0]> features in
          <["log_response_time_max" := num 0]> features
      | _ =>
          let features :=
            <["log_response_time_avg" := VNum (np_mean_f response_times)]> features in
          let features :=
            <["log_response_time_p95" :=
                VNum (nan_aware (fun qs => np_percentile qs 95) response_times)]>
              features in
          <["log_response_time_max" := VNum (nan_aware np_max response_times)]> features
      end
  end.

(** [_extract_combined_features]: [features] is the dictionary created
    at the top of this method. Only [np.corrcoef] can raise (on series
    of different lengths), and it does so before the first assignment. *)
Definition _extract_combined_features (metrics : metrics_t) (logs : list log_entry)
    : features_t :=
  let features : gmap string pyfloat := ∅ in
  let body : outcome (gmap string pyfloat) :=
    features ←
      match series metrics !! "cpu_utilization", series metrics !! "error_rate" with
      | Some cpu_data, Some error_data =>
          if ((1 <? length cpu_data) && (1 <? length error_data))%nat then
            if (length cpu_data =? length error_data)%nat then
              let correlation := np_corrcoef cpu_data error_data in
              Ret (<["cpu_error_correlation" :=
                       match correlation with NaN => Fin 0 | c => c end]> features)
            else Raise ValueError
          else Ret (<["cpu_error_correlation" := Fin 0]> features)
      | _, _ => Ret features
      end;
    let stress_factors : list pyfloat := [] in
    let stress_factors :=
      match features !! "cpu_current" with
      | Some cpu_current => (stress_factors ++ [fdiv cpu_current 100])%list
      | None => stress_factors
      end in
    let stress_factors :=
      match features !! "memory_current" with
      | Some memory_current => (stress_factors ++ [fdiv memory_current 100])%list
      | None => stress_factors
      end in
    let stress_factors :=
      match features !! "log_error_ratio" with
      | Some log_error_ratio =>
          (stress_factors ++ [py_min_l (fmul log_error_ratio 10) 1])%list
      | None => stress_factors
      end in
    let features :=
      match stress_factors with
      | [] => <["system_stress_score" := Fin 0]> features
      | _ => <["system_stress_score" := np_mean_f stress_factors]> features
      end in
    let anomaly_indicators : list Q := [] in
    let anomaly_indicators :=
      if fgt (dict_get features "cpu_current" (Fin 0)) 80
      then (anomaly_indicators ++ [1])%list else anomaly_indicators in
    let anomaly_indicators :=
      if fgt (dict_get features "memory_current" (Fin 0)) 85
      then (anomaly_indicators ++ [1])%list else anomaly_indicators in
    let anomaly_indicators :=
      if fgt (dict_get features "log_error_ratio" (Fin 0)) (1 # 10)
      then (anomaly_indicators ++ [1])%list else anomaly_indicators in
    let anomaly_indicators :=
      if fgt (dict_get features "log_response_time_p95" (Fin 0)) 1000
      then (anomaly_indicators ++ [1])%list else anomaly_indicators in
    Ret (<["anomaly_likelihood" :=
             Fin (Qsum anomaly_indicators /
                  inject_Z (Z.of_nat (Nat.max (length anomaly_indicators) 1)))]>
           features) in
  VNum <$> try_except body features.

(** [extract_features]; [utc_iso] is [datetime.utcnow().isoformat()].
    None of the three helpers lets an exception escape, so the handler
    that returns the empty dictionary is never entered. *)
Definition extract_features (utc_iso : string) (metrics : metrics_t)
    (logs : list log_entry) : features_t :=
  try_except
    (let features : features_t := ∅ in
     let metric_features := _extract_metric_features metrics in
     let features := dict_update features metric_features in
     let log_features := _extract_log_features logs in
     let features := dict_update features log_features in
     let combined_features := _extract_combined_features metrics logs in
     let features := dict_update features combined_features in
     let features := <["timestamp" := VStr utc_iso]> features in
     Ret features)
    ∅.

End Extraction.

End FeatureExtractor.

(** ** Concrete inputs used by the examples below *)

Module Examples.

(** A record whose connection and database pattern ratios both exceed
    their thresholds. *)
Definition both_patterns : features_t :=
  <["log_pattern_connection_ratio" := VNum (Fin (2 # 10))]>
    (<["log_pattern_database_ratio" := VNum (Fin (1 # 10))]> ∅).

Definition empty_scorer : RiskScorer.state :=
  {| RiskScorer.prediction_history := []; RiskScorer.baseline_metrics := ∅ |}.

Definition past (ts : string) (score : Q) (features : features_t) : RiskScorer.prediction :=
  {| RiskScorer.p_timestamp := ts; RiskScorer.p_risk_score := score;
     RiskScorer.p_features := features |}.

(** Two scorers with the same past scores but different timestamps,
    stored records and baselines. *)
Definition scorer_a : RiskScorer.state :=
  {| RiskScorer.prediction_history :=
       [past "2024-01-01T10:00:00" 40 ∅; past "2024-01-01T10:01:00" 55 ∅;
        past "2024-01-01T10:02:00" 70 ∅; past "2024-01-01T10:03:00" 80 ∅];
     RiskScorer.baseline_metrics := ∅ |}.

Definition scorer_b : RiskScorer.state :=
  {| RiskScorer.prediction_history :=
       [past "2025-06-01T00:00:00" 40 both_patterns; past "" 55 ∅;
        past "x" 70 both_patterns; past "y" 80 ∅];
     RiskScorer.baseline_metrics := both_patterns |}.

Definition sample (cpu : Q) : features_t := <["cpu_current" := VNum (Fin cpu)]> ∅.

Definition small_detector (buffer : list (list pyfloat)) (cap lo : Z)
    : OptimizedAnomalyDetector.state unit unit :=
  {| OptimizedAnomalyDetector.model := None;
     OptimizedAnomalyDetector.scaler := tt;
     OptimizedAnomalyDetector.is_trained := false;
     OptimizedAnomalyDetector.training_data := buffer;
     OptimizedAnomalyDetector.max_training_samples := cap;
     OptimizedAnomalyDetector.min_samples := lo;
     OptimizedAnomalyDetector.enabled_features := ["cpu_current"];
     OptimizedAnomalyDetector.feature_limit := 1 |}.

Definition full_buffer_5 : OptimizedAnomalyDetector.state unit unit :=
  small_detector [[Fin 1]; [Fin 2]; [Fin 3]; [Fin 4]; [Fin 5]] 5 50.

(** Ten buffered samples against [min_samples = 50]. *)
Definition ten_samples : OptimizedAnomalyDetector.state unit unit :=
  small_detector (repeat [Fin 30] 10) 500 50.

Definition plain_detector : AnomalyDetector.state unit unit :=
  {| AnomalyDetector.model := tt; AnomalyDetector.scaler := tt;
     AnomalyDetector.is_trained := false;
     AnomalyDetector.config_min_samples := 100;
     AnomalyDetector.training_data := [] |}.

Definition fit_ok (sc : unit) (X : list (list Q)) : unit * outcome (list (list Q)) :=
  (sc, Ret X).
Definition model_fit_ok (m : unit) (X : list (list Q)) : unit * outcome unit :=
  (m, Ret tt).
Definition to_matrix_none (data : list features_t) : outcome (list (list Q)) :=
  Ret [].

(** An alert manager that has not alerted yet, and three clocks: the
    first alert goes out at second 0, the next attempts come at seconds
    100 and 301. *)
Definition fresh_manager : AlertManager.state :=
  {| AlertManager.sns_topic_arn := None;
     AlertManager.min_alert_interval := 300;
     AlertManager.alert_cooldown := ∅;
     AlertManager.incident_counter := 0;
     AlertManager.console_out := [];
     AlertManager.sns_out := [];
     AlertManager.cloudwatch_out := [] |}.

Definition clock_at (t : Q) : AlertManager.clock :=
  {| AlertManager.now_cooldown_check := t;
     AlertManager.now_incident_id := t;
     AlertManager.now_description := t;
     AlertManager.now_timestamp := t;
     AlertManager.now_metric := t;
     AlertManager.now_cooldown_update := t |}.

Definition high_risk : AlertManager.alert_data :=
  {| AlertManager.ad_risk_score := Some 85;
     AlertManager.ad_features := Some (sample 97) |}.

Definition plain_text (spec : string) (x : Q) : string := spec.
Definition plain_iso (t : Q) : string := "".
Definition delivered (alert : AlertManager.Alert) : bool := true.

(** Metrics and logs for the extractor. *)
Definition no_metrics : FeatureExtractor.metrics_t :=
  {| FeatureExtractor.series := ∅; FeatureExtractor.network_io := None |}.

Definition memory_only : FeatureExtractor.metrics_t :=
  {| FeatureExtractor.series := <["memory_utilization" := [60]]> ∅;
     FeatureExtractor.network_io := None |}.

Definition busy_metrics : FeatureExtractor.metrics_t :=
  {| FeatureExtractor.series :=
       <["cpu_utilization" := [50; 90]]> (<["memory_utilization" := [60]]> ∅);
     FeatureExtractor.network_io := None |}.

Definition log_line (lvl ts : string) : FeatureExtractor.log_entry :=
  {| FeatureExtractor.level := Some lvl;
     FeatureExtractor.message := Some "request failed";
     FeatureExtractor.error_type := None;
     FeatureExtractor.log_timestamp := Some ts;
     FeatureExtractor.response_time_ms := None |}.

Definition busy_logs : list FeatureExtractor.log_entry :=
  [log_line "ERROR" "2024-01-01T10:00:01"; log_line "ERROR" "2024-01-01T10:01:01";
   log_line "ERROR" "2024-01-01T10:01:31"; log_line "INFO" "2024-01-01T10:01:41"].

(** The stress score as the specification words it, when all three
    factors are available: the mean of [cpu/100], [memory/100] and
    [min(error_ratio * 10, 1)]. *)
Definition system_stress_score_spec (cpu memory error_ratio : Q) : Q :=
  (cpu / 100 + memory / 100 + Qmin (error_ratio * 10) 1) / 3.

End Examples.

(** ** The detection cycle of [OptimizedAnomalyDetector] *)

Module DetectionCycle.

Import OptimizedAnomalyDetector.

(** [_get_default_feature_value] *)
Definition defaults : gmap string Q :=
  <["cpu_current" := 30]>
    (<["cpu_trend" := 0]>
       (<["memory_current" := 40]>
          (<["error_rate" := 1]>
             (<["response_time_avg" := 200]>
                (<["log_error_ratio" := 1 # 100]>
                   (<["system_stress_score" := 2 # 10]>
                      (<["anomaly_likelihood" := 0]> ∅))))))).

Definition _get_default_feature_value (feature : string) : Q :=
  dict_get defaults feature 0.

Definition _calculate_simple_trend (values : list Q) : Q :=
  if (length values <? 2)%nat then 0
  else last_or_zero values - second_last values.

(** [metrics[key] / 100] and the like: dividing a [str] or [None] raises. *)
Definition py_div (v : pyval) (c : Q) : outcome pyfloat :=
  match v with
  | VNum x => Ret (fdiv x c)
  | _ => Raise TypeError
  end.

Definition _calculate_stress_score (metrics : features_t) : pyfloat :=
  try_except
    (let stress_factors := [] in
     stress_factors ←
       match metrics !! "cpu_current" with
       | Some v => x ← py_div v 100; Ret (stress_factors ++ [x])%list
       | None => Ret stress_factors
       end;
     stress_factors ←
       match metrics !! "memory_current" with
       | Some v => x ← py_div v 100; Ret (stress_factors ++ [x])%list
       | None => Ret stress_factors
       end;
     stress_factors ←
       match metrics !! "error_rate" with
       | Some v => x ← py_div v 10; Ret (stress_factors ++ [py_min_l x 1])%list
       | None => Ret stress_factors
       end;
     Ret (match stress_factors with
          | [] => Fin 0
          | _ => np_mean_f stress_factors
          end))
    (Fin 0).

(** [_process_cloudwatch_metrics]: the three estimates are random draws,
    passed in. The dictionary given to [features.update] is built, stress
    score included, before [update] stores any of its entries. *)
Definition _process_cloudwatch_metrics (cloudwatch_metrics : gmap string (list Q))
    (error_rate response_time log_error_ratio : Q) : features_t :=
  let features : features_t := ∅ in
  let features :=
    match cloudwatch_metrics !! "cpu_utilization" with
    | Some ((_ :: _) as cpu_data) =>
        <["cpu_trend" := VNum (Fin (_calculate_simple_trend cpu_data))]>
          (<["cpu_current" := VNum (Fin (last_or_zero cpu_data))]> features)
    | _ => features
    end in
  let features :=
    match cloudwatch_metrics !! "memory_utilization" with
    | Some ((_ :: _) as mem_data) =>
        <["memory_current" := VNum (Fin (last_or_zero mem_data))]> features
    | _ => features
    end in
  let features :=
    match cloudwatch_metrics !! "disk_utilization" with
    | Some ((_ :: _) as disk_data) =>
        <["disk_current" := VNum (Fin (last_or_zero disk_data))]> features
    | _ => features
    end in
  dict_update features
    (<["error_rate" := VNum (Fin error_rate)]>
       (<["response_time_avg" := VNum (Fin response_time)]>
          (<["log_error_ratio" := VNum (Fin log_error_ratio)]>
             (<["system_stress_score" := VNum (_calculate_stress_score features)]>
                (<["anomaly_likelihood" := VNum (Fin 0)]> ∅))))).

(** [_calculate_risk_score]: a [str] or [None] under one of the two keys
    raises in the arithmetic or the comparison, and the handler returns
    [0.0]. *)
Definition _calculate_risk_score (anomaly_score : pyfloat) (features : features_t) : Q :=
  try_except
    (let risk : Q :=
       if flt anomaly_score 0
       then py_min 100 (fadd (Fin 50) (fmul (fabs anomaly_score) (Fin 50)))
       else py_max 0 (fsub (Fin 50) (fmul anomaly_score (Fin 50))) in
     stress_score ← AlertManager.get_number features "system_stress_score";
     let risk : pyfloat := fmul (Fin risk) (fadd (Fin 1) (fmul stress_score (Fin (1 # 2)))) in
     error_rate ← AlertManager.get_number features "error_rate";
     let risk : pyfloat :=
       if fgt error_rate 5 then Fin (py_min 100 (fmul risk (Fin (12 # 10)))) else risk in
     Ret (py_min 100 (Fin (py_max 0 risk))))
    0.

Section Cycle.

Variables scaler_t model_t : Type.

(** [StandardScaler.transform], [IsolationForest.predict] and
    [IsolationForest.decision_function] on the one-row matrix; each may
    raise. *)
Variable scaler_transform : scaler_t -> list (list Q) -> outcome (list (list Q)).
Variable model_predict : model_t -> list (list Q) -> outcome Z.
Variable model_decision_function : model_t -> list (list Q) -> outcome pyfloat.

Variable fmt : string -> Q -> string.
Variable strftime : string -> Q -> string.
Variable isoformat : Q -> string.
Variable sns_ok : AlertManager.Alert -> bool.
Variable cloudwatch_ok : AlertManager.Alert -> bool.

(** [_collect_features], given what [_get_metrics_with_fallback] returned
    and the time read for the timestamp. The record always holds the
    timestamp, so the caller's [if not features] never fires on it. *)
Definition _collect_features (st : state scaler_t model_t) (metrics : features_t)
    (utc_iso : string) : features_t :=
  let features :=
    fold_left
      (fun (features : features_t) feature =>
         match metrics !! feature with
         | Some v => <[feature := v]> features
         | None => <[feature := VNum (Fin (_get_default_feature_value feature))]> features
         end)
      (py_slice_to (feature_limit st) (enabled_features st)) ∅ in
  <["timestamp" := VStr utc_iso]> features.

Record prediction_result : Type := {
  is_anomaly : bool;
  anomaly_score : pyfloat;
  pr_risk_score : Q;
  pr_timestamp : pyval;
  features_used : list string
}.

(** [_predict_anomaly] returns the risk score, the result dictionary
    ([None] for the dictionary that only holds the error text) and the
    new [prediction_count]. With no model yet, [self.model.predict]
    raises and the handler answers. *)
Definition _predict_anomaly (st : state scaler_t model_t) (prediction_count : Z)
    (utc_iso : string) (features : features_t) : Q * option prediction_result * Z :=
  let failed : Q * option prediction_result * Z := (0, None, prediction_count) in
  let X := nan_to_num [feature_vector st features] in
  match scaler_transform (scaler st) X with
  | Raise _ => failed
  | Ret X_scaled =>
      match model st with
      | None => failed
      | Some m =>
          match model_predict m X_scaled with
          | Raise _ => failed
          | Ret prediction =>
              match model_decision_function m X_scaled with
              | Raise _ => failed
              | Ret score =>
                  let risk_score := _calculate_risk_score score features in
                  (risk_score,
                   Some {| is_anomaly := (prediction =? -1)%Z;
                           anomaly_score := score;
                           pr_risk_score := risk_score;
                           pr_timestamp := dict_get features "timestamp" (VStr utc_iso);
                           features_used :=
                             py_slice_to (feature_limit st) (enabled_features st) |},
                   (prediction_count + 1)%Z)
              end
          end
      end
  end.

(** [_handle_prediction]: what it does to the alert manager. *)
Definition _handle_prediction (am : AlertManager.state) (clk : AlertManager.clock)
    (risk_score : Q) (features : features_t) : AlertManager.state :=
  if Qltb 70 risk_score then
    AlertManager.send_alert fmt strftime isoformat sns_ok cloudwatch_ok am clk
      {| AlertManager.ad_risk_score := Some risk_score;
         AlertManager.ad_features := Some features |}
  else am.

(** [_detection_cycle]: detector, alert manager and prediction counter
    before and after one cycle. *)
Definition _detection_cycle (st : state scaler_t model_t) (am : AlertManager.state)
    (prediction_count : Z) (metrics : features_t) (utc_collect utc_predict : string)
    (clk : AlertManager.clock)
    : state scaler_t model_t * AlertManager.state * Z :=
  let features := _collect_features st metrics utc_collect in
  let st := _detection_cycle_add st features in
  if is_trained st then
    let '(risk_score, prediction_result, prediction_count) :=
      _predict_anomaly st prediction_count utc_predict features in
    let am := _handle_prediction am clk risk_score features in
    (st, am, prediction_count)
  else (st, am, prediction_count).

(** [_cleanup_memory], on the training buffer. *)
Definition _cleanup_memory (st : state scaler_t model_t) : state scaler_t model_t :=
  if (50 <? length (training_data st))%nat
  then set_training_data _ _ st (py_slice_from (-50) (training_data st))
  else st.

End Cycle.

Arguments _collect_features {scaler_t model_t} st metrics utc_iso.
Arguments _cleanup_memory {scaler_t model_t} st.
Arguments _predict_anomaly {scaler_t model_t} _ _ _ st prediction_count utc_iso features.
Arguments _detection_cycle {scaler_t model_t} _ _ _ _ _ _ _ _ st am prediction_count
  metrics utc_collect utc_predict clk.

End DetectionCycle.

(** ** Detection and alerting of [AnomalyDetector] *)

Module DetectionService.

Import AnomalyDetector.

(** [self.feature_stats]: absent on a fresh detector, loaded with a saved
    model; an entry holds the mean and the standard deviation. *)
Definition feature_stats_t := option (gmap string (pyfloat * pyfloat)).

(** [_get_feature_contributions]: an entry for every numeric feature
    other than the timestamp. *)
Definition _get_feature_contributions (feature_stats : feature_stats_t)
    (features : features_t) : gmap string pyfloat :=
  map_imap
    (fun key v =>
       match v with
       | VNum value =>
           if String.eqb key "timestamp" then None
           else
             match feature_stats with
             | Some stats =>
                 match stats !! key with
                 | Some (mean, std) =>
                     if fgt std 0 then
                       let z_score := fdiv (fabs (fsub value mean)) std in
                       Some (py_min_l (fmul z_score (Fin 10)) 100)
                     else Some (Fin 0)
                 | None => Some (Fin 0)
                 end
             | None => Some (Fin 0)
             end
       | _ => None
       end)
    features.

Record detection : Type := {
  d_is_anomaly : bool;
  d_risk_score : Q;
  d_anomaly_score : pyfloat;
  d_prediction : Z;
  d_timestamp : pyval;
  d_feature_contributions : gmap string pyfloat
}.

(** The third component of what [detect_anomaly] returns. *)
Inductive result : Type :=
  | Detected (d : detection)
  | ModelNotTrained
  | Failed.

Section Service.

Variables scaler_t model_t : Type.

(** [to_row] stands for the pandas steps of [detect_anomaly] (one-row
    [DataFrame], numeric columns, [fillna]); the scaler and the forest
    are opaque and may raise. *)
Variable to_row : features_t -> outcome (list (list Q)).
Variable scaler_transform : scaler_t -> list (list Q) -> outcome (list (list Q)).
Variable model_predict : model_t -> list (list Q) -> outcome Z.
Variable model_decision_function : model_t -> list (list Q) -> outcome pyfloat.

Variable fmt : string -> Q -> string.
Variable strftime : string -> Q -> string.
Variable isoformat : Q -> string.
Variable sns_ok : AlertManager.Alert -> bool.
Variable cloudwatch_ok : AlertManager.Alert -> bool.

Record service : Type := {
  detector : state scaler_t model_t;
  feature_stats : feature_stats_t;
  risk_scorer : RiskScorer.state;
  alert_manager : AlertManager.state;
  prediction_history : list result
}.

(** The clock reads of one [process_and_alert]: the local hour and the
    UTC time read by the risk scorer, the UTC time of the result, and the
    reads of [send_alert]. *)
Record times : Type := {
  current_hour : Z;
  utc_scored : string;
  utc_result : string;
  alert_clock : AlertManager.clock
}.

(** [detect_anomaly] returns its triple; the risk scorer it calls keeps a
    history, so the scorer's new state is returned as well. *)
Definition detect_anomaly (svc : service) (t : times) (features : features_t)
    : bool * Q * result * RiskScorer.state :=
  let failed := (false, 0, Failed, risk_scorer svc) in
  if negb (is_trained (detector svc))
  then (false, 0, ModelNotTrained, risk_scorer svc)
  else
    match
      X ← to_row features;
      X_scaled ← scaler_transform (scaler (detector svc)) X;
      prediction ← model_predict (model (detector svc)) X_scaled;
      anomaly_score ← model_decision_function (model (detector svc)) X_scaled;
      Ret (prediction, anomaly_score)
    with
    | Raise _ => failed
    | Ret (prediction, anomaly_score) =>
        let (risk_score, scorer) :=
          RiskScorer.calculate_risk_score (risk_scorer svc) (current_hour t)
            (utc_scored t) (VNum anomaly_score) features in
        let is_anomaly := (prediction =? -1)%Z || Qltb 50 risk_score in
        (is_anomaly, risk_score,
         Detected
           {| d_is_anomaly := is_anomaly;
              d_risk_score := risk_score;
              d_anomaly_score := anomaly_score;
              d_prediction := prediction;
              d_timestamp := dict_get features "timestamp" (VStr (utc_result t));
              d_feature_contributions :=
                _get_feature_contributions (feature_stats svc) features |},
         scorer)
    end.

Definition process_and_alert (svc : service) (t : times) (features : features_t)
    : service :=
  let '(is_anomaly, risk_score, result, scorer) := detect_anomaly svc t features in
  let history := (prediction_history svc ++ [result])%list in
  let history :=
    if (1000 <? length history)%nat then py_slice_from (-1000) history else history in
  let am :=
    if is_anomaly then
      AlertManager.send_alert fmt strftime isoformat sns_ok cloudwatch_ok
        (alert_manager svc) (alert_clock t)
        {| AlertManager.ad_risk_score := Some risk_score;
           AlertManager.ad_features := Some features |}
    else alert_manager svc in
  {| detector := detector svc; feature_stats := feature_stats svc;
     risk_scorer := scorer; alert_manager := am; prediction_history := history |}.

Definition set_detector_data (svc : service) (data : list features_t) : service :=
  {| detector :=
       {| model := model (detector svc); scaler := scaler (detector svc);
          is_trained := is_trained (detector svc);
          config_min_samples := config_min_samples (detector svc);
          training_data := data |};
     feature_stats := feature_stats svc; risk_scorer := risk_scorer svc;
     alert_manager := alert_manager svc;
     prediction_history := prediction_history svc |}.

(** [_detection_cycle], given what [collect_and_process_data] returned:
    [None], or a record (an empty one counts as no data). *)
Definition _detection_cycle (svc : service) (t : times) (collected : option features_t)
    : service :=
  match collected with
  | None => svc
  | Some features =>
      if (size features =? 0)%nat then svc
      else
        let svc :=
          set_detector_data svc (training_data (detector svc) ++ [features])%list in
        let svc := process_and_alert svc t features in
        if (10000 <? Z.of_nat (length (training_data (detector svc))))%Z
        then set_detector_data svc (py_slice_from (-5000) (training_data (detector svc)))
        else svc
  end.

End Service.

Arguments detector {scaler_t model_t} s.
Arguments feature_stats {scaler_t model_t} s.
Arguments risk_scorer {scaler_t model_t} s.
Arguments alert_manager {scaler_t model_t} s.
Arguments prediction_history {scaler_t model_t} s.
Arguments detect_anomaly {scaler_t model_t} _ _ _ _ svc t features.
Arguments process_and_alert {scaler_t model_t} _ _ _ _ _ _ _ _ _ svc t features.
Arguments _detection_cycle {scaler_t model_t} _ _ _ _ _ _ _ _ _ svc t collected.

End DetectionService.

(** ** [CloudWatchClient] ([src/monitoring/cloudwatch_client.py]) *)

Module CloudWatchClient.

(** [int(x)] of a float: truncation towards zero. *)
Definition py_int (x : Q) : Z := if Qltb x 0 then Qceiling x else Qfloor x.

(** [_calculate_derived_metrics], on series of numbers; the result has
    the shape the feature extractor reads: named series and the
    [network_io] entry. *)
Definition _calculate_derived_metrics (metrics : gmap string (list Q))
    : FeatureExtractor.metrics_t :=
  let network_io :=
    match metrics !! "network_in", metrics !! "network_out" with
    | Some ((_ :: _) as network_in), Some ((_ :: _) as network_out) =>
        Some (<["bytes_received" := network_in]> (<["bytes_sent" := network_out]> ∅))
    | _, _ => None
    end in
  let derived : gmap string (list Q) := ∅ in
  let derived :=
    match metrics !! "network_in" with
    | Some ((_ :: _) as network_in) =>
        <["request_count" :=
            map (fun bytes_in => inject_Z (Z.max 1 (py_int (bytes_in / 1024))))
                network_in]> derived
    | _ => derived
    end in
  let derived :=
    match metrics !! "cpu_utilization" with
    | Some ((_ :: _) as cpu_data) =>
        <["error_rate" :=
            map (fun cpu => py_max 0 (Fin (py_min 20 (Fin ((cpu - 50) * (4 # 10))))))
                cpu_data]> derived
    | _ => derived
    end in
  let derived :=
    match metrics !! "cpu_utilization" with
    | Some ((_ :: _) as cpu_data) =>
        <["response_time" :=
            map (fun cpu => py_max 100 (Fin (100 + (cpu - 30) * 10))) cpu_data]> derived
    | _ => derived
    end in
  {| FeatureExtractor.series := derived; FeatureExtractor.network_io := network_io |}.

(** [metrics.update(self._calculate_derived_metrics(metrics))] at the end
    of [get_recent_metrics]. *)
Definition add_derived_metrics (metrics : gmap string (list Q))
    : FeatureExtractor.metrics_t :=
  let derived := _calculate_derived_metrics metrics in
  {| FeatureExtractor.series := dict_update metrics (FeatureExtractor.series derived);
     FeatureExtractor.network_io := FeatureExtractor.network_io derived |}.

End CloudWatchClient.

(** ** Further concrete inputs *)

Module Scenarios.

(** An alert whose record holds text where a number is expected. *)
Definition garbled_risk : AlertManager.alert_data :=
  {| AlertManager.ad_risk_score := Some 85;
     AlertManager.ad_features := Some (<["cpu_current" := VStr "high"]> ∅) |}.

(** A trained detector whose model is the text ["fitted"], a fresh model
    ["fresh"], and a [fit] that raises. *)
Definition trained_detector : OptimizedAnomalyDetector.state unit string :=
  {| OptimizedAnomalyDetector.model := Some "fitted";
     OptimizedAnomalyDetector.scaler := tt;
     OptimizedAnomalyDetector.is_trained := true;
     OptimizedAnomalyDetector.training_data := [[Fin 30]; [Fin 35]];
     OptimizedAnomalyDetector.max_training_samples := 500;
     OptimizedAnomalyDetector.min_samples := 2;
     OptimizedAnomalyDetector.enabled_features := ["cpu_current"];
     OptimizedAnomalyDetector.feature_limit := 1 |}.

Definition model_fit_fails (m : string) (X : list (list Q)) : string * outcome unit :=
  (m, Raise ValueError).

(** An untrained anomaly-detection service with nothing recorded, and
    the clock reads of one cycle. *)
Definition quiet_service : DetectionService.service unit unit :=
  {| DetectionService.detector := Examples.plain_detector;
     DetectionService.feature_stats := None;
     DetectionService.risk_scorer := Examples.empty_scorer;
     DetectionService.alert_manager := Examples.fresh_manager;
     DetectionService.prediction_history := [] |}.

Definition noon : DetectionService.times :=
  {| DetectionService.current_hour := 12;
     DetectionService.utc_scored := "2024-01-01T12:00:00";
     DetectionService.utc_result := "2024-01-01T12:00:00";
     DetectionService.alert_clock := Examples.clock_at 0 |}.

Definition row_of (features : features_t) : outcome (list (list Q)) := Ret [[]].
Definition same_row (sc : unit) (X : list (list Q)) : outcome (list (list Q)) := Ret X.
Definition says_normal (m : unit) (X : list (list Q)) : outcome Z := Ret 1%Z.
Definition scores_normal (m : unit) (X : list (list Q)) : outcome pyfloat :=
  Ret (Fin (1 # 10)).

End Scenarios.

(** ** Orders used in the statements *)

(** [x <= y] on scores that may be [nan]: two [nan]s count as equal. *)
Definition fle (x y : pyfloat) : Prop :=
  match x, y with
  | Fin a, Fin b => a <= b
  | NaN, NaN => True
  | _, _ => False
  end.

(** The value [_collect_features] stores for an enabled feature. *)
Definition collected_value (metrics : features_t) (k : string) : pyval :=
  dict_get metrics k (VNum (Fin (DetectionCycle._get_default_feature_value k))).

(** The latest sample of a CloudWatch series, if it has one. *)
Definition latest (cw : gmap string (list Q)) (key : string) : option Q :=
  match cw !! key with
  | Some (x :: rest) => Some (last_or_zero (x :: rest))
  | _ => None
  end.

(** Short names for the modules, and a tactic that steps over the
    insertions of other keys in front of a lookup. *)
Module OAD := OptimizedAnomalyDetector.
Module AD := AnomalyDetector.
Module AM := AlertManager.
Module FE := FeatureExtractor.
Module DC := DetectionCycle.
Module DS := DetectionService.
Module CW := CloudWatchClient.

Ltac skip_inserts := repeat (rewrite lookup_insert_ne by discriminate).

(** * Properties *)

(** ** Arithmetic helpers *)

Lemma Qltb_lt (x y : Q) : Qltb x y = true <-> x < y.
Proof.
  unfold Qltb. rewrite negb_true_iff. split.
  - intros H. apply Qnot_le_lt. intros Hle. apply Qle_bool_iff in Hle. congruence.
  - intros H. destruct (Qle_bool y x) eqn:E; [|reflexivity].
    apply Qle_bool_iff in E. exfalso. apply (Qlt_not_le _ _ H E).
Qed.

Lemma Qltb_ge (x y : Q) : Qltb x y = false <-> y <= x.
Proof. unfold Qltb. rewrite negb_false_iff. apply Qle_bool_iff. Qed.

Lemma py_min_100_range (r : pyfloat) : py_min 100 r <= 100.
Proof.
  destruct r as [y|]; simpl; [|lra].
  destruct (Qltb y 100) eqn:E; [apply Qltb_lt in E|]; lra.
Qed.

(** [max(0, min(100, r))] lies in [[0, 100]], also for [nan]. *)
Lemma clamp_range (r : pyfloat) : 0 <= py_max 0 (Fin (py_min 100 r)) <= 100.
Proof.
  pose proof (py_min_100_range r) as H. simpl.
  destruct (Qltb 0 (py_min 100 r)) eqn:E.
  - apply Qltb_lt in E. lra.
  - lra.
Qed.

Lemma round_half_even_range (y : Q) (n : Z) :
  0 <= y <= inject_Z n -> (0 <= round_half_even y <= n)%Z.
Proof.
  intros [Hlo Hhi]. unfold round_half_even.
  assert (Hf0 : (0 <= Qfloor y)%Z).
  { change 0%Z with (Qfloor 0). apply Qfloor_resp_le. exact Hlo. }
  assert (Hfn : (Qfloor y <= n)%Z).
  { rewrite <- (Qfloor_Z n). apply Qfloor_resp_le. exact Hhi. }
  assert (Hup : 0 < y - inject_Z (Qfloor y) -> (Qfloor y + 1 <= n)%Z).
  { intros Hpos. assert (Hlt : inject_Z (Qfloor y) < inject_Z n) by lra.
    rewrite <- Zlt_Qlt in Hlt. lia. }
  destruct (Qcompare (y - inject_Z (Qfloor y)) (1 # 2)) eqn:E.
  - apply Qeq_alt in E. destruct (Z.even (Qfloor y)); [lia|].
    split; [lia|]. apply Hup. lra.
  - lia.
  - apply Qgt_alt in E. split; [lia|]. apply Hup. lra.
Qed.

Lemma py_round2_range (x : Q) : 0 <= x <= 100 -> 0 <= py_round2 x <= 100.
Proof.
  intros H. unfold py_round2.
  assert (Hy : 0 <= x * 100 <= inject_Z 10000).
  { change (inject_Z 10000) with 10000. lra. }
  apply round_half_even_range in Hy. destruct Hy as [H0 H1].
  unfold Qle. simpl. lia.
Qed.

Lemma py_slice_from_map {A B : Type} (g : A -> B) (k : Z) (l : list A) :
  map g (py_slice_from k l) = py_slice_from k (map g l).
Proof. unfold py_slice_from. rewrite length_map. apply fmap_drop. Qed.

Lemma py_slice_from_length_map {A B : Type} (g : A -> B) (k : Z) (l : list A) :
  length (py_slice_from k l) = length (py_slice_from k (map g l)).
Proof. rewrite <- py_slice_from_map. rewrite length_map. reflexivity. Qed.

(** A slice [l[k:]] is a suffix of [l]. *)
Lemma py_slice_from_suffix {A : Type} (k : Z) (l : list A) :
  exists dropped, l = (dropped ++ py_slice_from k l)%list.
Proof. unfold py_slice_from. eexists. symmetry. apply take_drop. Qed.

(** [l[-h:]] keeps exactly [h] entries when [0 < h <= len(l)]; for [h = 0]
    the slice [l[0:]] is the whole list. *)
Lemma py_slice_from_neg_length {A : Type} (h : Z) (l : list A) :
  (0 < h <= Z.of_nat (length l))%Z ->
  length (py_slice_from (- h) l) = Z.to_nat h.
Proof.
  intros H. unfold py_slice_from. rewrite length_drop.
  destruct (- h <? 0)%Z eqn:E.
  - apply Z.ltb_lt in E. lia.
  - apply Z.ltb_ge in E. lia.
Qed.

(** ** RiskScorer *)

(** C1: for every anomaly score (a number, [nan], or not a number at all)
    and every feature record, [calculate_risk_score] returns a value
    between 0 and 100 that is a whole number of hundredths. This covers the
    path through the handler of [calculate_risk_score], which returns 0, and
    the sub-scores whose own handlers fired. *)
Theorem calculate_risk_score_in_range
    (st : RiskScorer.state) (current_hour : Z) (utc_iso : string)
    (anomaly_score : pyval) (features : features_t) :
  let r := fst (RiskScorer.calculate_risk_score st current_hour utc_iso
                  anomaly_score features) in
  0 <= r <= 100 /\ exists k : Z, r == k # 100.
Proof.
  unfold RiskScorer.calculate_risk_score, RiskScorer.calculate_risk_score_body.
  destruct (RiskScorer._normalize_anomaly_score anomaly_score) as [n|e]; simpl.
  - split.
    + apply py_round2_range. apply clamp_range.
    + eexists. unfold py_round2. reflexivity.
  - split; [lra|]. exists 0%Z. reflexivity.
Qed.

(** The name [features] is unbound in [_calculate_error_rate_score], so its
    handler always fires. *)
Lemma error_rate_score_always_zero (features : features_t) :
  RiskScorer._calculate_error_rate_score features = 0.
Proof. reflexivity. Qed.

(** C2 (defect in the code): on the record [{log_error_ratio: 0.5}] the
    error-rate sub-score of the code is 0, where the bracket rule of the
    specification gives 80. *)
Theorem error_rate_score_ignores_record :
  let features : features_t := <["log_error_ratio" := VNum (Fin (5 # 10))]> ∅ in
  RiskScorer._calculate_error_rate_score features = 0 /\
  RiskScorer.error_rate_score_spec (5 # 10) 1 0 == 80.
Proof. split; reflexivity. Qed.

(** C3, as stated, fails: with a connection ratio of 0.2 and a database
    ratio of 0.1 a score of 100 becomes 169, not 130. *)
Lemma severity_customer_facing_applied_twice :
  exists r : Q,
    RiskScorer._apply_severity_multipliers (Fin 100) Examples.both_patterns = Fin r /\
    r == 100 * (169 # 100) /\ ~ r == 100 * (13 # 10).
Proof.
  eexists. split; [vm_compute; reflexivity|]. split; [reflexivity|].
  intros H. vm_compute in H. discriminate.
Qed.

(** C3, amended: when the four entries read are numbers, the score is
    multiplied by 1.5 if the CPU or memory trigger fires, by 1.3 if the
    connection trigger fires and by 1.3 again if the database trigger fires;
    the two customer-facing triggers together contribute 1.69. *)
Theorem severity_multipliers_stack
    (risk : Q) (features : features_t) (cpu mem conn db : pyfloat) :
  dict_get features "cpu_current" (VNum 0) = VNum cpu ->
  dict_get features "memory_current" (VNum 0) = VNum mem ->
  dict_get features "log_pattern_connection_ratio" (VNum 0) = VNum conn ->
  dict_get features "log_pattern_database_ratio" (VNum 0) = VNum db ->
  exists r : Q,
    RiskScorer._apply_severity_multipliers (Fin risk) features = Fin r /\
    r == risk
         * (if fgt cpu 95 || fgt mem 98 then 15 # 10 else 1)
         * (if fgt conn (1 # 10) then 13 # 10 else 1)
         * (if fgt db (5 # 100) then 13 # 10 else 1).
Proof.
  intros Hcpu Hmem Hconn Hdb. unfold RiskScorer._apply_severity_multipliers.
  rewrite Hcpu, Hmem, Hconn, Hdb. simpl.
  unfold RiskScorer.critical_system, RiskScorer.customer_facing.
  destruct (fgt cpu 95), (fgt mem 98), (fgt conn (1 # 10)), (fgt db (5 # 100));
    simpl; eexists; (split; [reflexivity|]); ring.
Qed.

Lemma severity_multipliers_stack_witness :
  exists r : Q,
    RiskScorer._apply_severity_multipliers (Fin 100) Examples.both_patterns = Fin r /\
    r == 100 * 1 * (13 # 10) * (13 # 10).
Proof.
  apply (severity_multipliers_stack 100 Examples.both_patterns (Fin 0) (Fin 0)
           (Fin (2 # 10)) (Fin (1 # 10))); reflexivity.
Defined.

(** The temporal adjustment reads the history only through its scores. *)
Lemma temporal_context_scores (st1 st2 : RiskScorer.state) (hour : Z) (r : pyfloat) :
  map RiskScorer.p_risk_score (RiskScorer.prediction_history st1) =
  map RiskScorer.p_risk_score (RiskScorer.prediction_history st2) ->
  RiskScorer._apply_temporal_context st1 hour r =
  RiskScorer._apply_temporal_context st2 hour r.
Proof.
  intros H. unfold RiskScorer._apply_temporal_context.
  rewrite !py_slice_from_map.
  rewrite (py_slice_from_length_map RiskScorer.p_risk_score _
             (RiskScorer.prediction_history st1)).
  rewrite (py_slice_from_length_map RiskScorer.p_risk_score _
             (RiskScorer.prediction_history st2)).
  rewrite H. reflexivity.
Qed.

(** C4, as stated, fails: the same anomaly score, record and (empty)
    history give 22 at 3 o'clock and 20 at 20 o'clock. *)
Lemma risk_score_depends_on_hour :
  ~ fst (RiskScorer.calculate_risk_score Examples.empty_scorer 3 "t" (VNum 0) ∅) ==
    fst (RiskScorer.calculate_risk_score Examples.empty_scorer 20 "t" (VNum 0) ∅).
Proof. intros H. vm_compute in H. discriminate. Qed.

(** C4, amended: the returned score is a function of the anomaly score, the
    record, the scores stored in the history and the hour of the call; the
    stored timestamps and records, the baseline and the UTC timestamp of the
    call do not matter. *)
Theorem risk_score_deterministic_given_hour
    (st1 st2 : RiskScorer.state) (current_hour : Z) (utc1 utc2 : string)
    (anomaly_score : pyval) (features : features_t) :
  map RiskScorer.p_risk_score (RiskScorer.prediction_history st1) =
  map RiskScorer.p_risk_score (RiskScorer.prediction_history st2) ->
  fst (RiskScorer.calculate_risk_score st1 current_hour utc1 anomaly_score features) =
  fst (RiskScorer.calculate_risk_score st2 current_hour utc2 anomaly_score features).
Proof.
  intros H. unfold RiskScorer.calculate_risk_score, RiskScorer.calculate_risk_score_body.
  destruct (RiskScorer._normalize_anomaly_score anomaly_score) as [n|e]; simpl;
    [|reflexivity].
  rewrite (temporal_context_scores st1 st2 _ _ H). reflexivity.
Qed.

Lemma risk_score_deterministic_given_hour_witness :
  fst (RiskScorer.calculate_risk_score Examples.scorer_a 10 "2024-01-01T10:04:00"
         (VNum (Fin (- (2 # 10)))) (Examples.sample 96)) =
  fst (RiskScorer.calculate_risk_score Examples.scorer_b 10 "2030-01-01T00:00:00"
         (VNum (Fin (- (2 # 10)))) (Examples.sample 96)).
Proof.
  apply (risk_score_deterministic_given_hour Examples.scorer_a Examples.scorer_b).
  reflexivity.
Defined.

(** C10: the two classifiers agree on every score, and the level is HIGH
    exactly from 71 up, MEDIUM exactly from 31 up to but excluding 71, and
    LOW below 31 (so for negative scores too, and HIGH above 100). *)
Theorem risk_level_implementations_agree (s : Q) :
  RiskScorer.get_risk_level s = AlertManager._determine_risk_level s /\
  (RiskScorer.get_risk_level s = "HIGH" <-> 71 <= s) /\
  (RiskScorer.get_risk_level s = "MEDIUM" <-> 31 <= s /\ s < 71) /\
  (RiskScorer.get_risk_level s = "LOW" <-> s < 31).
Proof.
  unfold RiskScorer.get_risk_level, AlertManager._determine_risk_level. simpl.
  destruct (Qle_bool 71 s) eqn:E71; destruct (Qle_bool 31 s) eqn:E31;
    repeat match goal with
    | H : Qle_bool _ _ = true |- _ => apply Qle_bool_iff in H
    | H : Qle_bool _ _ = false |- _ =>
        apply (proj2 (not_true_iff_false _)) in H; rewrite Qle_bool_iff in H;
        apply Qnot_le_lt in H
    end;
    (split; [reflexivity|]); repeat split; intros; try discriminate; try lra.
Qed.

(** ** Training buffer and training *)

Section BufferFacts.

Context {scaler_t model_t : Type}.
Implicit Types st : OAD.state scaler_t model_t.

Lemma add_length_bound st f :
  (1 <= OAD.max_training_samples st)%Z ->
  (Z.of_nat (length (OAD.training_data st)) <= OAD.max_training_samples st)%Z ->
  (Z.of_nat (length (OAD.training_data (OAD._add_to_training_data st f)))
     <= OAD.max_training_samples st)%Z.
Proof.
  intros Hcap Hlen. unfold OAD._add_to_training_data. simpl.
  rewrite length_app. simpl.
  destruct (OAD.max_training_samples st
              <? Z.of_nat (length (OAD.training_data st) + 1))%Z eqn:E.
  - replace (- OAD.max_training_samples st / 2)%Z
      with (- ((OAD.max_training_samples st + 1) / 2))%Z
      by (Z.to_euclidean_division_equations; lia).
    apply Z.ltb_lt in E.
    rewrite py_slice_from_neg_length;
      [|rewrite length_app; simpl]; Z.to_euclidean_division_equations; lia.
  - apply Z.ltb_ge in E. rewrite length_app. simpl. lia.
Qed.

Lemma feed_step_max st op :
  OAD.max_training_samples (OAD.feed_step st op) = OAD.max_training_samples st.
Proof.
  destruct op as [f|f]; simpl; [reflexivity|].
  unfold OAD._detection_cycle_add.
  destruct (Z.of_nat (length (OAD.training_data st))
              <? OAD.max_training_samples st)%Z; reflexivity.
Qed.

Lemma feed_step_length_bound st op :
  (1 <= OAD.max_training_samples st)%Z ->
  (Z.of_nat (length (OAD.training_data st)) <= OAD.max_training_samples st)%Z ->
  (Z.of_nat (length (OAD.training_data (OAD.feed_step st op)))
     <= OAD.max_training_samples st)%Z.
Proof.
  intros Hcap Hlen. destruct op as [f|f]; simpl.
  - apply add_length_bound; assumption.
  - unfold OAD._detection_cycle_add.
    destruct (Z.of_nat (length (OAD.training_data st))
                <? OAD.max_training_samples st)%Z.
    + apply add_length_bound; assumption.
    + assumption.
Qed.

Lemma feed_all_length_bound ops : forall st,
  (1 <= OAD.max_training_samples st)%Z ->
  (Z.of_nat (length (OAD.training_data st)) <= OAD.max_training_samples st)%Z ->
  (Z.of_nat (length (OAD.training_data (OAD.feed_all st ops)))
     <= OAD.max_training_samples st)%Z.
Proof.
  induction ops as [|op ops IH]; intros st Hcap Hlen; simpl; [assumption|].
  unfold OAD.feed_all in *. simpl.
  rewrite <- (feed_step_max st op). apply IH.
  - rewrite feed_step_max. assumption.
  - rewrite feed_step_max. apply feed_step_length_bound; assumption.
Qed.

Lemma add_trim st f :
  (1 <= OAD.max_training_samples st)%Z ->
  (Z.of_nat (length (OAD.training_data st)) <= OAD.max_training_samples st)%Z ->
  (OAD.max_training_samples st < Z.of_nat (length (OAD.training_data st)) + 1)%Z ->
  length (OAD.training_data (OAD._add_to_training_data st f))
    = Z.to_nat ((OAD.max_training_samples st + 1) / 2) /\
  exists dropped,
    (OAD.training_data st ++ [OAD.feature_vector st f])%list
    = (dropped ++ OAD.training_data (OAD._add_to_training_data st f))%list.
Proof.
  intros Hcap Hlen Hover. unfold OAD._add_to_training_data. simpl.
  rewrite length_app. simpl.
  replace (OAD.max_training_samples st
             <? Z.of_nat (length (OAD.training_data st) + 1))%Z
    with true by (symmetry; apply Z.ltb_lt; lia).
  split.
  - replace (- OAD.max_training_samples st / 2)%Z
      with (- ((OAD.max_training_samples st + 1) / 2))%Z
      by (Z.to_euclidean_division_equations; lia).
    rewrite py_slice_from_neg_length;
      [|rewrite length_app; simpl]; Z.to_euclidean_division_equations; lia.
  - apply py_slice_from_suffix.
Qed.

End BufferFacts.

(** With [max_training_samples = 0] the trim is the slice [[0:]], which
    keeps everything: the bound needs a capacity of at least 1. *)
Lemma zero_capacity_buffer_overflows :
  OAD.training_data
    (OAD._add_to_training_data (Examples.small_detector [] 0 50) (Examples.sample 1))
  = [[Fin 1]].
Proof. reflexivity. Qed.

(** C6, as stated, fails: with [max_training_samples = 5], six appends to
    an empty buffer leave the three most recent vectors, not
    [floor(5/2) = 2]. *)
Lemma trim_keeps_more_than_floor_half :
  let st := OAD.feed_all (Examples.small_detector [] 5 50)
              (map (fun q => OAD.Append (Examples.sample q)) [1; 2; 3; 4; 5; 6]) in
  OAD.training_data st = [[Fin 4]; [Fin 5]; [Fin 6]] /\
  length (OAD.training_data st) <> Z.to_nat (5 / 2).
Proof. split; [reflexivity|]. vm_compute. discriminate. Qed.

(** C6, amended: for [max_training_samples >= 1], a buffer that starts
    within the bound stays within it under any run of guarded and unguarded
    appends; and an append that overflows leaves exactly
    [ceil(max_training_samples / 2)] entries, the most recent ones (a suffix
    of the buffer with the new vector appended). *)
Theorem training_buffer_bounded_and_halved
    {scaler_t model_t : Type} (st : OAD.state scaler_t model_t)
    (ops : list OAD.feed) (features : features_t) :
  (1 <= OAD.max_training_samples st)%Z ->
  (Z.of_nat (length (OAD.training_data st)) <= OAD.max_training_samples st)%Z ->
  (Z.of_nat (length (OAD.training_data (OAD.feed_all st ops)))
     <= OAD.max_training_samples st)%Z /\
  ((OAD.max_training_samples st < Z.of_nat (length (OAD.training_data st)) + 1)%Z ->
   length (OAD.training_data (OAD._add_to_training_data st features))
     = Z.to_nat ((OAD.max_training_samples st + 1) / 2) /\
   exists dropped,
     (OAD.training_data st ++ [OAD.feature_vector st features])%list
     = (dropped ++ OAD.training_data (OAD._add_to_training_data st features))%list).
Proof.
  intros Hcap Hlen. split.
  - apply feed_all_length_bound; assumption.
  - intros Hover. apply add_trim; assumption.
Qed.

Lemma training_buffer_bounded_and_halved_witness :
  (Z.of_nat (length (OAD.training_data
       (OAD.feed_all Examples.full_buffer_5
          [OAD.Append (Examples.sample 6); OAD.CycleAppend (Examples.sample 7)])))
     <= OAD.max_training_samples Examples.full_buffer_5)%Z /\
  ((OAD.max_training_samples Examples.full_buffer_5
      < Z.of_nat (length (OAD.training_data Examples.full_buffer_5)) + 1)%Z ->
   length (OAD.training_data
             (OAD._add_to_training_data Examples.full_buffer_5 (Examples.sample 6)))
     = Z.to_nat ((OAD.max_training_samples Examples.full_buffer_5 + 1) / 2) /\
   exists dropped,
     (OAD.training_data Examples.full_buffer_5
        ++ [OAD.feature_vector Examples.full_buffer_5 (Examples.sample 6)])%list
     = (dropped ++ OAD.training_data
          (OAD._add_to_training_data Examples.full_buffer_5 (Examples.sample 6)))%list).
Proof.
  apply (training_buffer_bounded_and_halved Examples.full_buffer_5
           [OAD.Append (Examples.sample 6); OAD.CycleAppend (Examples.sample 7)]
           (Examples.sample 6)).
  - simpl. lia.
  - simpl. lia.
Defined.

(** C7: with fewer buffered samples than [min_samples], [_train_model]
    returns [False] and leaves the detector as it was (model, scaler,
    [is_trained] and buffer included); the same holds for
    [AnomalyDetector.train_model] and the list it is given. *)
Theorem train_with_too_few_samples_changes_nothing
    {scaler_t model_t : Type}
    (fit_transform : scaler_t -> list (list Q) -> scaler_t * outcome (list (list Q)))
    (fresh_model : model_t)
    (fit : model_t -> list (list Q) -> model_t * outcome unit)
    (to_matrix : list features_t -> outcome (list (list Q)))
    (st : OAD.state scaler_t model_t)
    (st' : AD.state scaler_t model_t) (data : list features_t) :
  (Z.of_nat (length (OAD.training_data st)) < OAD.min_samples st)%Z ->
  (Z.of_nat (length data) < AD.config_min_samples st')%Z ->
  OAD._train_model fit_transform fresh_model fit st = (false, st) /\
  AD.train_model to_matrix fit_transform fit st' data = (false, st').
Proof.
  intros H1 H2. unfold OAD._train_model, AD.train_model.
  apply Z.ltb_lt in H1. apply Z.ltb_lt in H2. rewrite H1, H2. split; reflexivity.
Qed.

Lemma train_with_too_few_samples_changes_nothing_witness :
  OAD._train_model Examples.fit_ok tt Examples.model_fit_ok Examples.ten_samples
    = (false, Examples.ten_samples) /\
  AD.train_model Examples.to_matrix_none Examples.fit_ok Examples.model_fit_ok
    Examples.plain_detector (repeat (Examples.sample 30) 10)
    = (false, Examples.plain_detector).
Proof.
  apply (train_with_too_few_samples_changes_nothing
           Examples.fit_ok tt Examples.model_fit_ok Examples.to_matrix_none
           Examples.ten_samples Examples.plain_detector (repeat (Examples.sample 30) 10)).
  - simpl. lia.
  - simpl. lia.
Defined.

(** ** AlertManager *)

Section AlertFacts.

Variable fmt : string -> Q -> string.
Variable strftime : string -> Q -> string.
Variable isoformat : Q -> string.
Variable sns_ok : AM.Alert -> bool.
Variable cloudwatch_ok : AM.Alert -> bool.

Lemma reads_number_get (features : features_t) (key : string) :
  AM.reads_number features key = true -> exists x, AM.get_number features key = Ret x.
Proof.
  unfold AM.reads_number, AM.get_number.
  destruct (dict_get features key (VNum 0)); intros H; try discriminate. eauto.
Qed.

(** On a record whose compared entries are numbers an alert is built, and
    the incident counter goes up by one. *)
Lemma create_alert_ok (st : AM.state) (clk : AM.clock) (risk : Q) (lvl : string)
    (features : features_t) :
  AM.alert_inputs_numeric features = true ->
  exists alert,
    AM._create_alert fmt strftime isoformat st clk risk lvl features
    = (AM.set_counter st (AM.incident_counter st + 1), Ret alert).
Proof.
  unfold AM.alert_inputs_numeric. simpl. rewrite !andb_true_iff.
  intros (H1 & H2 & H3 & H4 & H5 & _).
  apply reads_number_get in H1 as [x1 E1]. apply reads_number_get in H2 as [x2 E2].
  apply reads_number_get in H3 as [x3 E3]. apply reads_number_get in H4 as [x4 E4].
  apply reads_number_get in H5 as [x5 E5].
  unfold AM._create_alert, AM._identify_responsible_metrics,
    AM._generate_recommendations, AM._generate_alert_description.
  rewrite E1, E2, E3, E4, E5. simpl. eexists. reflexivity.
Qed.

Lemma send_alert_suppressed (st : AM.state) (clk : AM.clock) (data : AM.alert_data) :
  AM._is_in_cooldown st (AM.now_cooldown_check clk) (AM.level_of data) = true ->
  AM.send_alert fmt strftime isoformat sns_ok cloudwatch_ok st clk data = st.
Proof.
  intros H. unfold AM.send_alert. fold (AM.level_of data). rewrite H. reflexivity.
Qed.

Lemma send_alert_allowed (st : AM.state) (clk : AM.clock) (data : AM.alert_data) :
  AM._is_in_cooldown st (AM.now_cooldown_check clk) (AM.level_of data) = false ->
  AM.alert_inputs_numeric (default ∅ (AM.ad_features data)) = true ->
  let st' := AM.send_alert fmt strftime isoformat sns_ok cloudwatch_ok st clk data in
  AM.alert_cooldown st'
    = <[AM.level_of data := AM.now_cooldown_update clk]> (AM.alert_cooldown st) /\
  AM.min_alert_interval st' = AM.min_alert_interval st /\
  exists alert, AM.console_out st' = (AM.console_out st ++ [alert])%list.
Proof.
  intros H Hnum. unfold AM.send_alert. fold (AM.level_of data). rewrite H.
  destruct (create_alert_ok st clk (default 0 (AM.ad_risk_score data))
              (AM.level_of data) _ Hnum) as [alert ->].
  unfold AM._send_sns_alert, AM._send_cloudwatch_metric, AM._send_console_alert. simpl.
  destruct (AM.sns_topic_arn st); simpl;
    [destruct (sns_ok alert); simpl|];
    destruct (cloudwatch_ok alert); simpl; eauto.
Qed.

End AlertFacts.

(** C8: let an alert of level [X] go out, its cooldown entry being written
    at time [t0]. A later attempt of level [X] whose cooldown check reads a
    time less than [min_alert_interval] after [t0] (100 s against 300 s)
    leaves the whole state as it is: nothing is dispatched and no entry
    changes. An attempt whose check reads a time at least
    [min_alert_interval] after [t0] (301 s) dispatches an alert and writes
    the entry of [X]. No entry of another level changes at any step. The
    records of the emitted alerts hold numbers in the entries an alert
    compares. *)
Theorem cooldown_suppresses_then_allows
    (fmt strftime : string -> Q -> string) (isoformat : Q -> string)
    (sns_ok cloudwatch_ok : AM.Alert -> bool)
    (st0 : AM.state) (clk0 clk1 clk2 : AM.clock) (d0 d1 d2 : AM.alert_data)
    (X : string) :
  let send := AM.send_alert fmt strftime isoformat sns_ok cloudwatch_ok in
  let st1 := send st0 clk0 d0 in
  let st2 := send st1 clk1 d1 in
  let st3 := send st2 clk2 d2 in
  AM.level_of d0 = X -> AM.level_of d1 = X -> AM.level_of d2 = X ->
  AM.alert_inputs_numeric (default ∅ (AM.ad_features d0)) = true ->
  AM.alert_inputs_numeric (default ∅ (AM.ad_features d2)) = true ->
  AM._is_in_cooldown st0 (AM.now_cooldown_check clk0) X = false ->
  AM.now_cooldown_check clk1 - AM.now_cooldown_update clk0 < AM.min_alert_interval st0 ->
  AM.min_alert_interval st0 <= AM.now_cooldown_check clk2 - AM.now_cooldown_update clk0 ->
  AM.alert_cooldown st1 !! X = Some (AM.now_cooldown_update clk0) /\
  st2 = st1 /\
  AM.alert_cooldown st3 !! X = Some (AM.now_cooldown_update clk2) /\
  (exists alert, AM.console_out st3 = (AM.console_out st2 ++ [alert])%list) /\
  (forall Y, Y <> X ->
     AM.alert_cooldown st1 !! Y = AM.alert_cooldown st0 !! Y /\
     AM.alert_cooldown st3 !! Y = AM.alert_cooldown st0 !! Y).
Proof.
  intros send st1 st2 st3 L0 L1 L2 N0 N2 Hfree Hin Hout.
  destruct (send_alert_allowed fmt strftime isoformat sns_ok cloudwatch_ok
              st0 clk0 d0) as (C1 & I1 & _); [rewrite L0; exact Hfree | exact N0 |].
  fold send in C1, I1. fold st1 in C1, I1. rewrite L0 in C1.
  assert (E2 : st2 = st1).
  { apply send_alert_suppressed. rewrite L1. unfold AM._is_in_cooldown.
    rewrite C1, lookup_insert_eq, I1. apply Qltb_lt. exact Hin. }
  destruct (send_alert_allowed fmt strftime isoformat sns_ok cloudwatch_ok
              st2 clk2 d2) as (C3 & _ & A3); [|exact N2|].
  { rewrite L2, E2. unfold AM._is_in_cooldown.
    rewrite C1, lookup_insert_eq, I1. apply Qltb_ge. exact Hout. }
  fold send in C3, A3. fold st3 in C3, A3. rewrite L2 in C3.
  split; [rewrite C1; apply lookup_insert_eq|].
  split; [exact E2|].
  split; [rewrite C3; apply lookup_insert_eq|].
  split; [exact A3|].
  intros Y HY. rewrite C3, E2, C1.
  rewrite !lookup_insert_ne by congruence. split; reflexivity.
Qed.

Lemma cooldown_suppresses_then_allows_witness :
  let send :=
    AM.send_alert Examples.plain_text Examples.plain_text Examples.plain_iso
      Examples.delivered Examples.delivered in
  let st1 := send Examples.fresh_manager (Examples.clock_at 0) Examples.high_risk in
  let st2 := send st1 (Examples.clock_at 100) Examples.high_risk in
  let st3 := send st2 (Examples.clock_at 301) Examples.high_risk in
  AM.alert_cooldown st1 !! "HIGH" = Some 0 /\
  st2 = st1 /\
  AM.alert_cooldown st3 !! "HIGH" = Some 301 /\
  (exists alert, AM.console_out st3 = (AM.console_out st2 ++ [alert])%list) /\
  (forall Y, Y <> "HIGH" ->
     AM.alert_cooldown st1 !! Y = AM.alert_cooldown Examples.fresh_manager !! Y /\
     AM.alert_cooldown st3 !! Y = AM.alert_cooldown Examples.fresh_manager !! Y).
Proof.
  apply (cooldown_suppresses_then_allows
           Examples.plain_text Examples.plain_text Examples.plain_iso
           Examples.delivered Examples.delivered Examples.fresh_manager
           (Examples.clock_at 0) (Examples.clock_at 100) (Examples.clock_at 301)
           Examples.high_risk Examples.high_risk Examples.high_risk "HIGH");
    first [reflexivity | vm_compute; discriminate].
Defined.

(** ** FeatureExtractor *)

Section ExtractorFacts.

Variable np_std : list Q -> Q.
Variable np_percentile : list Q -> Q -> Q.
Variable np_corrcoef : list Q -> list Q -> pyfloat.
Variable pattern_search : string -> string -> bool.

(** The record always carries its timestamp: the handler of
    [extract_features], which returns the empty dictionary, is never
    entered. *)
Lemma extract_has_timestamp (utc : string) (metrics : FE.metrics_t)
    (logs : list FE.log_entry) :
  FE.extract_features np_std np_percentile np_corrcoef pattern_search utc metrics logs
    !! "timestamp" = Some (VStr utc).
Proof. unfold FE.extract_features. simpl. apply lookup_insert_eq. Qed.

Lemma extract_empty_defaults (utc : string) :
  map_Forall
    (fun key v =>
       v = VNum 0 /\
       FE.extract_features np_std np_percentile np_corrcoef pattern_search utc
         Examples.no_metrics [] !! key = Some v)
    (dict_update FE._get_default_metric_features FE._get_default_log_features).
Proof.
  apply map_Forall_to_list. vm_compute map_to_list.
  repeat constructor; vm_compute; reflexivity.
Qed.

Lemma extract_empty_size (utc : string) :
  size (FE.extract_features np_std np_percentile np_corrcoef pattern_search utc
          Examples.no_metrics []) = 16%nat.
Proof. vm_compute. reflexivity. Qed.

(** With only a memory series, no [cpu_current] entry is produced. *)
Lemma memory_only_has_no_cpu_current (utc : string) :
  FE.extract_features np_std np_percentile np_corrcoef pattern_search utc
    Examples.memory_only [] !! "cpu_current" = None.
Proof. vm_compute. reflexivity. Qed.

(** The stress-factor tests of [_extract_combined_features] look into the
    dictionary created in that method, which holds at most the correlation:
    the stress score it writes is always 0 (or, when [np.corrcoef] raised,
    nothing is written at all). *)
Lemma combined_stress_is_zero (metrics : FE.metrics_t) (logs : list FE.log_entry) :
  FE._extract_combined_features np_corrcoef metrics logs !! "system_stress_score"
    = Some (VNum (Fin 0)) \/
  FE._extract_combined_features np_corrcoef metrics logs = ∅.
Proof.
  unfold FE._extract_combined_features.
  destruct (FE.series metrics !! "cpu_utilization") as [c|];
    destruct (FE.series metrics !! "error_rate") as [e|].
  4:{ left. vm_compute. reflexivity. }
  3:{ left. vm_compute. reflexivity. }
  2:{ left. vm_compute. reflexivity. }
  destruct ((1 <? length c)%nat && (1 <? length e)%nat).
  2:{ left. vm_compute. reflexivity. }
  destruct (length c =? length e)%nat.
  2:{ right. reflexivity. }
  left. generalize (np_corrcoef c e). intros x. destruct x; vm_compute; reflexivity.
Qed.

(** None of the per-series extractors writes [system_stress_score]. *)
Lemma time_series_no_stress (data : list Q) (prefix : string) :
  prefix = "cpu" \/ prefix = "memory" \/ prefix = "disk" ->
  FE._extract_time_series_features np_std np_percentile data prefix
    !! "system_stress_score" = None.
Proof.
  intros Hp. unfold FE._extract_time_series_features.
  destruct data as [|d data']; [apply lookup_empty|].
  set (l := d :: data').
  destruct Hp as [-> | [-> | ->]]; cbn [FE.percentiles fold_left fst snd];
    destruct (10 <=? length l)%nat; cbn [append]; skip_inserts; apply lookup_empty.
Qed.

Lemma log_features_no_stress (logs : list FE.log_entry) :
  FE._extract_log_features np_percentile pattern_search logs !! "system_stress_score" = None.
Proof.
  unfold FE._extract_log_features.
  destruct logs as [|lg logs']; [vm_compute; reflexivity|].
  set (l := lg :: logs').
  cbn [FE.log_pattern_names fold_left append].
  destruct (FE.response_times_of l); destruct (filter _ l);
    skip_inserts; apply lookup_empty.
Qed.

Lemma network_features_no_stress (net : gmap string (list Q)) :
  FE._extract_network_features net !! "system_stress_score" = None.
Proof.
  unfold FE._extract_network_features.
  destruct (net !! "bytes_sent") as [sent|]; [|apply lookup_empty].
  destruct (net !! "bytes_received") as [received|]; [|apply lookup_empty].
  destruct (1 <? length sent)%nat; destruct (1 <? length received)%nat;
    skip_inserts; apply lookup_empty.
Qed.

Lemma request_features_no_stress (data : list Q) :
  FE._extract_request_features data !! "system_stress_score" = None.
Proof.
  unfold FE._extract_request_features.
  destruct data as [|d data']; [apply lookup_empty|].
  destruct (5 <=? length (d :: data'))%nat; skip_inserts; apply lookup_empty.
Qed.

Lemma response_time_features_no_stress (data : list Q) :
  FE._extract_response_time_features np_percentile data !! "system_stress_score" = None.
Proof.
  unfold FE._extract_response_time_features.
  destruct data as [|d data']; [apply lookup_empty|].
  skip_inserts; apply lookup_empty.
Qed.

Lemma error_rate_features_no_stress (data : list Q) :
  FE._extract_error_rate_features data !! "system_stress_score" = None.
Proof.
  unfold FE._extract_error_rate_features.
  destruct data as [|d data']; [apply lookup_empty|].
  destruct (3 <=? length (d :: data'))%nat; skip_inserts; apply lookup_empty.
Qed.

Lemma dict_update_None {V : Type} (d e : gmap string V) (k : string) :
  d !! k = None -> e !! k = None -> dict_update d e !! k = None.
Proof. intros Hd He. unfold dict_update. apply lookup_union_None. auto. Qed.

Lemma metric_features_stress (metrics : FE.metrics_t) :
  FE._extract_metric_features np_std np_percentile metrics !! "system_stress_score"
    = (if FE.metrics_empty metrics then Some (VNum 0) else None).
Proof.
  unfold FE._extract_metric_features.
  destruct (FE.metrics_empty metrics); [vm_compute; reflexivity|].
  repeat match goal with
  | |- context [match ?o with Some _ => _ | None => _ end] =>
      match o with
      | (FE.series metrics !! _) => destruct o
      | (FE.network_io metrics) => destruct o
      end
  end;
  repeat first
    [ apply lookup_empty
    | rewrite lookup_insert_ne by discriminate
    | apply dict_update_None;
        [| first [ apply time_series_no_stress; auto
                 | apply network_features_no_stress
                 | apply request_features_no_stress
                 | apply response_time_features_no_stress
                 | apply error_rate_features_no_stress ] ] ].
Qed.

(** For every input the record's stress score is 0 or missing: the values
    extracted for CPU, memory and error ratio never reach it. *)
Lemma extract_stress_zero_or_absent (utc : string) (metrics : FE.metrics_t)
    (logs : list FE.log_entry) :
  let record :=
    FE.extract_features np_std np_percentile np_corrcoef pattern_search utc metrics logs in
  record !! "system_stress_score" = Some (VNum (Fin 0)) \/
  record !! "system_stress_score" = None.
Proof.
  unfold FE.extract_features. cbn [try_except]. unfold dict_update.
  rewrite lookup_insert_ne by discriminate.
  destruct (combined_stress_is_zero metrics logs) as [H | H].
  - left. apply lookup_union_Some_l. exact H.
  - rewrite H, (left_id_L ∅ (∪)).
    rewrite lookup_union, log_features_no_stress, (left_id_L None (∪)).
    rewrite (right_id_L ∅ (∪)), metric_features_stress.
    destruct (FE.metrics_empty metrics); auto.
Qed.
End ExtractorFacts.

(** C5 (defect in the code): from a CPU series ending at 90, a memory
    series ending at 60 and logs three quarters of which are errors, the
    record holds [cpu_current = 90], [memory_current = 60] and
    [log_error_ratio = 3/4], yet [system_stress_score] is 0, where the mean
    of the three stress factors is 5/6. *)
Theorem system_stress_score_ignores_extracted_values
    (np_std : list Q -> Q) (np_percentile : list Q -> Q -> Q)
    (np_corrcoef : list Q -> list Q -> pyfloat)
    (pattern_search : string -> string -> bool) (utc : string) :
  let record :=
    FE.extract_features np_std np_percentile np_corrcoef pattern_search utc
      Examples.busy_metrics Examples.busy_logs in
  record !! "cpu_current" = Some (VNum (Fin 90)) /\
  record !! "memory_current" = Some (VNum (Fin 60)) /\
  record !! "log_error_ratio" = Some (VNum (Fin (3 # 4))) /\
  record !! "system_stress_score" = Some (VNum (Fin 0)) /\
  Examples.system_stress_score_spec 90 60 (3 # 4) == 5 # 6.
Proof. vm_compute. repeat split; reflexivity. Qed.

(** C9, as stated, fails: it is not the case that every default field is
    present whatever the input; with only a memory series and no logs the
    record has no [cpu_current] entry. *)
Lemma missing_series_leaves_field_absent :
  ~ (forall (np_std : list Q -> Q) (np_percentile : list Q -> Q -> Q)
            (np_corrcoef : list Q -> list Q -> pyfloat)
            (pattern_search : string -> string -> bool),
       is_Some
         (FE.extract_features np_std np_percentile np_corrcoef pattern_search
            "2024-01-01T10:00:00" Examples.memory_only [] !! "cpu_current")).
Proof.
  intros H.
  specialize (H (fun _ => 0) (fun _ _ => 0) (fun _ _ => NaN) (fun _ _ => false)).
  rewrite memory_only_has_no_cpu_current in H. destruct H as [v Hv]. discriminate.
Qed.

(** C9, amended: extraction always returns a record with its timestamp
    (the handler that returns the empty dictionary is never entered); and
    for an empty metrics mapping and an empty log list the record consists
    of the timestamp and the fifteen fields of the two default tables, each
    with the value 0. *)
Theorem extract_features_empty_input_gives_defaults
    (np_std : list Q -> Q) (np_percentile : list Q -> Q -> Q)
    (np_corrcoef : list Q -> list Q -> pyfloat)
    (pattern_search : string -> string -> bool) (utc : string) :
  let extract := FE.extract_features np_std np_percentile np_corrcoef pattern_search in
  let defaults :=
    dict_update FE._get_default_metric_features FE._get_default_log_features in
  (forall metrics logs, extract utc metrics logs !! "timestamp" = Some (VStr utc)) /\
  (forall key v, defaults !! key = Some v ->
     v = VNum 0 /\ extract utc Examples.no_metrics [] !! key = Some v) /\
  size defaults = 15%nat /\
  size (extract utc Examples.no_metrics []) = 16%nat.
Proof.
  intros extract defaults. split; [|split; [|split]].
  - intros metrics logs. apply extract_has_timestamp.
  - intros key v Hkv.
    apply (extract_empty_defaults np_std np_percentile np_corrcoef pattern_search
             utc key v Hkv).
  - vm_compute. reflexivity.
  - apply extract_empty_size.
Qed.

(** * Further properties of the modelled code *)

(** ** Further properties of the risk scorer *)

Lemma normalize_fin_neg (x : Q) :
  x < 0 -> exists n, RiskScorer._normalize_anomaly_score (VNum (Fin x)) = Ret n /\
                     50 < n /\ n <= 100.
Proof.
  intros Hx. unfold RiskScorer._normalize_anomaly_score. simpl.
  replace (Qltb x 0) with true by (symmetry; apply Qltb_lt; exact Hx).
  eexists. split; [reflexivity|].
  assert (Ha : Qabs x == - x) by (apply Qabs_neg; lra).
  destruct (Qltb (50 + Qabs x * 50) 100) eqn:E.
  - apply Qltb_lt in E. split; lra.
  - split; lra.
Qed.

Lemma normalize_fin_nonneg (x : Q) :
  0 <= x -> exists n, RiskScorer._normalize_anomaly_score (VNum (Fin x)) = Ret n /\
                      0 <= n /\ n <= 50 /\ (x <= 1 -> n == 50 - x * 50).
Proof.
  intros Hx. unfold RiskScorer._normalize_anomaly_score. simpl.
  replace (Qltb x 0) with false by (symmetry; apply Qltb_ge; exact Hx).
  eexists. split; [reflexivity|].
  destruct (Qltb 0 (50 - x * 50)) eqn:E.
  - apply Qltb_lt in E. repeat split; lra.
  - apply Qltb_ge in E. repeat split; lra.
Qed.

(** X1: the normalized anomaly score lies in [[0, 100]] for every numeric
    anomaly score, [nan] included; it is above 50 exactly for the negative
    scores (anomalies) and at most 50 for all others. *)
Theorem normalize_anomaly_score_range (a : pyfloat) :
  exists n : Q,
    RiskScorer._normalize_anomaly_score (VNum a) = Ret n /\
    0 <= n <= 100 /\
    (flt a 0 = true -> 50 < n) /\
    (flt a 0 = false -> n <= 50).
Proof.
  destruct a as [x|].
  - destruct (Qltb x 0) eqn:E.
    + apply Qltb_lt in E. destruct (normalize_fin_neg x E) as (n & Hn & H1 & H2).
      exists n. split; [exact Hn|]. split; [lra|]. simpl. split; intros H.
      * exact H1.
      * apply Qltb_ge in H. lra.
    + apply Qltb_ge in E. destruct (normalize_fin_nonneg x E) as (n & Hn & H1 & H2 & _).
      exists n. split; [exact Hn|]. split; [lra|]. simpl. split; intros H.
      * apply Qltb_lt in H. lra.
      * exact H2.
  - exists 0. split; [reflexivity|]. split; [lra|]. simpl. split; intros H.
    + discriminate.
    + lra.
Qed.

(** X2: the normalization is antitone: a lower (more anomalous) anomaly
    score never gets a lower normalized score. *)
Theorem normalize_anomaly_score_antitone (a b : Q) :
  a <= b ->
  exists na nb : Q,
    RiskScorer._normalize_anomaly_score (VNum (Fin a)) = Ret na /\
    RiskScorer._normalize_anomaly_score (VNum (Fin b)) = Ret nb /\
    nb <= na.
Proof.
  intros Hab. unfold RiskScorer._normalize_anomaly_score. simpl.
  destruct (Qltb a 0) eqn:Ea; destruct (Qltb b 0) eqn:Eb;
    (do 2 eexists; split; [reflexivity|]; split; [reflexivity|]);
    repeat match goal with
    | H : Qltb _ _ = true |- _ => apply Qltb_lt in H
    | H : Qltb _ _ = false |- _ => apply Qltb_ge in H
    end; simpl.
  - assert (Qabs a == - a) by (apply Qabs_neg; lra).
    assert (Qabs b == - b) by (apply Qabs_neg; lra).
    destruct (Qltb (50 + Qabs a * 50) 100) eqn:E1;
      destruct (Qltb (50 + Qabs b * 50) 100) eqn:E2;
      repeat match goal with
      | H : Qltb _ _ = true |- _ => apply Qltb_lt in H
      | H : Qltb _ _ = false |- _ => apply Qltb_ge in H
      end; lra.
  - assert (Qabs a == - a) by (apply Qabs_neg; lra).
    destruct (Qltb (50 + Qabs a * 50) 100) eqn:E1;
      destruct (Qltb 0 (50 - b * 50)) eqn:E2;
      repeat match goal with
      | H : Qltb _ _ = true |- _ => apply Qltb_lt in H
      | H : Qltb _ _ = false |- _ => apply Qltb_ge in H
      end; lra.
  - lra.
  - destruct (Qltb 0 (50 - a * 50)) eqn:E1;
      destruct (Qltb 0 (50 - b * 50)) eqn:E2;
      repeat match goal with
      | H : Qltb _ _ = true |- _ => apply Qltb_lt in H
      | H : Qltb _ _ = false |- _ => apply Qltb_ge in H
      end; lra.
Qed.

Lemma normalize_anomaly_score_antitone_witness :
  exists na nb : Q,
    RiskScorer._normalize_anomaly_score (VNum (Fin (- (1 # 2)))) = Ret na /\
    RiskScorer._normalize_anomaly_score (VNum (Fin (1 # 4))) = Ret nb /\
    nb <= na.
Proof.
  apply (normalize_anomaly_score_antitone (- (1 # 2)) (1 # 4)).
  vm_compute. discriminate.
Defined.

(** A ladder whose scores and default lie in [[lo, hi]] yields a value in
    that interval. *)
Lemma first_bracket_range (x : pyfloat) (brackets : list (Q * Q)) (dflt lo hi : Q) :
  Forall (fun b => lo <= snd b <= hi) brackets -> lo <= dflt <= hi ->
  lo <= first_bracket x brackets dflt <= hi.
Proof.
  intros HF Hd. induction HF as [|[t s] rest Hb _ IH]; simpl; [exact Hd|].
  destruct (fgt x t); [exact Hb | exact IH].
Qed.

Lemma ladder_range (v : pyval) (brackets : list (Q * Q)) (dflt lo hi : Q) (r : Q) :
  Forall (fun b => lo <= snd b <= hi) brackets -> lo <= dflt <= hi ->
  ladder v brackets dflt = Ret r -> lo <= r <= hi.
Proof.
  intros HF Hd. destruct v as [x| |]; simpl; intros H; try discriminate.
  injection H as <-. apply first_bracket_range; assumption.
Qed.

(** X3: the performance sub-score lies in [[0, 100]] for every record,
    also when its handler fires on a non-number. *)
Theorem performance_score_range (features : features_t) :
  0 <= RiskScorer._calculate_performance_score features <= 100.
Proof.
  unfold RiskScorer._calculate_performance_score.
  destruct (ladder (dict_get features "response_time_current" (VNum 0)) _ 0)
    as [cur|] eqn:E1; simpl; [|lra].
  destruct (ladder (dict_get features "response_time_p95" (VNum 0)) _ 0)
    as [p95|] eqn:E2; simpl; [|lra].
  destruct (ladder (dict_get features "log_response_time_p95" (VNum 0)) _ 0)
    as [lp|] eqn:E3; simpl; [|lra].
  destruct (ladder (dict_get features "slow_requests_ratio" (VNum 0)) _ 0)
    as [slow|] eqn:E4; simpl; [|lra].
  apply (ladder_range _ _ _ 0 80) in E1; [| repeat constructor; simpl; lra | lra].
  apply (ladder_range _ _ _ 0 60) in E2; [| repeat constructor; simpl; lra | lra].
  apply (ladder_range _ _ _ 0 40) in E3; [| repeat constructor; simpl; lra | lra].
  apply (ladder_range _ _ _ 0 50) in E4; [| repeat constructor; simpl; lra | lra].
  destruct (Qltb (0 + cur + p95 + lp + slow) 100) eqn:E.
  - apply Qltb_lt in E. lra.
  - lra.
Qed.

(** X4: for a record whose stress entry is a number between 0 and 1 the
    system-stress sub-score is a number between 0 and 100. *)
Theorem system_stress_score_range (features : features_t) (s : Q) :
  dict_get features "system_stress_score" (VNum 0) = VNum (Fin s) ->
  0 <= s <= 1 ->
  exists r : Q,
    RiskScorer._calculate_system_stress_score features = Fin r /\ 0 <= r <= 100.
Proof.
  intros Hs Hr. unfold RiskScorer._calculate_system_stress_score. rewrite Hs.
  destruct (ladder (dict_get features "cpu_current" (VNum 0)) _ 0)
    as [cpu|] eqn:E1; simpl; [|exists 0; split; [reflexivity|lra]].
  destruct (ladder (dict_get features "memory_current" (VNum 0)) _ 0)
    as [mem|] eqn:E2; simpl; [|exists 0; split; [reflexivity|lra]].
  destruct (ladder (dict_get features "disk_current" (VNum 0)) _ 0)
    as [disk|] eqn:E3; simpl; [|exists 0; split; [reflexivity|lra]].
  apply (ladder_range _ _ _ 0 100) in E1; [| repeat constructor; simpl; lra | lra].
  apply (ladder_range _ _ _ 0 100) in E2; [| repeat constructor; simpl; lra | lra].
  apply (ladder_range _ _ _ 0 100) in E3; [| repeat constructor; simpl; lra | lra].
  eexists. split; [reflexivity|].
  change (inject_Z (Z.of_nat 4)) with 4. split.
  - apply Qle_shift_div_l; lra.
  - apply Qle_shift_div_r; lra.
Qed.

Lemma system_stress_score_range_witness :
  exists r : Q,
    RiskScorer._calculate_system_stress_score
      (<["system_stress_score" := VNum (Fin (1 # 2))]> (Examples.sample 96)) = Fin r /\
    0 <= r <= 100.
Proof.
  apply (system_stress_score_range _ (1 # 2)).
  - reflexivity.
  - split; vm_compute; discriminate.
Defined.

Lemma dict_get_insert_eq {V : Type} (d : gmap string V) (k : string) (v dflt : V) :
  dict_get (<[k := v]> d) k dflt = v.
Proof. unfold dict_get. rewrite lookup_insert_eq. reflexivity. Qed.

Lemma dict_get_insert_ne {V : Type} (d : gmap string V) (k k' : string) (v dflt : V) :
  k <> k' -> dict_get (<[k := v]> d) k' dflt = dict_get d k' dflt.
Proof. intros H. unfold dict_get. rewrite lookup_insert_ne by exact H. reflexivity. Qed.

Lemma cpu_bracket_monotone (c1 c2 : Q) :
  c1 <= c2 ->
  first_bracket (Fin c1) [(90, 100); (80, 75); (70, 50); (50, 25)] 0
    <= first_bracket (Fin c2) [(90, 100); (80, 75); (70, 50); (50, 25)] 0.
Proof.
  intros H. simpl.
  repeat match goal with
  | |- context [Qltb ?a ?b] => destruct (Qltb a b) eqn:?
  end;
  repeat match goal with
  | H : Qltb _ _ = true |- _ => apply Qltb_lt in H
  | H : Qltb _ _ = false |- _ => apply Qltb_ge in H
  end; lra.
Qed.

(** X5: with the rest of the record fixed, a higher CPU reading never
    lowers the system-stress sub-score. *)
Theorem system_stress_score_monotone_in_cpu (features : features_t) (c1 c2 : Q) :
  c1 <= c2 ->
  fle (RiskScorer._calculate_system_stress_score
         (<["cpu_current" := VNum (Fin c1)]> features))
      (RiskScorer._calculate_system_stress_score
         (<["cpu_current" := VNum (Fin c2)]> features)).
Proof.
  intros H. unfold RiskScorer._calculate_system_stress_score.
  rewrite !dict_get_insert_eq.
  rewrite !(dict_get_insert_ne _ "cpu_current") by discriminate.
  pose proof (cpu_bracket_monotone c1 c2 H) as Hc.
  cbn [ladder mbind outcome_bind].
  destruct (ladder (dict_get features "memory_current" (VNum 0)) _ 0)
    as [mem|]; cbn [mbind outcome_bind try_except]; [|simpl; lra].
  destruct (ladder (dict_get features "disk_current" (VNum 0)) _ 0)
    as [disk|]; cbn [mbind outcome_bind try_except]; [|simpl; lra].
  destruct (dict_get features "system_stress_score" (VNum 0)) as [[s|]|str|];
    cbn [py_times100 mbind outcome_bind try_except np_mean_vals nums_of];
    try (simpl; lra).
  cbn [np_mean_f fsum fold_right fadd fmul fdiv length fle].
  change (inject_Z (Z.of_nat 4)) with 4.
  apply Qmult_le_compat_r; [|vm_compute; discriminate].
  set (b1 := first_bracket (Fin c1) _ 0) in *.
  set (b2 := first_bracket (Fin c2) _ 0) in *. lra.
Qed.

Lemma system_stress_score_monotone_in_cpu_witness :
  fle (RiskScorer._calculate_system_stress_score
         (<["cpu_current" := VNum (Fin 70)]> (Examples.sample 0)))
      (RiskScorer._calculate_system_stress_score
         (<["cpu_current" := VNum (Fin 95)]> (Examples.sample 0))).
Proof.
  apply (system_stress_score_monotone_in_cpu (Examples.sample 0) 70 95).
  vm_compute. discriminate.
Defined.

Lemma py_slice_from_last {A : Type} (h : Z) (l : list A) (x : A) :
  (0 < h)%Z -> last (py_slice_from (- h) (l ++ [x])) = Some x.
Proof.
  intros Hh. unfold py_slice_from.
  replace (- h <? 0)%Z with true by (symmetry; apply Z.ltb_lt; lia).
  rewrite drop_app_le; [apply last_snoc|].
  rewrite length_app. simpl. lia.
Qed.

Lemma store_prediction_length (st : RiskScorer.state) (utc : string) (r : Q)
    (f : features_t) :
  length (RiskScorer.prediction_history (RiskScorer._store_prediction st utc r f))
  = Nat.min (S (length (RiskScorer.prediction_history st))) 1000.
Proof.
  unfold RiskScorer._store_prediction. simpl.
  set (h := (RiskScorer.prediction_history st ++ _)%list).
  assert (Hh : length h = S (length (RiskScorer.prediction_history st))).
  { unfold h. rewrite length_app. simpl. lia. }
  destruct (1000 <? length h)%nat eqn:E.
  - apply Nat.ltb_lt in E.
    change (py_slice_from (-1000) h) with (py_slice_from (- (1000))%Z h).
    rewrite (py_slice_from_neg_length 1000 h) by lia. lia.
  - apply Nat.ltb_ge in E. lia.
Qed.

Lemma store_prediction_last (st : RiskScorer.state) (utc : string) (r : Q)
    (f : features_t) :
  last (RiskScorer.prediction_history (RiskScorer._store_prediction st utc r f))
  = Some {| RiskScorer.p_timestamp := utc; RiskScorer.p_risk_score := r;
            RiskScorer.p_features := f |}.
Proof.
  unfold RiskScorer._store_prediction. simpl.
  destruct (1000 <? _)%nat.
  - apply (py_slice_from_last 1000). lia.
  - apply last_snoc.
Qed.

(** X6: a call of [calculate_risk_score] with a numeric anomaly score
    appends exactly one prediction to the history, which is capped at its
    latest 1000 entries; the stored entry holds the record, the time of the
    call and the clamped score, of which the returned score is the rounding
    to hundredths. With a non-numeric anomaly score the call returns 0 and
    stores nothing. The baseline is never touched. *)
Theorem calculate_risk_score_records_prediction
    (st : RiskScorer.state) (current_hour : Z) (utc_iso : string)
    (anomaly_score : pyval) (features : features_t) :
  let out := RiskScorer.calculate_risk_score st current_hour utc_iso
               anomaly_score features in
  match anomaly_score with
  | VNum _ =>
      length (RiskScorer.prediction_history (snd out))
        = Nat.min (S (length (RiskScorer.prediction_history st))) 1000 /\
      RiskScorer.baseline_metrics (snd out) = RiskScorer.baseline_metrics st /\
      exists p,
        last (RiskScorer.prediction_history (snd out)) = Some p /\
        RiskScorer.p_timestamp p = utc_iso /\
        RiskScorer.p_features p = features /\
        0 <= RiskScorer.p_risk_score p <= 100 /\
        fst out = py_round2 (RiskScorer.p_risk_score p)
  | _ => out = (0, st)
  end.
Proof.
  unfold RiskScorer.calculate_risk_score, RiskScorer.calculate_risk_score_body.
  destruct anomaly_score as [a| |]; [|reflexivity..].
  destruct (RiskScorer._normalize_anomaly_score (VNum a)) as [n|e] eqn:En.
  2:{ unfold RiskScorer._normalize_anomaly_score in En.
      destruct (flt a 0); discriminate. }
  cbn [mbind outcome_bind try_except fst snd].
  split; [apply store_prediction_length|].
  split; [reflexivity|].
  eexists. split; [apply store_prediction_last|].
  cbn [RiskScorer.p_timestamp RiskScorer.p_features RiskScorer.p_risk_score].
  repeat split; try reflexivity; apply clamp_range.
Qed.

(** X7: the temporal adjustment multiplies a finite score by a factor
    between 0.9 and 1.452 (= 1.2 * 1.1 * 1.1), whatever the history and the
    hour. *)
Theorem temporal_context_factor_bounded
    (st : RiskScorer.state) (current_hour : Z) (r : Q) :
  exists r' m : Q,
    RiskScorer._apply_temporal_context st current_hour (Fin r) = Fin r' /\
    r' == r * m /\ 9 # 10 <= m <= 1452 # 1000.
Proof.
  unfold RiskScorer._apply_temporal_context.
  repeat match goal with
  | |- context [if ?c then _ else _] => destruct c
  end; cbn [fmul];
  match goal with
  | |- exists r' m, Fin ?e = Fin r' /\ _ =>
      lazymatch e with
      | r * ?a * ?b * ?c => exists e, (a * b * c)
      | r * ?a * ?b => exists e, (a * b)
      | r * ?a => exists e, a
      | r => exists r, 1
      end
  end;
  (split; [reflexivity|]); (split; [ring|]); split; vm_compute; discriminate.
Qed.

(** X8: an alert carries between one and five recommendations, and for
    level HIGH the first one is the call for immediate action; the list
    cannot be built only if a compared entry of the record is not a
    number. *)
Theorem recommendations_bounded (features : features_t) (risk_level : string) :
  match AM._generate_recommendations features risk_level with
  | Ret recs =>
      (1 <= length recs <= 5)%nat /\
      (risk_level = "HIGH" -> head recs = Some "IMMEDIATE ACTION REQUIRED")
  | Raise _ => AM.alert_inputs_numeric features = false
  end.
Proof.
  unfold AM._generate_recommendations, AM.alert_inputs_numeric, AM.reads_number,
    AM.get_number.
  cbn [forallb].
  destruct (dict_get features "cpu_current" (VNum 0)) as [x1| |];
    cbn [mbind outcome_bind andb]; try reflexivity.
  destruct (dict_get features "memory_current" (VNum 0)) as [x2| |];
    cbn [mbind outcome_bind andb]; try reflexivity.
  destruct (dict_get features "log_error_ratio" (VNum 0)) as [x3| |];
    cbn [mbind outcome_bind andb]; try reflexivity.
  destruct (dict_get features "response_time_current" (VNum 0)) as [x4| |];
    cbn [mbind outcome_bind andb]; try reflexivity.
  destruct (String.eqb risk_level "HIGH") eqn:EH.
  - cbn [take head length]. split; [|intros _; reflexivity].
    rewrite length_take. lia.
  - assert (Hne : risk_level <> "HIGH") by (apply String.eqb_neq; exact EH).
    split; [|intros H; contradiction].
    rewrite length_take.
    match goal with
    | |- context [length (match ?r with [] => _ | _ :: _ => _ end)] =>
        destruct r; cbn [length]; lia
    end.
Qed.

Section AlertDelivery.

Variable fmt : string -> Q -> string.
Variable strftime : string -> Q -> string.
Variable isoformat : Q -> string.
Variable sns_ok : AM.Alert -> bool.
Variable cloudwatch_ok : AM.Alert -> bool.

(** On a record with a non-number in a compared entry no alert is built,
    but the incident counter has already gone up. *)
Lemma create_alert_raises (st : AM.state) (clk : AM.clock) (risk : Q) (lvl : string)
    (features : features_t) :
  AM.alert_inputs_numeric features = false ->
  exists e,
    AM._create_alert fmt strftime isoformat st clk risk lvl features
    = (AM.set_counter st (AM.incident_counter st + 1), Raise e).
Proof.
  unfold AM._create_alert, AM._identify_responsible_metrics, AM.alert_inputs_numeric,
    AM.get_number, AM.reads_number.
  cbn [forallb].
  destruct (dict_get features "cpu_current" (VNum 0)) as [x1| |];
    cbn [mbind outcome_bind andb]; try (intros _; eexists; reflexivity).
  destruct (dict_get features "memory_current" (VNum 0)) as [x2| |];
    cbn [mbind outcome_bind andb]; try (intros _; eexists; reflexivity).
  destruct (dict_get features "log_error_ratio" (VNum 0)) as [x3| |];
    cbn [mbind outcome_bind andb]; try (intros _; eexists; reflexivity).
  destruct (dict_get features "response_time_current" (VNum 0)) as [x4| |];
    cbn [mbind outcome_bind andb]; try (intros _; eexists; reflexivity).
  destruct (dict_get features "system_stress_score" (VNum 0)) as [x5| |];
    cbn [mbind outcome_bind andb]; try (intros _; eexists; reflexivity).
  discriminate.
Qed.

Lemma create_alert_fields (st st1 : AM.state) (clk : AM.clock) (risk : Q) (lvl : string)
    (features : features_t) (a : AM.Alert) :
  AM._create_alert fmt strftime isoformat st clk risk lvl features = (st1, Ret a) ->
  AM.risk_score a = risk /\ AM.risk_level a = lvl /\
  AM.timestamp a = isoformat (AM.now_timestamp clk).
Proof.
  unfold AM._create_alert. intros H. injection H as _ H.
  destruct (AM._identify_responsible_metrics fmt features risk) as [l|e];
    [|discriminate].
  destruct (AM._generate_recommendations features lvl) as [r|e]; [|discriminate].
  destruct (AM._generate_alert_description fmt strftime (AM.now_description clk)
              risk lvl features) as [d|e]; [|discriminate].
  cbn in H. injection H as <-. cbn. intuition.
Qed.

Lemma send_alert_unbuildable (st : AM.state) (clk : AM.clock) (data : AM.alert_data) :
  AM._is_in_cooldown st (AM.now_cooldown_check clk) (AM.level_of data) = false ->
  AM.alert_inputs_numeric (default ∅ (AM.ad_features data)) = false ->
  AM.send_alert fmt strftime isoformat sns_ok cloudwatch_ok st clk data
  = AM.set_counter st (AM.incident_counter st + 1).
Proof.
  intros H Hnum. unfold AM.send_alert. fold (AM.level_of data). rewrite H.
  destruct (create_alert_raises st clk (default 0 (AM.ad_risk_score data))
              (AM.level_of data) _ Hnum) as [e ->].
  reflexivity.
Qed.

Lemma send_alert_delivers (st : AM.state) (clk : AM.clock) (data : AM.alert_data) :
  AM._is_in_cooldown st (AM.now_cooldown_check clk) (AM.level_of data) = false ->
  AM.alert_inputs_numeric (default ∅ (AM.ad_features data)) = true ->
  let st' := AM.send_alert fmt strftime isoformat sns_ok cloudwatch_ok st clk data in
  exists alert,
    AM.risk_score alert = default 0 (AM.ad_risk_score data) /\
    AM.risk_level alert = AM.level_of data /\
    AM.console_out st' = (AM.console_out st ++ [alert])%list /\
    AM.sns_out st'
      = match AM.sns_topic_arn st with
        | Some _ =>
            if sns_ok alert then (AM.sns_out st ++ [alert])%list else AM.sns_out st
        | None => AM.sns_out st
        end /\
    AM.cloudwatch_out st'
      = (if cloudwatch_ok alert then (AM.cloudwatch_out st ++ [alert])%list
         else AM.cloudwatch_out st) /\
    AM.incident_counter st' = (AM.incident_counter st + 1)%Z /\
    AM.alert_cooldown st'
      = <[AM.level_of data := AM.now_cooldown_update clk]> (AM.alert_cooldown st) /\
    AM.min_alert_interval st' = AM.min_alert_interval st /\
    AM.sns_topic_arn st' = AM.sns_topic_arn st.
Proof.
  intros H Hnum. unfold AM.send_alert. fold (AM.level_of data). rewrite H.
  destruct (create_alert_ok fmt strftime isoformat st clk
              (default 0 (AM.ad_risk_score data)) (AM.level_of data) _ Hnum)
    as [alert E].
  pose proof (create_alert_fields _ _ _ _ _ _ _ E) as (F1 & F2 & _).
  rewrite E. exists alert.
  unfold AM._send_sns_alert, AM._send_cloudwatch_metric, AM._send_console_alert. simpl.
  destruct (AM.sns_topic_arn st); simpl;
    [destruct (sns_ok alert); simpl|];
    destruct (cloudwatch_ok alert); simpl; repeat split; assumption.
Qed.

End AlertDelivery.

(** X9: an alert whose record holds a non-number in an entry the alert
    text compares with a threshold is never delivered: no channel receives
    anything and no cooldown entry is written, yet the incident counter
    has advanced, so the incident number is used up. *)
Theorem send_alert_unbuildable_alert_uses_up_incident_number
    (fmt strftime : string -> Q -> string) (isoformat : Q -> string)
    (sns_ok cloudwatch_ok : AM.Alert -> bool)
    (st : AM.state) (clk : AM.clock) (data : AM.alert_data) :
  AM._is_in_cooldown st (AM.now_cooldown_check clk) (AM.level_of data) = false ->
  AM.alert_inputs_numeric (default ∅ (AM.ad_features data)) = false ->
  let st' := AM.send_alert fmt strftime isoformat sns_ok cloudwatch_ok st clk data in
  AM.console_out st' = AM.console_out st /\
  AM.sns_out st' = AM.sns_out st /\
  AM.cloudwatch_out st' = AM.cloudwatch_out st /\
  AM.alert_cooldown st' = AM.alert_cooldown st /\
  AM.incident_counter st' = (AM.incident_counter st + 1)%Z.
Proof.
  intros H Hnum st'. unfold st'.
  rewrite (send_alert_unbuildable fmt strftime isoformat sns_ok cloudwatch_ok
             st clk data H Hnum).
  repeat split; reflexivity.
Qed.

Lemma send_alert_unbuildable_alert_uses_up_incident_number_witness :
  let st' :=
    AM.send_alert Examples.plain_text Examples.plain_text Examples.plain_iso
      Examples.delivered Examples.delivered Examples.fresh_manager
      (Examples.clock_at 0) Scenarios.garbled_risk in
  AM.console_out st' = AM.console_out Examples.fresh_manager /\
  AM.sns_out st' = AM.sns_out Examples.fresh_manager /\
  AM.cloudwatch_out st' = AM.cloudwatch_out Examples.fresh_manager /\
  AM.alert_cooldown st' = AM.alert_cooldown Examples.fresh_manager /\
  AM.incident_counter st' = (AM.incident_counter Examples.fresh_manager + 1)%Z.
Proof.
  apply (send_alert_unbuildable_alert_uses_up_incident_number
           Examples.plain_text Examples.plain_text Examples.plain_iso
           Examples.delivered Examples.delivered Examples.fresh_manager
           (Examples.clock_at 0) Scenarios.garbled_risk); reflexivity.
Defined.

(** X10: an alert that is not in cooldown and whose record is numeric is
    delivered once: the console receives it, SNS receives it exactly when
    a topic is configured and the publish call goes through, CloudWatch
    exactly when its call goes through; the alert carries the score and
    the level computed from it, the incident counter advances by one and
    the cooldown entry of that level is set to the time of the update. *)
Theorem send_alert_delivers_one_alert
    (fmt strftime : string -> Q -> string) (isoformat : Q -> string)
    (sns_ok cloudwatch_ok : AM.Alert -> bool)
    (st : AM.state) (clk : AM.clock) (data : AM.alert_data) :
  AM._is_in_cooldown st (AM.now_cooldown_check clk) (AM.level_of data) = false ->
  AM.alert_inputs_numeric (default ∅ (AM.ad_features data)) = true ->
  let st' := AM.send_alert fmt strftime isoformat sns_ok cloudwatch_ok st clk data in
  exists alert,
    AM.risk_score alert = default 0 (AM.ad_risk_score data) /\
    AM.risk_level alert = AM.level_of data /\
    AM.console_out st' = (AM.console_out st ++ [alert])%list /\
    AM.sns_out st'
      = match AM.sns_topic_arn st with
        | Some _ =>
            if sns_ok alert then (AM.sns_out st ++ [alert])%list else AM.sns_out st
        | None => AM.sns_out st
        end /\
    AM.cloudwatch_out st'
      = (if cloudwatch_ok alert then (AM.cloudwatch_out st ++ [alert])%list
         else AM.cloudwatch_out st) /\
    AM.incident_counter st' = (AM.incident_counter st + 1)%Z /\
    AM.alert_cooldown st'
      = <[AM.level_of data := AM.now_cooldown_update clk]> (AM.alert_cooldown st).
Proof.
  intros H Hnum st'.
  destruct (send_alert_delivers fmt strftime isoformat sns_ok cloudwatch_ok
              st clk data H Hnum) as (a & H1 & H2 & H3 & H4 & H5 & H6 & H7 & _).
  exists a. repeat split; assumption.
Qed.

Lemma send_alert_delivers_one_alert_witness :
  let st' :=
    AM.send_alert Examples.plain_text Examples.plain_text Examples.plain_iso
      Examples.delivered Examples.delivered Examples.fresh_manager
      (Examples.clock_at 0) Examples.high_risk in
  exists alert,
    AM.risk_score alert = default 0 (AM.ad_risk_score Examples.high_risk) /\
    AM.risk_level alert = AM.level_of Examples.high_risk /\
    AM.console_out st' = (AM.console_out Examples.fresh_manager ++ [alert])%list /\
    AM.sns_out st'
      = match AM.sns_topic_arn Examples.fresh_manager with
        | Some _ =>
            if Examples.delivered alert
            then (AM.sns_out Examples.fresh_manager ++ [alert])%list
            else AM.sns_out Examples.fresh_manager
        | None => AM.sns_out Examples.fresh_manager
        end /\
    AM.cloudwatch_out st'
      = (if Examples.delivered alert
         then (AM.cloudwatch_out Examples.fresh_manager ++ [alert])%list
         else AM.cloudwatch_out Examples.fresh_manager) /\
    AM.incident_counter st' = (AM.incident_counter Examples.fresh_manager + 1)%Z /\
    AM.alert_cooldown st'
      = <[AM.level_of Examples.high_risk := AM.now_cooldown_update (Examples.clock_at 0)]>
          (AM.alert_cooldown Examples.fresh_manager).
Proof.
  apply (send_alert_delivers_one_alert
           Examples.plain_text Examples.plain_text Examples.plain_iso
           Examples.delivered Examples.delivered Examples.fresh_manager
           (Examples.clock_at 0) Examples.high_risk); reflexivity.
Defined.

(** X11: whatever the input, [send_alert] leaves the alert interval and the
    SNS topic as they are, advances the incident counter by at most one,
    touches no cooldown entry of another level, only ever appends to the
    three channels, and sends nothing to SNS without a configured topic. *)
Theorem send_alert_frame
    (fmt strftime : string -> Q -> string) (isoformat : Q -> string)
    (sns_ok cloudwatch_ok : AM.Alert -> bool)
    (st : AM.state) (clk : AM.clock) (data : AM.alert_data) :
  let st' := AM.send_alert fmt strftime isoformat sns_ok cloudwatch_ok st clk data in
  AM.min_alert_interval st' = AM.min_alert_interval st /\
  AM.sns_topic_arn st' = AM.sns_topic_arn st /\
  (AM.incident_counter st <= AM.incident_counter st' <= AM.incident_counter st + 1)%Z /\
  (forall Y, Y <> AM.level_of data ->
     AM.alert_cooldown st' !! Y = AM.alert_cooldown st !! Y) /\
  AM.console_out st `prefix_of` AM.console_out st' /\
  AM.sns_out st `prefix_of` AM.sns_out st' /\
  AM.cloudwatch_out st `prefix_of` AM.cloudwatch_out st' /\
  (AM.sns_topic_arn st = None -> AM.sns_out st' = AM.sns_out st).
Proof.
  intros st'.
  destruct (AM._is_in_cooldown st (AM.now_cooldown_check clk) (AM.level_of data)) eqn:Hc.
  - unfold st'.
    rewrite (send_alert_suppressed fmt strftime isoformat sns_ok cloudwatch_ok
               st clk data Hc).
    repeat split; try reflexivity; lia.
  - destruct (AM.alert_inputs_numeric (default ∅ (AM.ad_features data))) eqn:Hn.
    + destruct (send_alert_delivers fmt strftime isoformat sns_ok cloudwatch_ok
                  st clk data Hc Hn) as (a & _ & _ & H3 & H4 & H5 & H6 & H7 & H8 & H9).
      fold st' in H3, H4, H5, H6, H7, H8, H9.
      rewrite H3, H4, H5, H6, H7, H8, H9.
      repeat split; try lia.
      * intros Y HY. rewrite lookup_insert_ne by congruence. reflexivity.
      * apply prefix_app_r. reflexivity.
      * destruct (AM.sns_topic_arn st); [destruct (sns_ok a)|];
          try reflexivity; apply prefix_app_r; reflexivity.
      * destruct (cloudwatch_ok a); try reflexivity; apply prefix_app_r; reflexivity.
      * intros ->. reflexivity.
    + unfold st'.
      rewrite (send_alert_unbuildable fmt strftime isoformat sns_ok cloudwatch_ok
                 st clk data Hc Hn).
      simpl. repeat split; try reflexivity; lia.
Qed.

(** X12: the list of responsible metrics of an alert is never empty and has
    at most five entries; it cannot be built exactly when one of the five
    compared entries of the record is not a number. *)
Theorem responsible_metrics_never_empty
    (fmt : string -> Q -> string) (features : features_t) (risk_score : Q) :
  match AM._identify_responsible_metrics fmt features risk_score with
  | Ret l => (1 <= length l <= 5)%nat /\ AM.alert_inputs_numeric features = true
  | Raise _ => AM.alert_inputs_numeric features = false
  end.
Proof.
  unfold AM._identify_responsible_metrics, AM.alert_inputs_numeric, AM.get_number,
    AM.reads_number.
  cbn [forallb].
  destruct (dict_get features "cpu_current" (VNum 0)) as [x1| |]; try reflexivity.
  destruct (dict_get features "memory_current" (VNum 0)) as [x2| |]; try reflexivity.
  destruct (dict_get features "log_error_ratio" (VNum 0)) as [x3| |]; try reflexivity.
  destruct (dict_get features "response_time_current" (VNum 0)) as [x4| |];
    try reflexivity.
  destruct (dict_get features "system_stress_score" (VNum 0)) as [x5| |]; try reflexivity.
  cbn [mbind outcome_bind mret outcome_ret andb]. split; [|reflexivity].
  unfold AM.append_if.
  destruct (fgt x1 80), (fgt x2 80), (fgt x3 (5 # 100)), (fgt x4 1000), (fgt x5 (7 # 10));
    cbn [app length]; lia.
Qed.

(** ** The detection cycle *)

Lemma py_min_100_le (x : pyfloat) : py_min 100 x <= 100.
Proof.
  destruct x as [q|]; simpl; [|lra].
  destruct (Qltb q 100) eqn:E; [apply Qltb_lt in E|]; lra.
Qed.

Lemma py_max_0_ge (x : pyfloat) : 0 <= py_max 0 x.
Proof.
  destruct x as [q|]; simpl; [|lra].
  destruct (Qltb 0 q) eqn:E; [apply Qltb_lt in E|]; lra.
Qed.

Lemma clamp_0_100 (x : pyfloat) : 0 <= py_min 100 (Fin (py_max 0 x)) <= 100.
Proof.
  split; [|apply py_min_100_le].
  pose proof (py_max_0_ge x) as H. simpl.
  destruct (Qltb (py_max 0 x) 100); lra.
Qed.

(** X13: the risk score the optimized detector derives from an anomaly
    score lies in [[0, 100]] for every anomaly score ([nan] included) and
    every record; a text under [system_stress_score] or [error_rate]
    turns it into 0 whatever the anomaly score. *)
Theorem optimized_risk_score_in_range (anomaly_score : pyfloat) (features : features_t) :
  0 <= DC._calculate_risk_score anomaly_score features <= 100 /\
  (forall s, features !! "system_stress_score" = Some (VStr s) ->
     DC._calculate_risk_score anomaly_score features = 0) /\
  (forall s, features !! "error_rate" = Some (VStr s) ->
     DC._calculate_risk_score anomaly_score features = 0).
Proof.
  unfold DC._calculate_risk_score, AM.get_number, dict_get.
  destruct (features !! "system_stress_score") as [[x| |]|];
    destruct (features !! "error_rate") as [[y| |]|];
    cbn [default from_option id mbind outcome_bind mret outcome_ret try_except];
    (split; [first [apply clamp_0_100 | lra]
            | split; intros t Ht; first [discriminate | reflexivity]]).
Qed.

Section CollectFacts.

Context {scaler_t model_t : Type}.
Implicit Types st : OAD.state scaler_t model_t.

Lemma collect_fold_lookup (metrics : features_t) (l : list string) (acc : features_t)
    (k : string) :
  fold_left
    (fun (features : features_t) feature =>
       match metrics !! feature with
       | Some v => <[feature := v]> features
       | None =>
           <[feature := VNum (Fin (DC._get_default_feature_value feature))]> features
       end) l acc !! k
  = if decide (k ∈ l) then Some (collected_value metrics k) else acc !! k.
Proof.
  revert acc. induction l as [|f l IH]; intros acc; simpl.
  - destruct (decide (k ∈ [])) as [H|H]; [inversion H | reflexivity].
  - rewrite IH.
    destruct (decide (k ∈ l)) as [Hl|Hl].
    + rewrite decide_True by (right; exact Hl). reflexivity.
    + destruct (decide (k = f)) as [->|Hne].
      * rewrite decide_True by left.
        unfold collected_value, dict_get.
        destruct (metrics !! f); simpl; rewrite lookup_insert_eq; reflexivity.
      * rewrite decide_False by (intros H; inversion H; subst; contradiction).
        destruct (metrics !! f); rewrite lookup_insert_ne by congruence; reflexivity.
Qed.

End CollectFacts.

(** X14: the record collected for a cycle holds the timestamp and exactly
    the enabled features within the limit, each with the metric's value
    or, when the metric is missing, its default; every other metric
    (disk usage, network counters, and, with the default feature list, the
    stress score) is dropped. *)
Theorem collect_features_complete {scaler_t model_t : Type}
    (st : OAD.state scaler_t model_t) (metrics : features_t) (utc_iso : string) :
  let features := DC._collect_features st metrics utc_iso in
  let wanted := py_slice_to (OAD.feature_limit st) (OAD.enabled_features st) in
  features !! "timestamp" = Some (VStr utc_iso) /\
  (forall k, k ∈ wanted -> k <> "timestamp" ->
     features !! k
     = Some (dict_get metrics k (VNum (Fin (DC._get_default_feature_value k))))) /\
  (forall k, k ∉ wanted -> k <> "timestamp" -> features !! k = None).
Proof.
  intros features wanted. unfold features, DC._collect_features. fold wanted.
  split; [apply lookup_insert_eq|].
  split; intros k Hk Hts; rewrite lookup_insert_ne by congruence;
    rewrite collect_fold_lookup.
  - rewrite decide_True by exact Hk. reflexivity.
  - rewrite decide_False by exact Hk. apply lookup_empty.
Qed.

Lemma stress_of_cpu_memory (c m : option Q) (rest : features_t) :
  rest !! "cpu_current" = (fun x => VNum (Fin x)) <$> c ->
  rest !! "memory_current" = (fun x => VNum (Fin x)) <$> m ->
  rest !! "error_rate" = None ->
  exists s,
    DC._calculate_stress_score rest = Fin s /\
    s == match c, m with
         | Some c, Some m => (c / 100 + m / 100) / 2
         | Some c, None => c / 100
         | None, Some m => m / 100
         | None, None => 0
         end.
Proof.
  intros Hc Hm He. unfold DC._calculate_stress_score. rewrite Hc, Hm, He.
  destruct c as [c|], m as [m|]; simpl; eexists; (split; [reflexivity|]);
    try reflexivity; field.
Qed.

(** X15: the stress score attached to processed CloudWatch metrics is the
    mean of the latest CPU and memory samples, each divided by 100, over
    those that are present (0 when neither is); the error-rate estimate
    stored in the same record never enters it. *)
Theorem processed_metrics_stress_score (cw : gmap string (list Q))
    (error_rate response_time log_error_ratio : Q) :
  let features :=
    DC._process_cloudwatch_metrics cw error_rate response_time log_error_ratio in
  features !! "error_rate" = Some (VNum (Fin error_rate)) /\
  exists s,
    features !! "system_stress_score" = Some (VNum (Fin s)) /\
    s == match latest cw "cpu_utilization", latest cw "memory_utilization" with
         | Some c, Some m => (c / 100 + m / 100) / 2
         | Some c, None => c / 100
         | None, Some m => m / 100
         | None, None => 0
         end.
Proof.
  intros features. unfold features, DC._process_cloudwatch_metrics, dict_update.
  split.
  { apply lookup_union_Some_l. apply lookup_insert_eq. }
  set (rest := match cw !! "disk_utilization" with Some ((_ :: _) as d) => _ | _ => _ end).
  destruct (stress_of_cpu_memory (latest cw "cpu_utilization")
              (latest cw "memory_utilization") rest) as (s & Hs & Heq).
  - unfold rest, latest.
    destruct (cw !! "cpu_utilization") as [[|c cs]|];
      destruct (cw !! "memory_utilization") as [[|m ms]|];
      destruct (cw !! "disk_utilization") as [[|d ds]|];
      cbn [fmap option_fmap option_map]; skip_inserts;
      first [apply lookup_insert_eq | apply lookup_empty].
  - unfold rest, latest.
    destruct (cw !! "cpu_utilization") as [[|c cs]|];
      destruct (cw !! "memory_utilization") as [[|m ms]|];
      destruct (cw !! "disk_utilization") as [[|d ds]|];
      cbn [fmap option_fmap option_map]; skip_inserts;
      first [apply lookup_insert_eq | apply lookup_empty].
  - unfold rest.
    destruct (cw !! "cpu_utilization") as [[|c cs]|];
      destruct (cw !! "memory_utilization") as [[|m ms]|];
      destruct (cw !! "disk_utilization") as [[|d ds]|];
      skip_inserts; apply lookup_empty.
  - exists s. split; [|exact Heq].
    apply lookup_union_Some_l. skip_inserts. rewrite lookup_insert_eq.
    fold rest. rewrite Hs. reflexivity.
Qed.

Section CycleFacts.

Context {scaler_t model_t : Type}.
Implicit Types st : OAD.state scaler_t model_t.

Lemma py_slice_from_suffix_of {A : Type} (k : Z) (l : list A) :
  py_slice_from k l `suffix_of` l.
Proof. destruct (py_slice_from_suffix k l) as [d Hd]. exists d. exact Hd. Qed.

Lemma py_slice_from_neg_length_min {A : Type} (h : Z) (l : list A) :
  (0 < h)%Z -> length (py_slice_from (- h) l) = Nat.min (length l) (Z.to_nat h).
Proof.
  intros H. unfold py_slice_from. rewrite length_drop.
  replace (- h <? 0)%Z with true by (symmetry; apply Z.ltb_lt; lia). lia.
Qed.

Lemma cycle_add_cases st f :
  ((Z.of_nat (length (OAD.training_data st)) < OAD.max_training_samples st)%Z /\
   OAD._detection_cycle_add st f
   = OAD.set_training_data _ _ st
       (OAD.training_data st ++ [OAD.feature_vector st f])%list) \/
  ((OAD.max_training_samples st <= Z.of_nat (length (OAD.training_data st)))%Z /\
   OAD._detection_cycle_add st f = st).
Proof.
  unfold OAD._detection_cycle_add.
  destruct (Z.of_nat (length (OAD.training_data st))
              <? OAD.max_training_samples st)%Z eqn:E.
  - apply Z.ltb_lt in E. left. split; [exact E|].
    unfold OAD._add_to_training_data.
    replace (OAD.max_training_samples st <? _)%Z with false; [reflexivity|].
    symmetry. apply Z.ltb_ge. rewrite length_app. simpl. lia.
  - apply Z.ltb_ge in E. right. split; [exact E | reflexivity].
Qed.

End CycleFacts.

(** X16: the append of the detection cycle never discards a sample: below
    the capacity it appends the new vector and keeps all earlier ones (the
    halving of the buffer cannot fire here), and at or above the capacity
    it records nothing and leaves the detector as it is. *)
Theorem detection_cycle_add_never_discards {scaler_t model_t : Type}
    (st : OAD.state scaler_t model_t) (features : features_t) :
  let st' := OAD._detection_cycle_add st features in
  ((Z.of_nat (length (OAD.training_data st)) < OAD.max_training_samples st)%Z ->
   OAD.training_data st'
   = (OAD.training_data st ++ [OAD.feature_vector st features])%list) /\
  ((OAD.max_training_samples st <= Z.of_nat (length (OAD.training_data st)))%Z ->
   st' = st) /\
  OAD.training_data st `prefix_of` OAD.training_data st'.
Proof.
  intros st'. unfold st'.
  destruct (cycle_add_cases st features) as [[H ->]|[H ->]].
  - split; [intros _; reflexivity|]. split; [intros H'; lia|].
    simpl. apply prefix_app_r. reflexivity.
  - split; [intros H'; lia|]. split; [intros _; reflexivity | reflexivity].
Qed.

(** X17: training never clears the trained flag, never changes the
    capacities or the feature selection, and only ever shortens the
    buffer from the front. It reports success only with the flag set, a
    model in place and the buffer cut to its latest 100 samples (all of
    them if fewer); when it reports failure the flag and the buffer are
    as before. *)
Theorem train_model_invariants {scaler_t model_t : Type}
    (scaler_fit_transform : scaler_t -> list (list Q) -> scaler_t * outcome (list (list Q)))
    (new_model : model_t)
    (model_fit : model_t -> list (list Q) -> model_t * outcome unit)
    (st : OAD.state scaler_t model_t) :
  let ok := fst (OAD._train_model scaler_fit_transform new_model model_fit st) in
  let st' := snd (OAD._train_model scaler_fit_transform new_model model_fit st) in
  (OAD.is_trained st = true -> OAD.is_trained st' = true) /\
  OAD.training_data st' `suffix_of` OAD.training_data st /\
  OAD.max_training_samples st' = OAD.max_training_samples st /\
  OAD.min_samples st' = OAD.min_samples st /\
  OAD.enabled_features st' = OAD.enabled_features st /\
  OAD.feature_limit st' = OAD.feature_limit st /\
  (ok = true ->
     OAD.is_trained st' = true /\ OAD.model st' <> None /\
     (OAD.min_samples st <= Z.of_nat (length (OAD.training_data st)))%Z /\
     length (OAD.training_data st') = Nat.min (length (OAD.training_data st)) 100) /\
  (ok = false ->
     OAD.is_trained st' = OAD.is_trained st /\
     OAD.training_data st' = OAD.training_data st).
Proof.
  intros ok st'. unfold ok, st', OAD._train_model.
  destruct (Z.of_nat (length (OAD.training_data st)) <? OAD.min_samples st)%Z eqn:E.
  { simpl. repeat split; try reflexivity; try discriminate; auto. }
  apply Z.ltb_ge in E.
  destruct (scaler_fit_transform _ _) as [sc [X|e]].
  2:{ simpl. repeat split; try reflexivity; try discriminate; auto. }
  destruct (model_fit new_model X) as [m [[]|e]].
  2:{ simpl. repeat split; try reflexivity; try discriminate; auto. }
  simpl. repeat split; try reflexivity; try discriminate; auto.
  - apply py_slice_from_suffix_of.
  - change (-100)%Z with (- (100))%Z. rewrite py_slice_from_neg_length_min by lia.
    reflexivity.
Qed.

(** X18: if retraining gets as far as fitting the new forest and the fit
    raises, the call reports failure, yet the detector keeps its trained
    flag while its model is now the new forest whose fit failed, and its
    scaler is the refitted one; the earlier model is gone. *)
Theorem failed_refit_replaces_model {scaler_t model_t : Type}
    (scaler_fit_transform : scaler_t -> list (list Q) -> scaler_t * outcome (list (list Q)))
    (new_model : model_t)
    (model_fit : model_t -> list (list Q) -> model_t * outcome unit)
    (st : OAD.state scaler_t model_t)
    (sc : scaler_t) (X_scaled : list (list Q)) (m : model_t) (e : exn) :
  (OAD.min_samples st <= Z.of_nat (length (OAD.training_data st)))%Z ->
  scaler_fit_transform (OAD.scaler st) (OAD.nan_to_num (OAD.training_data st))
    = (sc, Ret X_scaled) ->
  model_fit new_model X_scaled = (m, Raise e) ->
  let ok := fst (OAD._train_model scaler_fit_transform new_model model_fit st) in
  let st' := snd (OAD._train_model scaler_fit_transform new_model model_fit st) in
  ok = false /\
  OAD.is_trained st' = OAD.is_trained st /\
  OAD.model st' = Some m /\
  OAD.scaler st' = sc /\
  OAD.training_data st' = OAD.training_data st.
Proof.
  intros Hlen Hsc Hfit ok st'. unfold ok, st', OAD._train_model.
  replace (Z.of_nat (length (OAD.training_data st)) <? OAD.min_samples st)%Z
    with false by (symmetry; apply Z.ltb_ge; exact Hlen).
  rewrite Hsc. simpl. rewrite Hfit. simpl. repeat split; reflexivity.
Qed.

Lemma failed_refit_replaces_model_witness :
  let run :=
    OAD._train_model Examples.fit_ok "fresh" Scenarios.model_fit_fails
      Scenarios.trained_detector in
  fst run = false /\
  OAD.is_trained (snd run) = OAD.is_trained Scenarios.trained_detector /\
  OAD.model (snd run) = Some "fresh" /\
  OAD.scaler (snd run) = tt /\
  OAD.training_data (snd run) = OAD.training_data Scenarios.trained_detector.
Proof.
  apply (failed_refit_replaces_model Examples.fit_ok "fresh" Scenarios.model_fit_fails
           Scenarios.trained_detector tt [[30]; [35]] "fresh" ValueError).
  - vm_compute. discriminate.
  - reflexivity.
  - reflexivity.
Defined.

(** X19: memory cleanup keeps the latest 50 training samples (all of them
    if there are at most 50) and nothing else of the detector changes. *)
Theorem cleanup_memory_keeps_latest_50 {scaler_t model_t : Type}
    (st : OAD.state scaler_t model_t) :
  let st' := DC._cleanup_memory st in
  length (OAD.training_data st') = Nat.min (length (OAD.training_data st)) 50 /\
  OAD.training_data st' `suffix_of` OAD.training_data st /\
  OAD.is_trained st' = OAD.is_trained st /\
  OAD.model st' = OAD.model st /\
  OAD.scaler st' = OAD.scaler st.
Proof.
  intros st'. unfold st', DC._cleanup_memory.
  destruct (50 <? length (OAD.training_data st))%nat eqn:E.
  - apply Nat.ltb_lt in E. simpl.
    change (-50)%Z with (- (50))%Z. rewrite py_slice_from_neg_length_min by lia.
    repeat split; try reflexivity. apply py_slice_from_suffix_of.
  - apply Nat.ltb_ge in E. repeat split; try reflexivity. lia.
Qed.

Section PredictionFacts.

Context {scaler_t model_t : Type}.
Variable scaler_transform : scaler_t -> list (list Q) -> outcome (list (list Q)).
Variable model_predict : model_t -> list (list Q) -> outcome Z.
Variable model_decision_function : model_t -> list (list Q) -> outcome pyfloat.
Variable fmt : string -> Q -> string.
Variable strftime : string -> Q -> string.
Variable isoformat : Q -> string.
Variable sns_ok : AM.Alert -> bool.
Variable cloudwatch_ok : AM.Alert -> bool.

Lemma risk_score_range (a : pyfloat) (features : features_t) :
  0 <= DC._calculate_risk_score a features <= 100.
Proof.
  unfold DC._calculate_risk_score, AM.get_number, dict_get.
  destruct (features !! "system_stress_score") as [[x| |]|];
    destruct (features !! "error_rate") as [[y| |]|];
    cbn [default from_option id mbind outcome_bind mret outcome_ret try_except];
    first [apply clamp_0_100 | lra].
Qed.

Lemma predict_anomaly_cases (st : OAD.state scaler_t model_t) (count : Z) (utc : string)
    (features : features_t) :
  let out :=
    DC._predict_anomaly scaler_transform model_predict model_decision_function
      st count utc features in
  0 <= fst (fst out) <= 100 /\
  match snd (fst out) with
  | Some r =>
      DC.pr_risk_score r = fst (fst out) /\ snd out = (count + 1)%Z /\
      OAD.model st <> None
  | None => fst (fst out) = 0 /\ snd out = count
  end.
Proof.
  unfold DC._predict_anomaly.
  destruct (scaler_transform _ _) as [X|e]; cbn; [|split; [lra | split; reflexivity]].
  destruct (OAD.model st) as [m|]; cbn; [|split; [lra | split; reflexivity]].
  destruct (model_predict m X) as [p|e]; cbn; [|split; [lra | split; reflexivity]].
  destruct (model_decision_function m X) as [a|e]; cbn;
    [|split; [lra | split; reflexivity]].
  split; [apply risk_score_range|]. repeat split. discriminate.
Qed.

Lemma determine_risk_level_above_70 (r : Q) :
  70 < r ->
  (AM._determine_risk_level r = "HIGH" /\ 71 <= r) \/
  (AM._determine_risk_level r = "MEDIUM" /\ r < 71).
Proof.
  intros H. unfold AM._determine_risk_level.
  destruct (Qle_bool 71 r) eqn:E1.
  - left. split; [reflexivity|]. apply Qle_bool_iff. exact E1.
  - right. assert (H71 : r < 71).
    { apply Qnot_le_lt. intros C. apply Qle_bool_iff in C. congruence. }
    replace (Qle_bool 31 r) with true; [split; [reflexivity | exact H71]|].
    symmetry. apply Qle_bool_iff. lra.
Qed.

(** What a call of [send_alert] can add to the console: nothing, or one
    alert with the score and level of its argument. *)
Lemma send_alert_console (am : AM.state) (clk : AM.clock) (data : AM.alert_data) :
  let am' := AM.send_alert fmt strftime isoformat sns_ok cloudwatch_ok am clk data in
  AM.console_out am' = AM.console_out am \/
  exists a, AM.console_out am' = (AM.console_out am ++ [a])%list /\
            AM.risk_score a = default 0 (AM.ad_risk_score data) /\
            AM.risk_level a = AM.level_of data.
Proof.
  intros am'. unfold am'.
  destruct (AM._is_in_cooldown am (AM.now_cooldown_check clk) (AM.level_of data)) eqn:Hc.
  - left. rewrite (send_alert_suppressed _ _ _ _ _ _ _ _ Hc). reflexivity.
  - destruct (AM.alert_inputs_numeric (default ∅ (AM.ad_features data))) eqn:Hn.
    + right.
      destruct (send_alert_delivers fmt strftime isoformat sns_ok cloudwatch_ok
                  am clk data Hc Hn) as (a & H1 & H2 & H3 & _).
      exists a. repeat split; assumption.
    + left. rewrite (send_alert_unbuildable _ _ _ _ _ _ _ _ Hc Hn). reflexivity.
Qed.

Lemma handle_prediction_console (am : AM.state) (clk : AM.clock) (risk : Q)
    (features : features_t) :
  let am' := DC._handle_prediction fmt strftime isoformat sns_ok cloudwatch_ok
               am clk risk features in
  (risk <= 70 -> am' = am) /\
  (AM.console_out am' = AM.console_out am \/
   exists a, AM.console_out am' = (AM.console_out am ++ [a])%list /\
             AM.risk_score a = risk /\ 70 < risk /\
             ((AM.risk_level a = "HIGH" /\ 71 <= risk) \/
              (AM.risk_level a = "MEDIUM" /\ risk < 71))).
Proof.
  intros am'. unfold am', DC._handle_prediction.
  destruct (Qltb 70 risk) eqn:E.
  - apply Qltb_lt in E. split; [intros H; lra|].
    destruct (send_alert_console am clk
                {| AM.ad_risk_score := Some risk; AM.ad_features := Some features |})
      as [H|(a & H1 & H2 & H3)]; [left; exact H|].
    right. exists a. split; [exact H1|]. split; [exact H2|]. split; [exact E|].
    rewrite H3. apply determine_risk_level_above_70. exact E.
  - split; [intros _; reflexivity | left; reflexivity].
Qed.

End PredictionFacts.


(** X21: handling a prediction leaves the alert manager untouched for a risk
    score of at most 70. Above 70 it prints at most one alert, which
    carries that score; its level is HIGH from 71 on and MEDIUM for a
    score between 70 and 71, never LOW. *)
Theorem handle_prediction_alerts_above_70
    (fmt strftime : string -> Q -> string) (isoformat : Q -> string)
    (sns_ok cloudwatch_ok : AM.Alert -> bool)
    (am : AM.state) (clk : AM.clock) (risk_score : Q) (features : features_t) :
  let am' := DC._handle_prediction fmt strftime isoformat sns_ok cloudwatch_ok
               am clk risk_score features in
  (risk_score <= 70 -> am' = am) /\
  (AM.console_out am' = AM.console_out am \/
   exists a, AM.console_out am' = (AM.console_out am ++ [a])%list /\
             AM.risk_score a = risk_score /\ 70 < risk_score /\
             ((AM.risk_level a = "HIGH" /\ 71 <= risk_score) \/
              (AM.risk_level a = "MEDIUM" /\ risk_score < 71))).
Proof. apply handle_prediction_console. Qed.

(** X22: one detection cycle keeps the trained flag, the model and the
    scaler, adds at most one sample to the buffer and removes none. An
    untrained detector predicts nothing: the alert manager and the
    prediction counter stay as they are. A trained one prints at most one
    alert, whose score is above 70 and at most 100 and whose level is HIGH
    or MEDIUM. *)
Theorem detection_cycle_effects {scaler_t model_t : Type}
    (scaler_transform : scaler_t -> list (list Q) -> outcome (list (list Q)))
    (model_predict : model_t -> list (list Q) -> outcome Z)
    (model_decision_function : model_t -> list (list Q) -> outcome pyfloat)
    (fmt strftime : string -> Q -> string) (isoformat : Q -> string)
    (sns_ok cloudwatch_ok : AM.Alert -> bool)
    (st : OAD.state scaler_t model_t) (am : AM.state) (prediction_count : Z)
    (metrics : features_t) (utc_collect utc_predict : string) (clk : AM.clock) :
  let out :=
    DC._detection_cycle scaler_transform model_predict model_decision_function
      fmt strftime isoformat sns_ok cloudwatch_ok
      st am prediction_count metrics utc_collect utc_predict clk in
  let st' := fst (fst out) in
  let am' := snd (fst out) in
  let count' := snd out in
  OAD.is_trained st' = OAD.is_trained st /\
  OAD.model st' = OAD.model st /\
  OAD.scaler st' = OAD.scaler st /\
  OAD.training_data st `prefix_of` OAD.training_data st' /\
  (length (OAD.training_data st') <= S (length (OAD.training_data st)))%nat /\
  (OAD.is_trained st = false -> am' = am /\ count' = prediction_count) /\
  (prediction_count <= count' <= prediction_count + 1)%Z /\
  (AM.console_out am' = AM.console_out am \/
   exists a, AM.console_out am' = (AM.console_out am ++ [a])%list /\
             70 < AM.risk_score a <= 100 /\
             (AM.risk_level a = "HIGH" \/ AM.risk_level a = "MEDIUM")).
Proof.
  intros out st' am' count'. unfold st', am', count', out, DC._detection_cycle.
  set (features := DC._collect_features st metrics utc_collect).
  assert (Hadd :
    OAD.is_trained (OAD._detection_cycle_add st features) = OAD.is_trained st /\
    OAD.model (OAD._detection_cycle_add st features) = OAD.model st /\
    OAD.scaler (OAD._detection_cycle_add st features) = OAD.scaler st /\
    OAD.training_data st `prefix_of`
      OAD.training_data (OAD._detection_cycle_add st features) /\
    (length (OAD.training_data (OAD._detection_cycle_add st features))
       <= S (length (OAD.training_data st)))%nat).
  { destruct (cycle_add_cases st features) as [[_ ->]|[_ ->]]; simpl.
    - repeat split; [apply prefix_app_r; reflexivity | rewrite length_app; simpl; lia].
    - repeat split; [reflexivity | lia]. }
  destruct Hadd as (H1 & H2 & H3 & H4 & H5).
  set (st1 := OAD._detection_cycle_add st features) in *.
  destruct (OAD.is_trained st1) eqn:Et.
  - pose proof (predict_anomaly_cases scaler_transform model_predict
                  model_decision_function st1 prediction_count utc_predict features)
      as [Hr Hres].
    destruct (DC._predict_anomaly _ _ _ st1 prediction_count utc_predict features)
      as [[risk res] cnt].
    cbn [fst snd] in *.
    pose proof (handle_prediction_console fmt strftime isoformat sns_ok cloudwatch_ok
                  am clk risk features) as [_ Hc].
    assert (Hcnt : (prediction_count <= cnt <= prediction_count + 1)%Z).
    { destruct res as [r|]; [destruct Hres as (_ & -> & _) | destruct Hres as [_ ->]];
        lia. }
    split; [congruence|]. split; [assumption|]. split; [assumption|].
    split; [assumption|]. split; [assumption|].
    split; [intros Hf; congruence|]. split; [exact Hcnt|].
    destruct Hc as [Hc|(a & Ha & Hs & Hgt & Hlvl)]; [left; exact Hc|].
    right. exists a. split; [exact Ha|]. rewrite Hs. split; [lra|].
    destruct Hlvl as [[-> _]|[-> _]]; [left | right]; reflexivity.
  - cbn [fst snd].
    split; [congruence|]. split; [assumption|]. split; [assumption|].
    split; [assumption|]. split; [assumption|].
    split; [intros _; split; reflexivity|]. split; [lia|].
    left. reflexivity.
Qed.

(** ** Detection and alerting of the anomaly detector *)

Lemma scorer_result_range (st : RiskScorer.state) (current_hour : Z) (utc_iso : string)
    (anomaly_score : pyval) (features : features_t) :
  0 <= fst (RiskScorer.calculate_risk_score st current_hour utc_iso
              anomaly_score features) <= 100.
Proof.
  unfold RiskScorer.calculate_risk_score, RiskScorer.calculate_risk_score_body.
  destruct (RiskScorer._normalize_anomaly_score anomaly_score) as [n|e]; simpl.
  - apply py_round2_range. apply clamp_range.
  - lra.
Qed.



Section ServiceFacts.

Context {scaler_t model_t : Type}.
Variable to_row : features_t -> outcome (list (list Q)).
Variable scaler_transform : scaler_t -> list (list Q) -> outcome (list (list Q)).
Variable model_predict : model_t -> list (list Q) -> outcome Z.
Variable model_decision_function : model_t -> list (list Q) -> outcome pyfloat.
Variable fmt : string -> Q -> string.
Variable strftime : string -> Q -> string.
Variable isoformat : Q -> string.
Variable sns_ok : AM.Alert -> bool.
Variable cloudwatch_ok : AM.Alert -> bool.

(** The triple of [detect_anomaly]: not an anomaly with score 0 when the
    detector is untrained or a step raised, and otherwise a result that
    repeats the flag and the score. *)
Lemma detect_anomaly_cases (svc : DS.service scaler_t model_t) (t : DS.times)
    (features : features_t) :
  let out := DS.detect_anomaly to_row scaler_transform model_predict
               model_decision_function svc t features in
  let '(is_anomaly, risk_score, result, scorer) := out in
  0 <= risk_score <= 100 /\
  match result with
  | DS.Detected d =>
      AD.is_trained (DS.detector svc) = true /\
      DS.d_is_anomaly d = is_anomaly /\ DS.d_risk_score d = risk_score /\
      (is_anomaly = true <-> DS.d_prediction d = (-1)%Z \/ 50 < risk_score)
  | DS.ModelNotTrained =>
      AD.is_trained (DS.detector svc) = false /\
      is_anomaly = false /\ risk_score = 0 /\ scorer = DS.risk_scorer svc
  | DS.Failed =>
      AD.is_trained (DS.detector svc) = true /\
      is_anomaly = false /\ risk_score = 0 /\ scorer = DS.risk_scorer svc
  end.
Proof.
  unfold DS.detect_anomaly.
  destruct (AD.is_trained (DS.detector svc)); cbn [negb];
    [|split; [lra | repeat split; reflexivity]].
  destruct (to_row features) as [X|e]; cbn [mbind outcome_bind];
    [|split; [lra | repeat split; reflexivity]].
  destruct (scaler_transform _ X) as [Xs|e]; cbn [mbind outcome_bind];
    [|split; [lra | repeat split; reflexivity]].
  destruct (model_predict _ Xs) as [p|e]; cbn [mbind outcome_bind];
    [|split; [lra | repeat split; reflexivity]].
  destruct (model_decision_function _ Xs) as [a|e]; cbn [mbind outcome_bind];
    [|split; [lra | repeat split; reflexivity]].
  cbn [mret outcome_ret].
  pose proof (scorer_result_range (DS.risk_scorer svc) (DS.current_hour t)
                (DS.utc_scored t) (VNum a) features) as Hr.
  destruct (RiskScorer.calculate_risk_score _ _ _ (VNum a) features) as [r sc].
  cbn [fst] in Hr. split; [exact Hr|].
  cbn [DS.d_is_anomaly DS.d_risk_score DS.d_prediction].
  split; [reflexivity|]. split; [reflexivity|]. split; [reflexivity|].
  rewrite orb_true_iff, Z.eqb_eq. split; intros [H|H]; [left | right | left | right];
    try exact H; apply Qltb_lt; exact H.
Qed.

End ServiceFacts.

Lemma append_capped_length {A : Type} (l : list A) (x : A) :
  length (if (1000 <? length (l ++ [x]))%nat
          then py_slice_from (-1000) (l ++ [x]) else (l ++ [x])%list)
  = Nat.min (S (length l)) 1000.
Proof.
  assert (Hh : length (l ++ [x]) = S (length l)) by (rewrite length_app; simpl; lia).
  destruct (1000 <? length (l ++ [x]))%nat eqn:E.
  - apply Nat.ltb_lt in E.
    change (py_slice_from (-1000) (l ++ [x]))
      with (py_slice_from (- (1000))%Z (l ++ [x])).
    rewrite (py_slice_from_neg_length 1000 (l ++ [x])) by lia. lia.
  - apply Nat.ltb_ge in E. lia.
Qed.

Lemma append_capped_last {A : Type} (l : list A) (x : A) :
  last (if (1000 <? length (l ++ [x]))%nat
        then py_slice_from (-1000) (l ++ [x]) else (l ++ [x])%list)
  = Some x.
Proof.
  destruct (1000 <? _)%nat.
  - apply (py_slice_from_last 1000). lia.
  - apply last_snoc.
Qed.

Lemma risk_levels_agree (s : Q) :
  AM._determine_risk_level s = RiskScorer.get_risk_level s.
Proof. reflexivity. Qed.

Section ServiceEffects.

Context {scaler_t model_t : Type}.
Variable to_row : features_t -> outcome (list (list Q)).
Variable scaler_transform : scaler_t -> list (list Q) -> outcome (list (list Q)).
Variable model_predict : model_t -> list (list Q) -> outcome Z.
Variable model_decision_function : model_t -> list (list Q) -> outcome pyfloat.
Variable fmt : string -> Q -> string.
Variable strftime : string -> Q -> string.
Variable isoformat : Q -> string.
Variable sns_ok : AM.Alert -> bool.
Variable cloudwatch_ok : AM.Alert -> bool.

Lemma process_and_alert_detector (svc : DS.service scaler_t model_t) (t : DS.times)
    (features : features_t) :
  DS.detector
    (DS.process_and_alert to_row scaler_transform model_predict model_decision_function
      fmt strftime isoformat sns_ok cloudwatch_ok svc t features)
  = DS.detector svc.
Proof.
  unfold DS.process_and_alert.
  destruct (DS.detect_anomaly _ _ _ _ svc t features) as [[[b r] res] sc]. reflexivity.
Qed.

Lemma process_and_alert_cases (svc : DS.service scaler_t model_t) (t : DS.times)
    (features : features_t) :
  let svc' :=
    DS.process_and_alert to_row scaler_transform model_predict model_decision_function
      fmt strftime isoformat sns_ok cloudwatch_ok svc t features in
  DS.detector svc' = DS.detector svc /\
  DS.feature_stats svc' = DS.feature_stats svc /\
  length (DS.prediction_history svc')
    = Nat.min (S (length (DS.prediction_history svc))) 1000 /\
  (AD.is_trained (DS.detector svc) = false ->
     DS.alert_manager svc' = DS.alert_manager svc /\
     DS.risk_scorer svc' = DS.risk_scorer svc /\
     last (DS.prediction_history svc') = Some DS.ModelNotTrained) /\
  (AM.console_out (DS.alert_manager svc') = AM.console_out (DS.alert_manager svc) \/
   exists a d,
     AM.console_out (DS.alert_manager svc')
       = (AM.console_out (DS.alert_manager svc) ++ [a])%list /\
     last (DS.prediction_history svc') = Some (DS.Detected d) /\
     DS.d_risk_score d = AM.risk_score a /\
     0 <= AM.risk_score a <= 100 /\
     (DS.d_prediction d = (-1)%Z \/ 50 < AM.risk_score a) /\
     AM.risk_level a = RiskScorer.get_risk_level (AM.risk_score a)).
Proof.
  intros svc'. unfold svc', DS.process_and_alert.
  pose proof (detect_anomaly_cases to_row scaler_transform model_predict
                model_decision_function svc t features) as H.
  cbv zeta in H.
  destruct (DS.detect_anomaly _ _ _ _ svc t features) as [[[b r] res] sc].
  destruct H as [Hr Hres].
  cbn [DS.detector DS.feature_stats DS.prediction_history DS.alert_manager
       DS.risk_scorer].
  split; [reflexivity|]. split; [reflexivity|].
  split; [apply append_capped_length|].
  split.
  - intros Hf. destruct res as [d| |].
    + destruct Hres as [Ht _]. congruence.
    + destruct Hres as (_ & -> & _ & ->).
      split; [reflexivity|]. split; [reflexivity|]. apply append_capped_last.
    + destruct Hres as [Ht _]. congruence.
  - destruct b; [|left; reflexivity].
    destruct (send_alert_console fmt strftime isoformat sns_ok cloudwatch_ok
                (DS.alert_manager svc) (DS.alert_clock t)
                {| AM.ad_risk_score := Some r; AM.ad_features := Some features |})
      as [H|(a & H1 & H2 & H3)]; [left; exact H|].
    cbn [AM.ad_risk_score default from_option id] in H2.
    destruct res as [d| |].
    + destruct Hres as (_ & Hb & Hd & Hiff). right. exists a, d.
      split; [exact H1|]. split; [apply append_capped_last|].
      rewrite H2. split; [exact Hd|]. split; [exact Hr|].
      split; [apply Hiff; reflexivity|].
      rewrite H3. unfold AM.level_of. cbn [AM.ad_risk_score default from_option id].
      apply risk_levels_agree.
    + destruct Hres as (_ & Hb & _). discriminate.
    + destruct Hres as (_ & Hb & _). discriminate.
Qed.

Lemma detection_cycle_buffer (svc : DS.service scaler_t model_t) (t : DS.times)
    (collected : option features_t) :
  (Z.of_nat (length (AD.training_data (DS.detector svc))) <= 10000)%Z ->
  let svc' :=
    DS._detection_cycle to_row scaler_transform model_predict model_decision_function
      fmt strftime isoformat sns_ok cloudwatch_ok svc t collected in
  (Z.of_nat (length (AD.training_data (DS.detector svc'))) <= 10000)%Z /\
  (forall features,
     collected = Some features -> size features <> 0%nat ->
     last (AD.training_data (DS.detector svc')) = Some features /\
     (Z.of_nat (length (AD.training_data (DS.detector svc))) < 10000 ->
      AD.training_data (DS.detector svc')
      = (AD.training_data (DS.detector svc) ++ [features])%list)%Z /\
     (Z.of_nat (length (AD.training_data (DS.detector svc))) = 10000 ->
      length (AD.training_data (DS.detector svc')) = 5000%nat)%Z).
Proof.
  intros Hlen svc'. unfold svc', DS._detection_cycle.
  destruct collected as [f|]; [|split; [exact Hlen | intros f' Hf'; discriminate]].
  destruct (size f =? 0)%nat eqn:Es.
  { apply Nat.eqb_eq in Es. split; [exact Hlen|].
    intros f' Hf' Hs. injection Hf' as <-. contradiction. }
  set (svc1 := DS.set_detector_data _ _ svc _).
  rewrite (process_and_alert_detector svc1 t f).
  assert (Hd : AD.training_data (DS.detector svc1)
               = (AD.training_data (DS.detector svc) ++ [f])%list) by reflexivity.
  rewrite Hd.
  assert (Hl : length (AD.training_data (DS.detector svc) ++ [f])
               = S (length (AD.training_data (DS.detector svc))))
    by (rewrite length_app; simpl; lia).
  destruct (10000 <? Z.of_nat (length (AD.training_data (DS.detector svc) ++ [f])))%Z
    eqn:E.
  - apply Z.ltb_lt in E.
    cbn [DS.detector DS.set_detector_data AD.training_data].
    change (-5000)%Z with (- (5000))%Z.
    rewrite py_slice_from_neg_length by lia.
    split; [lia|]. intros f' Hf' Hs. injection Hf' as <-.
    split; [apply (py_slice_from_last 5000); lia|].
    split; [intros H; lia | intros _; reflexivity].
  - apply Z.ltb_ge in E. rewrite process_and_alert_detector, Hd.
    split; [lia|]. intros f' Hf' Hs. injection Hf' as <-.
    split; [apply last_snoc|].
    split; [intros _; reflexivity | intros H; lia].
Qed.

End ServiceEffects.

(** X24: processing a record never changes the detector, grows the
    prediction history by the new result and caps it at its latest 1000
    entries. An untrained detector records that the model is not trained
    and neither alerts nor touches the risk scorer. At most one alert is
    printed; it belongs to a result flagged as anomaly, carries that
    result's risk score, which lies in [[0, 100]], was raised because the
    forest predicted -1 or the score exceeds 50, and its level is the one
    the risk scorer assigns to the score. *)
Theorem process_and_alert_effects {scaler_t model_t : Type}
    (to_row : features_t -> outcome (list (list Q)))
    (scaler_transform : scaler_t -> list (list Q) -> outcome (list (list Q)))
    (model_predict : model_t -> list (list Q) -> outcome Z)
    (model_decision_function : model_t -> list (list Q) -> outcome pyfloat)
    (fmt strftime : string -> Q -> string) (isoformat : Q -> string)
    (sns_ok cloudwatch_ok : AM.Alert -> bool)
    (svc : DS.service scaler_t model_t) (t : DS.times) (features : features_t) :
  let svc' :=
    DS.process_and_alert to_row scaler_transform model_predict model_decision_function
      fmt strftime isoformat sns_ok cloudwatch_ok svc t features in
  DS.detector svc' = DS.detector svc /\
  DS.feature_stats svc' = DS.feature_stats svc /\
  length (DS.prediction_history svc')
    = Nat.min (S (length (DS.prediction_history svc))) 1000 /\
  (AD.is_trained (DS.detector svc) = false ->
     DS.alert_manager svc' = DS.alert_manager svc /\
     DS.risk_scorer svc' = DS.risk_scorer svc /\
     last (DS.prediction_history svc') = Some DS.ModelNotTrained) /\
  (AM.console_out (DS.alert_manager svc') = AM.console_out (DS.alert_manager svc) \/
   exists a d,
     AM.console_out (DS.alert_manager svc')
       = (AM.console_out (DS.alert_manager svc) ++ [a])%list /\
     last (DS.prediction_history svc') = Some (DS.Detected d) /\
     DS.d_risk_score d = AM.risk_score a /\
     0 <= AM.risk_score a <= 100 /\
     (DS.d_prediction d = (-1)%Z \/ 50 < AM.risk_score a) /\
     AM.risk_level a = RiskScorer.get_risk_level (AM.risk_score a)).
Proof. apply process_and_alert_cases. Qed.

(** X25: a detection cycle keeps the training buffer of the anomaly
    detector within 10000 records: a collected record is appended as the
    newest entry, and when that makes 10001 the buffer is cut to its
    latest 5000. No record, or an empty one, changes nothing. *)
Theorem anomaly_detector_buffer_bounded {scaler_t model_t : Type}
    (to_row : features_t -> outcome (list (list Q)))
    (scaler_transform : scaler_t -> list (list Q) -> outcome (list (list Q)))
    (model_predict : model_t -> list (list Q) -> outcome Z)
    (model_decision_function : model_t -> list (list Q) -> outcome pyfloat)
    (fmt strftime : string -> Q -> string) (isoformat : Q -> string)
    (sns_ok cloudwatch_ok : AM.Alert -> bool)
    (svc : DS.service scaler_t model_t) (t : DS.times)
    (collected : option features_t) :
  (Z.of_nat (length (AD.training_data (DS.detector svc))) <= 10000)%Z ->
  let svc' :=
    DS._detection_cycle to_row scaler_transform model_predict model_decision_function
      fmt strftime isoformat sns_ok cloudwatch_ok svc t collected in
  (Z.of_nat (length (AD.training_data (DS.detector svc'))) <= 10000)%Z /\
  (forall features,
     collected = Some features -> size features <> 0%nat ->
     last (AD.training_data (DS.detector svc')) = Some features /\
     (Z.of_nat (length (AD.training_data (DS.detector svc))) < 10000 ->
      AD.training_data (DS.detector svc')
      = (AD.training_data (DS.detector svc) ++ [features])%list)%Z /\
     (Z.of_nat (length (AD.training_data (DS.detector svc))) = 10000 ->
      length (AD.training_data (DS.detector svc')) = 5000%nat)%Z).
Proof. apply detection_cycle_buffer. Qed.

Lemma anomaly_detector_buffer_bounded_witness :
  let svc' :=
    DS._detection_cycle Scenarios.row_of Scenarios.same_row Scenarios.says_normal
      Scenarios.scores_normal Examples.plain_text Examples.plain_text
      Examples.plain_iso Examples.delivered Examples.delivered
      Scenarios.quiet_service Scenarios.noon (Some (Examples.sample 40)) in
  (Z.of_nat (length (AD.training_data (DS.detector svc'))) <= 10000)%Z /\
  (forall features,
     Some (Examples.sample 40) = Some features -> size features <> 0%nat ->
     last (AD.training_data (DS.detector svc')) = Some features /\
     (Z.of_nat (length (AD.training_data (DS.detector Scenarios.quiet_service)))
        < 10000 ->
      AD.training_data (DS.detector svc')
      = (AD.training_data (DS.detector Scenarios.quiet_service) ++ [features])%list)%Z /\
     (Z.of_nat (length (AD.training_data (DS.detector Scenarios.quiet_service)))
        = 10000 ->
      length (AD.training_data (DS.detector svc')) = 5000%nat)%Z).
Proof.
  apply (anomaly_detector_buffer_bounded Scenarios.row_of Scenarios.same_row
           Scenarios.says_normal Scenarios.scores_normal Examples.plain_text
           Examples.plain_text Examples.plain_iso Examples.delivered Examples.delivered
           Scenarios.quiet_service Scenarios.noon (Some (Examples.sample 40))).
  simpl. lia.
Defined.

(** ** Derived metrics and what the extractor makes of them *)

Lemma simulated_error_rate_range (cpu : Q) :
  0 <= py_max 0 (Fin (py_min 20 (Fin ((cpu - 50) * (4 # 10))))) <= 20.
Proof.
  cbn [py_max py_min].
  destruct (Qltb ((cpu - 50) * (4 # 10)) 20) eqn:E1.
  - apply Qltb_lt in E1.
    destruct (Qltb 0 ((cpu - 50) * (4 # 10))) eqn:E2; [apply Qltb_lt in E2|]; lra.
  - destruct (Qltb 0 20); lra.
Qed.

Lemma simulated_response_time_range (cpu : Q) :
  100 <= py_max 100 (Fin (100 + (cpu - 30) * 10)).
Proof.
  cbn [py_max].
  destruct (Qltb 100 (100 + (cpu - 30) * 10)) eqn:E; [apply Qltb_lt in E|]; lra.
Qed.

Lemma simulated_request_count_range (bytes_in : Q) :
  1 <= inject_Z (Z.max 1 (CW.py_int (bytes_in / 1024))).
Proof.
  change 1 with (inject_Z 1). rewrite <- Zle_Qle. lia.
Qed.

(** X26: the derived series follow the source series point by point: the
    simulated error rate has one value per CPU sample, each between 0 and
    20; the simulated response time one value per CPU sample, each at
    least 100; the simulated request count one value per inbound-traffic
    sample, each at least 1. A missing or empty source series yields no
    derived series. *)
Theorem derived_metrics_ranges (metrics : gmap string (list Q)) :
  let derived := FE.series (CW._calculate_derived_metrics metrics) in
  let nonempty key :=
    match metrics !! key with
    | Some (x :: rest) => Some (x :: rest)
    | _ => None
    end in
  match nonempty "cpu_utilization" with
  | Some cpu_data =>
      (exists error_rate,
         derived !! "error_rate" = Some error_rate /\
         length error_rate = length cpu_data /\
         Forall (fun e => 0 <= e <= 20) error_rate) /\
      (exists response_time,
         derived !! "response_time" = Some response_time /\
         length response_time = length cpu_data /\
         Forall (fun r => 100 <= r) response_time)
  | None => derived !! "error_rate" = None /\ derived !! "response_time" = None
  end /\
  match nonempty "network_in" with
  | Some network_in =>
      exists request_count,
        derived !! "request_count" = Some request_count /\
        length request_count = length network_in /\
        Forall (fun n => 1 <= n) request_count
  | None => derived !! "request_count" = None
  end.
Proof.
  intros derived nonempty. unfold derived, nonempty, CW._calculate_derived_metrics.
  cbn [FE.series].
  destruct (metrics !! "cpu_utilization") as [[|c cs]|];
    destruct (metrics !! "network_in") as [[|n ns]|];
    (split;
     [ first
         [ split; skip_inserts; apply lookup_empty
         | split; eexists;
           (split; [skip_inserts; apply lookup_insert_eq|]);
           (split; [apply length_map|]);
           apply List.Forall_map; apply Forall_true; intros x;
           first [apply simulated_error_rate_range
                 | apply simulated_response_time_range] ]
     | first
         [ skip_inserts; apply lookup_empty
         | eexists;
           (split; [skip_inserts; apply lookup_insert_eq|]);
           (split; [apply length_map|]);
           apply List.Forall_map; apply Forall_true; intros x;
           apply simulated_request_count_range ] ]).
Qed.

Section PipelineFacts.

Variable np_std : list Q -> Q.
Variable np_percentile : list Q -> Q -> Q.
Variable np_corrcoef : list Q -> list Q -> pyfloat.
Variable pattern_search : string -> string -> bool.

Lemma merged_cpu_series (metrics : gmap string (list Q)) :
  FE.series (CW.add_derived_metrics metrics) !! "cpu_utilization"
  = metrics !! "cpu_utilization".
Proof.
  unfold CW.add_derived_metrics, CW._calculate_derived_metrics, dict_update.
  cbn [FE.series]. rewrite lookup_union_r; [reflexivity|].
  destruct (metrics !! "cpu_utilization") as [[|c cs]|];
    destruct (metrics !! "network_in") as [[|n ns]|];
    skip_inserts; apply lookup_empty.
Qed.

Lemma merged_error_rate_series (metrics : gmap string (list Q)) :
  match metrics !! "cpu_utilization" with
  | Some (c :: cs) =>
      exists error_rate,
        FE.series (CW.add_derived_metrics metrics) !! "error_rate" = Some error_rate /\
        length error_rate = length (c :: cs)
  | _ =>
      FE.series (CW.add_derived_metrics metrics) !! "error_rate"
      = metrics !! "error_rate"
  end.
Proof.
  unfold CW.add_derived_metrics, CW._calculate_derived_metrics, dict_update.
  cbn [FE.series].
  destruct (metrics !! "cpu_utilization") as [[|c cs]|];
    destruct (metrics !! "network_in") as [[|n ns]|];
    try (rewrite lookup_union_r; [reflexivity | skip_inserts; apply lookup_empty]);
    (eexists; split;
     [apply lookup_union_Some_l; skip_inserts; apply lookup_insert_eq
     | apply length_map]).
Qed.

(** On metrics that went through [add_derived_metrics] the correlation
    never raises, so the combined features are always written. *)
Lemma combined_on_merged (metrics : gmap string (list Q)) (logs : list FE.log_entry) :
  let combined :=
    FE._extract_combined_features np_corrcoef (CW.add_derived_metrics metrics) logs in
  combined !! "system_stress_score" = Some (VNum (Fin 0)) /\
  combined !! "anomaly_likelihood" = Some (VNum (Fin 0)).
Proof.
  intros combined. unfold combined, FE._extract_combined_features.
  rewrite merged_cpu_series.
  pose proof (merged_error_rate_series metrics) as He.
  destruct (metrics !! "cpu_utilization") as [[|c cs]|].
  - rewrite He. destruct (metrics !! "error_rate"); vm_compute; split; reflexivity.
  - destruct He as (e & -> & Hlen).
    destruct ((1 <? length (c :: cs))%nat && (1 <? length e)%nat).
    2:{ vm_compute. split; reflexivity. }
    rewrite Hlen, Nat.eqb_refl.
    generalize (np_corrcoef (c :: cs) e). intros x.
    destruct x; vm_compute; split; reflexivity.
  - vm_compute. split; reflexivity.
Qed.

End PipelineFacts.

(** X27: in a record extracted from metrics as [get_recent_metrics] returns
    them (derived series added), the stress score and the anomaly
    likelihood are always present and always 0, whatever the CPU, memory
    and log data say: the simulated error rate has the length of the CPU
    series, so the correlation never fails, and the combined features test
    entries of a dictionary that does not hold them. *)
Theorem retrieved_metrics_give_zero_stress_and_likelihood
    (np_std : list Q -> Q) (np_percentile : list Q -> Q -> Q)
    (np_corrcoef : list Q -> list Q -> pyfloat)
    (pattern_search : string -> string -> bool) (utc : string)
    (metrics : gmap string (list Q)) (logs : list FE.log_entry) :
  let record :=
    FE.extract_features np_std np_percentile np_corrcoef pattern_search utc
      (CW.add_derived_metrics metrics) logs in
  record !! "system_stress_score" = Some (VNum (Fin 0)) /\
  record !! "anomaly_likelihood" = Some (VNum (Fin 0)).
Proof.
  intros record. unfold record, FE.extract_features. cbn [try_except].
  unfold dict_update.
  destruct (combined_on_merged np_corrcoef metrics logs) as [H1 H2].
  split; rewrite lookup_insert_ne by discriminate;
    apply lookup_union_Some_l; assumption.
Qed.

(** ** Further properties of the feature extractor *)

Lemma Qlen_nonneg {A : Type} (l : list A) : 0 <= FE.Qlen l.
Proof.
  unfold FE.Qlen. change 0 with (inject_Z 0). rewrite <- Zle_Qle. lia.
Qed.

Lemma three_levels_count (a b c : string) (l : list string) :
  a <> b -> a <> c -> b <> c ->
  (length (filter (fun x => x = a) l) + length (filter (fun x => x = b) l)
   + length (filter (fun x => x = c) l) <= length l)%nat.
Proof.
  intros Hab Hac Hbc. induction l as [|x l IH]; [simpl; lia|].
  rewrite !filter_cons.
  destruct (decide (x = a)) as [Ea|Ha]; destruct (decide (x = b)) as [Eb|Hb];
    destruct (decide (x = c)) as [Ec|Hc]; simpl; try congruence; lia.
Qed.

Lemma level_ratios_sum (a b c : string) (levels : list string) (total : Q) :
  a <> b -> a <> c -> b <> c ->
  total == FE.Qlen levels -> 0 < total ->
  0 <= FE.count_level a levels / total /\
  0 <= FE.count_level b levels / total /\
  0 <= FE.count_level c levels / total /\
  FE.count_level a levels / total + FE.count_level b levels / total
    + FE.count_level c levels / total <= 1.
Proof.
  intros Hab Hac Hbc Ht Hpos.
  pose proof (three_levels_count a b c levels Hab Hac Hbc) as Hsum.
  unfold FE.count_level.
  pose proof (Qlen_nonneg (filter (fun x => x = a) levels)) as Ha.
  pose proof (Qlen_nonneg (filter (fun x => x = b) levels)) as Hb.
  pose proof (Qlen_nonneg (filter (fun x => x = c) levels)) as Hc.
  assert (Hle : FE.Qlen (filter (fun x => x = a) levels)
                + FE.Qlen (filter (fun x => x = b) levels)
                + FE.Qlen (filter (fun x => x = c) levels) <= total).
  { rewrite Ht. unfold FE.Qlen. rewrite <- !inject_Z_plus, <- Zle_Qle. lia. }
  set (na := FE.Qlen (filter (fun x => x = a) levels)) in *.
  set (nb := FE.Qlen (filter (fun x => x = b) levels)) in *.
  set (nc := FE.Qlen (filter (fun x => x = c) levels)) in *.
  repeat split; try (apply Qle_shift_div_l; [exact Hpos | lra]).
  assert (E : na / total + nb / total + nc / total == (na + nb + nc) / total)
    by (field; lra).
  rewrite E. apply Qle_shift_div_r; [exact Hpos | lra].
Qed.

Section RatioFacts.

Variable np_std : list Q -> Q.
Variable np_percentile : list Q -> Q -> Q.
Variable np_corrcoef : list Q -> list Q -> pyfloat.
Variable pattern_search : string -> string -> bool.

Lemma combined_has_no_level_ratio (metrics : FE.metrics_t) (logs : list FE.log_entry)
    (key : string) :
  key = "log_error_ratio" \/ key = "log_warning_ratio" \/ key = "log_info_ratio" ->
  FE._extract_combined_features np_corrcoef metrics logs !! key = None.
Proof.
  intros Hk. unfold FE._extract_combined_features.
  destruct (FE.series metrics !! "cpu_utilization") as [c|];
    destruct (FE.series metrics !! "error_rate") as [e|].
  4:{ destruct Hk as [->|[->| ->]]; vm_compute; reflexivity. }
  3:{ destruct Hk as [->|[->| ->]]; vm_compute; reflexivity. }
  2:{ destruct Hk as [->|[->| ->]]; vm_compute; reflexivity. }
  destruct ((1 <? length c)%nat && (1 <? length e)%nat).
  2:{ destruct Hk as [->|[->| ->]]; vm_compute; reflexivity. }
  destruct (length c =? length e)%nat.
  2:{ destruct Hk as [->|[->| ->]]; vm_compute; reflexivity. }
  generalize (np_corrcoef c e). intros x.
  destruct x; destruct Hk as [->|[->| ->]]; vm_compute; reflexivity.
Qed.

Lemma log_features_level_ratios (logs : list FE.log_entry) :
  exists e w i : Q,
    FE._extract_log_features np_percentile pattern_search logs !! "log_error_ratio"
      = Some (VNum (Fin e)) /\
    FE._extract_log_features np_percentile pattern_search logs !! "log_warning_ratio"
      = Some (VNum (Fin w)) /\
    FE._extract_log_features np_percentile pattern_search logs !! "log_info_ratio"
      = Some (VNum (Fin i)) /\
    0 <= e /\ 0 <= w /\ 0 <= i /\ e + w + i <= 1.
Proof.
  unfold FE._extract_log_features.
  destruct logs as [|lg logs'].
  { exists 0, 0, 0. repeat split; try (vm_compute; reflexivity); lra. }
  set (l := lg :: logs').
  set (levels := map (fun log => string_upper (default "INFO" (FE.level log))) l).
  destruct (level_ratios_sum "ERROR" "WARNING" "INFO" levels (FE.Qlen l))
    as (He & Hw & Hi & Hsum); try discriminate.
  { unfold levels, FE.Qlen. rewrite length_map. reflexivity. }
  { unfold l, FE.Qlen. change 0 with (inject_Z 0). rewrite <- Zlt_Qlt.
    simpl length. lia. }
  exists (FE.count_level "ERROR" levels / FE.Qlen l),
         (FE.count_level "WARNING" levels / FE.Qlen l),
         (FE.count_level "INFO" levels / FE.Qlen l).
  cbn [FE.log_pattern_names fold_left append].
  split; [|split; [|split; [|repeat split; assumption]]];
    destruct (FE.response_times_of l); destruct (filter _ l);
    skip_inserts; apply lookup_insert_eq.
Qed.

End RatioFacts.

(** X28: every extracted record holds the shares of ERROR, WARNING and INFO
    entries among the logs; each share is a number that is not negative and
    the three together never exceed 1 (they are 0 for an empty log list). *)
Theorem log_level_ratios_bounded
    (np_std : list Q -> Q) (np_percentile : list Q -> Q -> Q)
    (np_corrcoef : list Q -> list Q -> pyfloat)
    (pattern_search : string -> string -> bool) (utc : string)
    (metrics : FE.metrics_t) (logs : list FE.log_entry) :
  let record :=
    FE.extract_features np_std np_percentile np_corrcoef pattern_search utc
      metrics logs in
  exists e w i : Q,
    record !! "log_error_ratio" = Some (VNum (Fin e)) /\
    record !! "log_warning_ratio" = Some (VNum (Fin w)) /\
    record !! "log_info_ratio" = Some (VNum (Fin i)) /\
    0 <= e /\ 0 <= w /\ 0 <= i /\ e + w + i <= 1.
Proof.
  intros record. unfold record, FE.extract_features. cbn [try_except].
  unfold dict_update.
  destruct (log_features_level_ratios np_percentile pattern_search logs)
    as (e & w & i & He & Hw & Hi & Hrange).
  exists e, w, i.
  split; [|split; [|split; [|exact Hrange]]];
    rewrite lookup_insert_ne by discriminate;
    rewrite lookup_union_r by (apply combined_has_no_level_ratio; auto);
    apply lookup_union_Some_l; assumption.
Qed.

(** X29: the error spike indicator is a number between 0 and 10 for every
    list of error entries. *)
Theorem error_spike_range (error_logs : list FE.log_entry) :
  0 <= FE._detect_error_spike error_logs <= 10.
Proof.
  unfold FE._detect_error_spike.
  destruct (length error_logs <? 2)%nat; [lra|].
  destruct (size (FE.minute_counts error_logs) <? 2)%nat; [lra|].
  set (recent := default O _). set (previous := default O _).
  assert (Hr : 0 <= inject_Z (Z.of_nat recent)).
  { change 0 with (inject_Z 0). rewrite <- Zle_Qle. lia. }
  assert (Hp : 0 < inject_Z (Z.of_nat (Nat.max previous 1))).
  { change 0 with (inject_Z 0). rewrite <- Zlt_Qlt. lia. }
  assert (Hq : 0 <= inject_Z (Z.of_nat recent) / inject_Z (Z.of_nat (Nat.max previous 1))).
  { apply Qle_shift_div_l; [exact Hp | lra]. }
  destruct (Qltb 10 _) eqn:E; [lra|]. apply Qltb_ge in E. lra.
Qed.




